(** * DPDP AI Guardian: session persistence, conversation replay and chat relay

    A shallow embedding of
      - the Postgres schema, row-level-security policies and trigger of the
        migration (tables [chat_sessions] and [chat_messages]),
      - the conversation manager of [src/pages/Index.tsx]
        ([loadSession], [handleNewChat], [handleSubmit]),
      - the relay endpoint of [public/server.js] ([POST /chat]),
      - the sidebar ([fetchSessions], [handleDeleteSession], [formatDate]),
        the input box ([handleSubmit], [handleFileUpload], [removeFile],
        [formatFileSize]) and [toggleFinding] of the compliance report.

    JavaScript strings are sequences of UTF-16 code units; React state is a
    record threaded through a small state-and-exception monad; everything the
    program cannot decide by itself (transport faults, generated identifiers,
    the clock, the answer of the completion API) is an explicit input. *)

From Stdlib Require Import List ZArith NArith Arith Lia Bool String Ascii QArith.
From Stdlib Require Import Sorting.Sorted Sorting.Permutation.
Import ListNotations.
Local Open Scope Z_scope.

(* ================================================================== *)
(** ** JavaScript strings *)

Module Js.

(** One UTF-16 code unit. *)
Definition codeunit := N.
Definition jsstring := list codeunit.

(** A string literal of the source. *)
Definition lit (s : string) : jsstring :=
  map N_of_ascii (list_ascii_of_string s).

Definition jsstring_eq_dec (a b : jsstring) : {a = b} + {a <> b} :=
  list_eq_dec N.eq_dec a b.

(** [a === b] on strings. *)
Definition strict_eq (a b : jsstring) : bool :=
  if jsstring_eq_dec a b then true else false.

(** ToBoolean on a string: only the empty string is falsy. *)
Definition truthy (s : jsstring) : bool :=
  match s with [] => false | _ :: _ => true end.

(** [s || d] on strings. *)
Definition or_else (s d : jsstring) : jsstring :=
  if truthy s then s else d.

(** [String.prototype.slice(start, end)] with integer arguments. *)
Definition slice (s : jsstring) (start end_ : Z) : jsstring :=
  let len := Z.of_nat (List.length s) in
  let from := if start <? 0 then Z.max (len + start) 0 else Z.min start len in
  let to := if end_ <? 0 then Z.max (len + end_) 0 else Z.min end_ len in
  if from >=? to then []
  else firstn (Z.to_nat (to - from)) (skipn (Z.to_nat from) s).

End Js.

Import Js.

(* ================================================================== *)
(** ** The session store: schema, policies, trigger *)

Definition Uuid := nat.
Definition Timestamp := Z.

(** [role TEXT NOT NULL CHECK (role IN ('user', 'assistant'))]. *)
Inductive Role := role_user | role_assistant.

Definition Role_eqb (a b : Role) : bool :=
  match a, b with
  | role_user, role_user | role_assistant, role_assistant => true
  | _, _ => false
  end.

Definition role_text (r : Role) : jsstring :=
  match r with
  | role_user => lit "user"
  | role_assistant => lit "assistant"
  end.

(** A row of [public.chat_sessions]. *)
Record chat_session := {
  cs_id : Uuid;
  cs_user_id : Uuid;
  cs_title : jsstring;
  cs_created_at : Timestamp;
  cs_updated_at : Timestamp
}.

(** A row of [public.chat_messages]; [files] is the only nullable column. *)
Record chat_message := {
  cm_id : Uuid;
  cm_session_id : Uuid;
  cm_role : Role;
  cm_content : jsstring;
  cm_files : option (list jsstring);
  cm_created_at : Timestamp
}.

(** The two tables in insertion order, and the state of [gen_random_uuid()],
    which hands out identifiers never used before. *)
Record Database := {
  chat_sessions : list chat_session;
  chat_messages : list chat_message;
  uuid_seed : Uuid
}.

Inductive PgError :=
| RowLevelSecurityViolation
| ForeignKeyViolation
| TransportError.

(** The [{ data, error }] object every supabase query resolves to. *)
Record Response (A : Type) := {
  data : option A;
  error : option PgError
}.
Arguments data {A} _.
Arguments error {A} _.

Definition ok {A} (a : A) : Response A := {| data := Some a; error := None |}.
Definition failed {A} (e : PgError) : Response A := {| data := None; error := Some e |}.

Module Pg.

(** [auth.uid() = user_id]; [auth.uid()] is NULL for an anonymous caller
    and a NULL comparison does not pass a policy. *)
Definition owns (auth_uid : option Uuid) (s : chat_session) : bool :=
  match auth_uid with
  | Some u => Nat.eqb u (cs_user_id s)
  | None => false
  end.

(** [EXISTS (SELECT 1 FROM chat_sessions WHERE chat_sessions.id =
    chat_messages.session_id AND chat_sessions.user_id = auth.uid())]. *)
Definition session_owned (auth_uid : option Uuid) (tbl : list chat_session)
           (session_id : Uuid) : bool :=
  existsb (fun s => Nat.eqb (cs_id s) session_id && owns auth_uid s) tbl.

(** [REFERENCES public.chat_sessions(id)]. *)
Definition session_exists (tbl : list chat_session) (session_id : Uuid) : bool :=
  existsb (fun s => Nat.eqb (cs_id s) session_id) tbl.

(** [INSERT INTO chat_sessions (user_id, title) ... RETURNING *] under the
    policy "Users can create their own chat sessions". *)
Definition insert_session (auth_uid : option Uuid) (now : Timestamp)
           (user_id : Uuid) (title : jsstring) (d : Database)
  : Response chat_session * Database :=
  let row := {| cs_id := uuid_seed d; cs_user_id := user_id; cs_title := title;
                cs_created_at := now; cs_updated_at := now |} in
  if owns auth_uid row then
    (ok row, {| chat_sessions := chat_sessions d ++ [row];
                chat_messages := chat_messages d;
                uuid_seed := S (uuid_seed d) |})
  else (failed RowLevelSecurityViolation, d).

(** [INSERT INTO chat_messages (session_id, role, content, files)] under the
    policy "Users can create messages in their sessions" (checked on the
    new row) and the foreign key (checked once the row is in).  No statement touches [chat_sessions] here: the schema has
    no trigger on [chat_messages]. *)
Definition insert_message (auth_uid : option Uuid) (now : Timestamp)
           (session_id : Uuid) (role : Role) (content : jsstring)
           (files : option (list jsstring)) (d : Database)
  : Response unit * Database :=
  if negb (session_owned auth_uid (chat_sessions d) session_id) then
    (failed RowLevelSecurityViolation, d)
  else if negb (session_exists (chat_sessions d) session_id) then
    (failed ForeignKeyViolation, d)
  else
    let row := {| cm_id := uuid_seed d; cm_session_id := session_id;
                  cm_role := role; cm_content := content; cm_files := files;
                  cm_created_at := now |} in
    (ok tt, {| chat_sessions := chat_sessions d;
               chat_messages := chat_messages d ++ [row];
               uuid_seed := S (uuid_seed d) |}).

(** [update_updated_at_column()], fired [BEFORE UPDATE ON chat_sessions
    FOR EACH ROW]. *)
Definition update_updated_at_column (now : Timestamp) (new : chat_session)
  : chat_session :=
  {| cs_id := cs_id new; cs_user_id := cs_user_id new; cs_title := cs_title new;
     cs_created_at := cs_created_at new; cs_updated_at := now |}.

(** [UPDATE chat_sessions SET title = ... WHERE id = ...] under the policy
    "Users can update their own chat sessions"; returns the number of rows
    updated. *)
Definition update_session_title (auth_uid : option Uuid) (now : Timestamp)
           (id : Uuid) (title : jsstring) (d : Database)
  : Response nat * Database :=
  let hit s := Nat.eqb (cs_id s) id && owns auth_uid s in
  let set s := {| cs_id := cs_id s; cs_user_id := cs_user_id s; cs_title := title;
                  cs_created_at := cs_created_at s;
                  cs_updated_at := cs_updated_at s |} in
  (ok (List.length (filter hit (chat_sessions d))),
   {| chat_sessions :=
        map (fun s => if hit s then update_updated_at_column now (set s) else s)
            (chat_sessions d);
      chat_messages := chat_messages d;
      uuid_seed := uuid_seed d |}).

(** [DELETE FROM chat_sessions WHERE id = ...] under the policy "Users can
    delete their own chat sessions", with [ON DELETE CASCADE] on
    [chat_messages.session_id]; returns the number of sessions deleted. *)
Definition delete_session (auth_uid : option Uuid) (id : Uuid) (d : Database)
  : Response nat * Database :=
  let hit s := Nat.eqb (cs_id s) id && owns auth_uid s in
  let gone := filter hit (chat_sessions d) in
  let cascaded m := existsb (fun s => Nat.eqb (cs_id s) (cm_session_id m)) gone in
  (ok (List.length gone),
   {| chat_sessions := filter (fun s => negb (hit s)) (chat_sessions d);
      chat_messages := filter (fun m => negb (cascaded m)) (chat_messages d);
      uuid_seed := uuid_seed d |}).

(** [SELECT * FROM chat_sessions] under the policy "Users can view their
    own chat sessions". *)
Definition select_sessions (auth_uid : option Uuid) (d : Database)
  : list chat_session :=
  filter (owns auth_uid) (chat_sessions d).

(** [ORDER BY created_at ASC].  Rows with equal timestamps keep their table
    order here; Postgres promises nothing about them. *)
Fixpoint place (m : chat_message) (sorted : list chat_message) : list chat_message :=
  match sorted with
  | [] => [m]
  | h :: t =>
      if cm_created_at m <=? cm_created_at h then m :: sorted
      else h :: place m t
  end.

Definition order_by_created_at (rows : list chat_message) : list chat_message :=
  fold_right place [] rows.

(** The rows of [chat_messages] a caller may see that belong to a session:
    [WHERE session_id = ...] and the policy "Users can view messages from
    their sessions". *)
Definition visible_messages (auth_uid : option Uuid) (session_id : Uuid)
           (d : Database) : list chat_message :=
  filter (fun m => Nat.eqb (cm_session_id m) session_id
                   && session_owned auth_uid (chat_sessions d) (cm_session_id m))
         (chat_messages d).

(** [SELECT * FROM chat_messages WHERE session_id = ... ORDER BY created_at]. *)
Definition select_messages (auth_uid : option Uuid) (session_id : Uuid)
           (d : Database) : Response (list chat_message) :=
  ok (order_by_created_at (visible_messages auth_uid session_id d)).

End Pg.

(* ================================================================== *)
(** ** The conversation manager ([src/pages/Index.tsx]) *)

(** [Message.id]: a literal of the source or a generated identifier. *)
Inductive Key :=
| key_literal (s : jsstring)
| key_client (u : Uuid)       (* crypto.randomUUID() *)
| key_row (u : Uuid).         (* the id column of a loaded row *)

Record Message := {
  msg_id : Key;
  msg_role : Role;
  msg_content : jsstring;
  msg_files : option (list jsstring)
}.

Record UploadedFile := {
  uf_id : Uuid;
  uf_name : jsstring;
  uf_size : Z;
  uf_type : jsstring
}.

Inductive Model := chatgpt | gemini.

Definition model_text (m : Model) : jsstring :=
  match m with
  | chatgpt => lit "chatgpt"
  | gemini => lit "gemini"
  end.

(** The identity [useAuth()] provides. *)
Record AuthUser := { uid : Uuid }.

(** The component state of [Index]. *)
Record UiState := {
  messages : list Message;
  showResults : bool;
  isLoading : bool;
  currentSessionId : option Uuid;
  selectedModel : Model;
  user : option AuthUser
}.

(** One [{ role, content }] entry of a transcript on the wire. *)
Record Turn := {
  turn_role : jsstring;
  turn_content : jsstring
}.

(** The JSON body of [POST /chat/].  A field the relay reads as [undefined]
    (or, for [history], as something it cannot spread) is [None]. *)
Record ChatRequest := {
  message : jsstring;
  model : option jsstring;
  history : option (list Turn)
}.

(** The JSON body the relay answers with. *)
Record ChatReply := {
  status : jsstring;
  response : jsstring;
  reply_error : jsstring
}.

Inductive LogLevel := warn | log_error.

Record LogEntry := {
  level : LogLevel;
  label : jsstring
}.

(** Everything [Index] reads and writes. *)
Record World := {
  ui : UiState;
  db : Database;
  console : list LogEntry;
  requests : list ChatRequest     (* the bodies handed to [fetch], oldest first *)
}.

(** *** Inputs the component does not control *)

(** How a supabase call ends up: the statement runs on the database, or the
    client resolves to [{ error }], or the promise rejects.  A call that
    does not go through is taken not to have run its statement. *)
Inductive Transport := Reached | Unreachable | Rejects.

(** What [fetch] followed by [response.json()] gives. *)
Inductive FetchOutcome :=
| fetch_rejects
| json_rejects
| json_body (reply : ChatReply).

Record SubmitEnv := {
  user_key : Uuid;                 (* crypto.randomUUID(), user message *)
  assistant_key : Uuid;            (* crypto.randomUUID(), assistant message *)
  error_key : Uuid;                (* crypto.randomUUID(), error message *)
  session_insert : Transport;
  session_clock : Timestamp;
  user_insert : Transport;
  user_clock : Timestamp;
  gateway : FetchOutcome;
  assistant_insert : Transport;
  assistant_clock : Timestamp
}.

(** *** State and exceptions *)

Inductive Exn :=
| SupabaseRejected
| FetchRejected
| JsonRejected
| JsError (text : jsstring).

Inductive Completion (A : Type) :=
| Normal (a : A)
| Abrupt (e : Exn).
Arguments Normal {A} _.
Arguments Abrupt {A} _.

Definition Prog (A : Type) : Type := World -> Completion A * World.

Definition ret {A} (a : A) : Prog A := fun w => (Normal a, w).

Definition bind {A B} (m : Prog A) (k : A -> Prog B) : Prog B :=
  fun w =>
    match m w with
    | (Normal a, w') => k a w'
    | (Abrupt e, w') => (Abrupt e, w')
    end.

Definition throw {A} (e : Exn) : Prog A := fun w => (Abrupt e, w).

(** [try { body } catch (err) { handler }]. *)
Definition try_catch {A} (body : Prog A) (handler : Exn -> Prog A) : Prog A :=
  fun w =>
    match body w with
    | (Normal a, w') => (Normal a, w')
    | (Abrupt e, w') => handler e w'
    end.

(** [try { body } finally { cleanup }]. *)
Definition try_finally {A} (body : Prog A) (cleanup : Prog unit) : Prog A :=
  fun w =>
    match body w with
    | (c, w') =>
        match cleanup w' with
        | (Normal _, w'') => (c, w'')
        | (Abrupt e, w'') => (Abrupt e, w'')
        end
    end.

Declare Scope prog_scope.
Delimit Scope prog_scope with prog.
Notation "x <- m ;; k" := (bind m (fun x => k))
  (at level 61, m at next level, right associativity) : prog_scope.
Notation "m ;; k" := (bind m (fun _ => k))
  (at level 61, right associativity) : prog_scope.
Local Open Scope prog_scope.

Definition with_ui (f : UiState -> UiState) (w : World) : World :=
  {| ui := f (ui w); db := db w; console := console w; requests := requests w |}.

Definition get_ui : Prog UiState := fun w => (Normal (ui w), w).

Definition setMessages (f : list Message -> list Message) : Prog unit :=
  fun w => (Normal tt, with_ui (fun u =>
    {| messages := f (messages u); showResults := showResults u;
       isLoading := isLoading u; currentSessionId := currentSessionId u;
       selectedModel := selectedModel u; user := user u |}) w).

Definition setShowResults (b : bool) : Prog unit :=
  fun w => (Normal tt, with_ui (fun u =>
    {| messages := messages u; showResults := b;
       isLoading := isLoading u; currentSessionId := currentSessionId u;
       selectedModel := selectedModel u; user := user u |}) w).

Definition setIsLoading (b : bool) : Prog unit :=
  fun w => (Normal tt, with_ui (fun u =>
    {| messages := messages u; showResults := showResults u;
       isLoading := b; currentSessionId := currentSessionId u;
       selectedModel := selectedModel u; user := user u |}) w).

Definition setCurrentSessionId (s : option Uuid) : Prog unit :=
  fun w => (Normal tt, with_ui (fun u =>
    {| messages := messages u; showResults := showResults u;
       isLoading := isLoading u; currentSessionId := s;
       selectedModel := selectedModel u; user := user u |}) w).

Definition console_warn (text : string) : Prog unit :=
  fun w => (Normal tt,
    {| ui := ui w; db := db w;
       console := console w ++ [{| level := warn; label := lit text |}];
       requests := requests w |}).

Definition console_error (text : string) : Prog unit :=
  fun w => (Normal tt,
    {| ui := ui w; db := db w;
       console := console w ++ [{| level := log_error; label := lit text |}];
       requests := requests w |}).

(** [auth.uid()] as the database sees the signed-in client. *)
Definition auth_uid (w : World) : option Uuid := option_map uid (user (ui w)).

(** [await supabase.from(...)...]: the statement [q] runs with the caller's
    identity when the request reaches the database. *)
Definition supabase {A} (t : Transport)
           (q : option Uuid -> Database -> Response A * Database)
  : Prog (Response A) :=
  fun w =>
    match t with
    | Reached =>
        let '(r, d) := q (auth_uid w) (db w) in
        (Normal r, {| ui := ui w; db := d; console := console w;
                      requests := requests w |})
    | Unreachable => (Normal (failed TransportError), w)
    | Rejects => (Abrupt SupabaseRejected, w)
    end.

(** [await fetch(url, { body })] then [await response.json()]. *)
Definition fetch_json (outcome : FetchOutcome) (body : ChatRequest) : Prog ChatReply :=
  fun w =>
    let w' := {| ui := ui w; db := db w; console := console w;
                 requests := requests w ++ [body] |} in
    match outcome with
    | fetch_rejects => (Abrupt FetchRejected, w')
    | json_rejects => (Abrupt JsonRejected, w')
    | json_body reply => (Normal reply, w')
    end.

(** *** The handlers *)

Definition message_of_row (msg : chat_message) : Message :=
  {| msg_id := key_row (cm_id msg);
     msg_role := cm_role msg;
     msg_content := cm_content msg;
     msg_files := Some (match cm_files msg with Some fs => fs | None => [] end) |}.

Definition loadSession (t : Transport) (sessionId : Uuid) : Prog unit :=
  try_catch
    (r <- supabase t (fun a d => (Pg.select_messages a sessionId d, d)) ;;
     match error r, data r with
     | None, Some rows =>
         let loadedMessages := map message_of_row rows in
         setMessages (fun _ => loadedMessages) ;;
         setShowResults (0 <? List.length loadedMessages)%nat ;;
         setCurrentSessionId (Some sessionId)
     | _, _ => ret tt
     end)
    (fun _ => console_warn "Supabase load session error:").

Definition handleNewChat : Prog unit :=
  setMessages (fun _ => []) ;;
  setShowResults false ;;
  setCurrentSessionId None.

Definition handleSelectSession (t : Transport) (sessionId : option Uuid) : Prog unit :=
  match sessionId with
  | Some s => loadSession t s
  | None => handleNewChat
  end.

Definition turn_of_message (msg : Message) : Turn :=
  {| turn_role := role_text (msg_role msg); turn_content := msg_content msg |}.

Definition error_text : jsstring :=
  lit "Sorry, I encountered an error. Please try again.".

(** Lines 120-125: the user turn. *)
Definition userMessage_of (env : SubmitEnv) (query : jsstring)
           (files : list UploadedFile) : Message :=
  {| msg_id := key_client (user_key env);
     msg_role := role_user;
     msg_content := or_else query (lit "Hello");
     msg_files := Some (map uf_name files) |}.

(** Lines 130-149: lazily create the session; gives the local [sessionId]. *)
Definition ensure_session (env : SubmitEnv) (closure : UiState) (query : jsstring)
  : Prog (option Uuid) :=
  let sessionId := currentSessionId closure in
  match user closure, sessionId with
  | Some u, None =>
      try_catch
        (let title := or_else (slice query 0 50) (lit "AI Chat") in
         r <- supabase (session_insert env)
                (fun a d => Pg.insert_session a (session_clock env) (uid u) title d) ;;
         match error r, data r with
         | None, Some sessionData =>
             setCurrentSessionId (Some (cs_id sessionData)) ;;
             ret (Some (cs_id sessionData))
         | _, _ => ret sessionId
         end)
        (fun _ => console_warn "Supabase session creation error:" ;; ret sessionId)
  | _, _ => ret sessionId
  end.

(** Lines 151-163: save the user message if a session exists. *)
Definition save_user_message (env : SubmitEnv) (sessionId : option Uuid)
           (userMessage : Message) : Prog unit :=
  match sessionId with
  | Some sid =>
      try_catch
        (supabase (user_insert env)
           (fun a d => Pg.insert_message a (user_clock env) sid role_user
                         (msg_content userMessage) (msg_files userMessage) d) ;;
         ret tt)
        (fun _ => console_warn "Supabase message save error:")
  | None => ret tt
  end.

(** Lines 172-179: the request body. *)
Definition request_body (closure : UiState) (query : jsstring) : ChatRequest :=
  {| message := query;
     model := Some (model_text (selectedModel closure));
     history := Some (map turn_of_message (messages closure)) |}.

(** Lines 165-215: call the relay and record its answer. *)
Definition call_gateway (env : SubmitEnv) (closure : UiState) (query : jsstring)
           (sessionId : option Uuid) : Prog unit :=
  try_finally
    (try_catch
       (reply <- fetch_json (gateway env) (request_body closure query) ;;
        if strict_eq (status reply) (lit "success") then
          let assistantMessage :=
            {| msg_id := key_client (assistant_key env);
               msg_role := role_assistant;
               msg_content := response reply;
               msg_files := None |} in
          setMessages (fun prev => prev ++ [assistantMessage]) ;;
          setShowResults true ;;
          match sessionId with
          | Some sid =>
              supabase (assistant_insert env)
                (fun a d => Pg.insert_message a (assistant_clock env) sid
                              role_assistant (msg_content assistantMessage)
                              (Some []) d) ;;
              ret tt
          | None => ret tt
          end
        else throw (JsError (reply_error reply)))
       (fun _ =>
          console_error "Error calling AI API:" ;;
          let errorMessage :=
            {| msg_id := key_client (error_key env);
               msg_role := role_assistant;
               msg_content := error_text;
               msg_files := None |} in
          setMessages (fun prev => prev ++ [errorMessage])))
    (setIsLoading false).

(** [handleSubmit(query, files)].  The values of [messages],
    [currentSessionId], [user] and [selectedModel] it reads are those of the
    render it was created in ([closure]); the setters act on the live state. *)
Definition handleSubmit (env : SubmitEnv) (query : jsstring)
           (files : list UploadedFile) : Prog unit :=
  closure <- get_ui ;;
  let userMessage := userMessage_of env query files in
  setMessages (fun prev => prev ++ [userMessage]) ;;
  setIsLoading true ;;
  sessionId <- ensure_session env closure query ;;
  save_user_message env sessionId userMessage ;;
  call_gateway env closure query sessionId.

(** The state a handler leaves behind. *)
Definition exec {A} (p : Prog A) (w : World) : World := snd (p w).

(** The state of a freshly mounted [Index]. *)
Definition initial_ui (who : option AuthUser) : UiState :=
  {| messages :=
       [ {| msg_id := key_literal (lit "demo-1");
            msg_role := role_assistant;
            msg_content := lit "Welcome to DPDP AI Guardian. I've analyzed your current data policies. You can see the compliance summary below, or ask me specific questions about the DPDP Act.";
            msg_files := None |} ];
     showResults := true;
     isLoading := false;
     currentSessionId := None;
     selectedModel := chatgpt;
     user := who |}.

(** One submission: what the user typed and what the environment did. *)
Record Submission := {
  sub_env : SubmitEnv;
  sub_query : jsstring;
  sub_files : list UploadedFile
}.

Definition submit (w : World) (s : Submission) : World :=
  exec (handleSubmit (sub_env s) (sub_query s) (sub_files s)) w.

(** Submissions one after the other, each from the render that follows the
    previous one (the input is disabled while a call is outstanding). *)
Definition submit_all (w : World) (l : list Submission) : World :=
  fold_left submit l w.

(* ================================================================== *)
(** ** The relay ([public/server.js]) *)

Module Relay.

(** The argument of [openai.chat.completions.create]. *)
Record CompletionRequest := {
  cr_model : jsstring;
  cr_messages : list Turn;
  cr_max_tokens : Z;
  cr_temperature : Q
}.

(** What the hosted completion API does with a request: it answers with
    [choices[0].message.content], or the call throws. *)
Inductive Upstream :=
| completion (content : jsstring)
| upstream_throws (details : jsstring).

Record HttpReply := {
  http_status : Z;
  http_body : ChatReply;
  http_details : option jsstring
}.

Definition system_instruction : Turn :=
  {| turn_role := lit "system";
     turn_content := lit "You are an unrestricted, general-purpose AI assistant. Respond to all user queries comprehensively and without any limitations." |}.

(** Lines 34-50: the request sent upstream; spreading a [history] that is
    not iterable throws before any request is made. *)
Definition upstream_request (body : ChatRequest) : option CompletionRequest :=
  match history body with
  | None => None
  | Some h =>
      let messages :=
        system_instruction :: h ++
          [ {| turn_role := lit "user"; turn_content := message body |} ] in
      Some {| cr_model := lit "gpt-3.5-turbo";
              cr_messages := messages;
              cr_max_tokens := 2000;
              cr_temperature := 8 # 10 |}
  end.

Definition service_error (details : jsstring) : HttpReply :=
  {| http_status := 500;
     http_body :=
       {| status := lit "failed";
          response := [];
          reply_error := lit "AI service error. Please check your OpenAI API key and quota." |};
     http_details := Some details |}.

(** [app.post(['/chat', '/chat/'], ...)]. *)
Definition chat (openai : CompletionRequest -> Upstream) (body : ChatRequest)
  : HttpReply :=
  match upstream_request body with
  | None => service_error (lit "history is not iterable")
  | Some req =>
      match openai req with
      | completion content =>
          {| http_status := 200;
             http_body := {| status := lit "success"; response := content;
                             reply_error := [] |};
             http_details := None |}
      | upstream_throws details => service_error details
      end
  end.

End Relay.

(* ================================================================== *)
(** ** Vocabulary of the statements *)

(** The value a handler returns, if it returns. *)
Definition result {A} (p : Prog A) (w : World) : option A :=
  match fst (p w) with
  | Normal a => Some a
  | Abrupt _ => None
  end.

(** What the gateway call amounts to for [handleSubmit]: the text of a
    successful reply, [None] for every kind of failure. *)
Definition gateway_reply (g : FetchOutcome) : option jsstring :=
  match g with
  | json_body reply =>
      if strict_eq (status reply) (lit "success") then Some (response reply) else None
  | fetch_rejects | json_rejects => None
  end.

(** The local variable [sessionId] after the session phase. *)
Definition local_session (env : SubmitEnv) (closure : UiState) (query : jsstring)
           (w : World) : option Uuid :=
  match result (ensure_session env closure query) w with
  | Some s => s
  | None => None
  end.

(** The row a signed-in user's first submission creates. *)
Definition new_session (env : SubmitEnv) (u : AuthUser) (query : jsstring)
           (d : Database) : chat_session :=
  {| cs_id := uuid_seed d; cs_user_id := uid u;
     cs_title := or_else (slice query 0 50) (lit "AI Chat");
     cs_created_at := session_clock env; cs_updated_at := session_clock env |}.

(** The row that saves a user turn. *)
Definition user_row (env : SubmitEnv) (id sid : Uuid) (userMessage : Message)
  : chat_message :=
  {| cm_id := id; cm_session_id := sid; cm_role := role_user;
     cm_content := msg_content userMessage; cm_files := msg_files userMessage;
     cm_created_at := user_clock env |}.

(** Lines 185-189: the assistant turn. *)
Definition assistantMessage_of (env : SubmitEnv) (text : jsstring) : Message :=
  {| msg_id := key_client (assistant_key env); msg_role := role_assistant;
     msg_content := text; msg_files := None |}.

(** Lines 207-211: the synthetic error turn. *)
Definition errorMessage_of (env : SubmitEnv) : Message :=
  {| msg_id := key_client (error_key env); msg_role := role_assistant;
     msg_content := error_text; msg_files := None |}.

(** The row that saves an assistant turn. *)
Definition assistant_row (env : SubmitEnv) (id sid : Uuid) (text : jsstring)
  : chat_message :=
  {| cm_id := id; cm_session_id := sid; cm_role := role_assistant;
     cm_content := text; cm_files := Some [];
     cm_created_at := assistant_clock env |}.

(** The state [handleSubmit] has reached when it is about to call the
    gateway (line 165). *)
Definition before_gateway (env : SubmitEnv) (query : jsstring)
           (files : list UploadedFile) (w : World) : World :=
  let userMessage := userMessage_of env query files in
  let w1 := exec (setMessages (fun prev => prev ++ [userMessage]) ;; setIsLoading true) w in
  exec (save_user_message env (local_session env (ui w) query w1) userMessage)
       (exec (ensure_session env (ui w) query) w1).

(** The stored assistant turns. *)
Definition assistant_rows (d : Database) : list chat_message :=
  filter (fun m => Role_eqb (cm_role m) role_assistant) (chat_messages d).

(** The assistant turn the transcript ends with: the reply, or the fixed
    error text when the gateway call failed. *)
Definition reply_message (env : SubmitEnv) : Message :=
  match gateway_reply (gateway env) with
  | Some text => assistantMessage_of env text
  | None => errorMessage_of env
  end.

(** What the gateway phase writes to the console. *)
Definition gateway_log (env : SubmitEnv) : list LogEntry :=
  match gateway_reply (gateway env) with
  | Some _ => []
  | None => [ {| level := log_error; label := lit "Error calling AI API:" |} ]
  end.

(** What the saving phase writes to the console when it has a session. *)
Definition user_save_log (env : SubmitEnv) : list LogEntry :=
  match user_insert env with
  | Rejects => [ {| level := warn; label := lit "Supabase message save error:" |} ]
  | Reached | Unreachable => []
  end.

(** Ascending [created_at]. *)
Definition created_le (a b : chat_message) : Prop :=
  cm_created_at a <= cm_created_at b.

(** Every storage write reaches the database and the gateway answers with
    status "success". *)
Definition succeeds (s : Submission) : Prop :=
  session_insert (sub_env s) = Reached /\
  user_insert (sub_env s) = Reached /\
  assistant_insert (sub_env s) = Reached /\
  gateway_reply (gateway (sub_env s)) <> None.

(** The text of the gateway's reply to a submission. *)
Definition reply_text (s : Submission) : jsstring :=
  match gateway_reply (gateway (sub_env s)) with
  | Some text => text
  | None => []
  end.

(** The columns of a message row the application chooses. *)
Definition columns (m : chat_message)
  : Uuid * Role * jsstring * option (list jsstring) :=
  (cm_session_id m, cm_role m, cm_content m, cm_files m).

(** What one successful submission leaves in [chat_messages]. *)
Definition saved_turns (sid : Uuid) (s : Submission)
  : list (Uuid * Role * jsstring * option (list jsstring)) :=
  [ (sid, role_user, or_else (sub_query s) (lit "Hello"), Some (map uf_name (sub_files s)));
    (sid, role_assistant, reply_text s, Some []) ].

(** The session the submissions of a page go to: the active one, or else the
    one the first submission is about to create. *)
Definition session_in_use (w : World) : Uuid :=
  match currentSessionId (ui w) with
  | Some sid => sid
  | None => uuid_seed (db w)
  end.

(** An active session accepts the user's rows (policy "Users can create
    messages in their sessions"). *)
Definition session_writable (u : AuthUser) (w : World) : Prop :=
  match currentSessionId (ui w) with
  | Some sid => Pg.session_owned (Some (uid u)) (chat_sessions (db w)) sid = true
  | None => True
  end.

(** Referential integrity, and [gen_random_uuid()] being ahead of the
    identifiers in use. *)
Definition store_wf (d : Database) : Prop :=
  (forall m, In m (chat_messages d) ->
             Pg.session_exists (chat_sessions d) (cm_session_id m) = true) /\
  (forall s, In s (chat_sessions d) -> (cs_id s < uuid_seed d)%nat).

(* ================================================================== *)
(** ** Concrete scenarios *)

Definition alice : AuthUser := {| uid := 7%nat |}.

Definition empty_database : Database :=
  {| chat_sessions := []; chat_messages := []; uuid_seed := 0%nat |}.

(** A freshly mounted page over an empty store. *)
Definition fresh_world (who : option AuthUser) : World :=
  {| ui := initial_ui who; db := empty_database; console := []; requests := [] |}.

Definition success_reply (text : string) : FetchOutcome :=
  json_body {| status := lit "success"; response := lit text; reply_error := [] |}.

Definition failed_reply : FetchOutcome :=
  json_body {| status := lit "failed"; response := [];
               reply_error := lit "AI service error. Please check your OpenAI API key and quota." |}.

(** An environment in which every call goes through. *)
Definition calm (g : FetchOutcome) : SubmitEnv :=
  {| user_key := 100%nat; assistant_key := 101%nat; error_key := 102%nat;
     session_insert := Reached; session_clock := 10;
     user_insert := Reached; user_clock := 11;
     gateway := g;
     assistant_insert := Reached; assistant_clock := 12 |}.

(** As [calm], but the promise of the assistant insert rejects. *)
Definition assistant_save_rejects (g : FetchOutcome) : SubmitEnv :=
  {| user_key := 100%nat; assistant_key := 101%nat; error_key := 102%nat;
     session_insert := Reached; session_clock := 10;
     user_insert := Reached; user_clock := 11;
     gateway := g;
     assistant_insert := Rejects; assistant_clock := 12 |}.

Definition section8_query : jsstring :=
  lit "Is my data retention policy compliant with Section 8?".

Definition fileA : UploadedFile :=
  {| uf_id := 1%nat; uf_name := lit "policy.pdf"; uf_size := 2048;
     uf_type := lit "application/pdf" |}.

(** A store in which Bob owns session 0 with two messages, viewed by a page
    on which Alice has a session of her own open. *)
Definition bobs_database : Database :=
  {| chat_sessions :=
       [ {| cs_id := 0%nat; cs_user_id := 8%nat; cs_title := lit "Bob's chat";
            cs_created_at := 1; cs_updated_at := 3 |};
         {| cs_id := 3%nat; cs_user_id := 7%nat; cs_title := lit "Alice's chat";
            cs_created_at := 4; cs_updated_at := 4 |} ];
     chat_messages :=
       [ {| cm_id := 1%nat; cm_session_id := 0%nat; cm_role := role_user;
            cm_content := lit "secret question"; cm_files := Some [];
            cm_created_at := 2 |};
         {| cm_id := 2%nat; cm_session_id := 0%nat; cm_role := role_assistant;
            cm_content := lit "secret answer"; cm_files := Some [];
            cm_created_at := 3 |};
         {| cm_id := 4%nat; cm_session_id := 3%nat; cm_role := role_user;
            cm_content := lit "hi"; cm_files := None;
            cm_created_at := 5 |} ];
     uuid_seed := 5%nat |}.

Definition alice_on_her_session : World :=
  {| ui := {| messages := [ {| msg_id := key_row 4%nat; msg_role := role_user;
                               msg_content := lit "hi"; msg_files := Some [] |} ];
              showResults := true; isLoading := false;
              currentSessionId := Some 3%nat;
              selectedModel := gemini; user := Some alice |};
     db := bobs_database; console := []; requests := [] |}.

(** All the storage writes of the environment fail without rejecting. *)
Definition writes_unreachable (g : FetchOutcome) : SubmitEnv :=
  {| user_key := 100%nat; assistant_key := 101%nat; error_key := 102%nat;
     session_insert := Unreachable; session_clock := 10;
     user_insert := Unreachable; user_clock := 11;
     gateway := g;
     assistant_insert := Unreachable; assistant_clock := 12 |}.

(** A store whose rows were not inserted in the order of their timestamps. *)
Definition shuffled_database : Database :=
  {| chat_sessions :=
       [ {| cs_id := 0%nat; cs_user_id := 7%nat; cs_title := lit "t";
            cs_created_at := 1; cs_updated_at := 1 |} ];
     chat_messages :=
       [ {| cm_id := 2%nat; cm_session_id := 0%nat; cm_role := role_assistant;
            cm_content := lit "second"; cm_files := None; cm_created_at := 6 |};
         {| cm_id := 3%nat; cm_session_id := 0%nat; cm_role := role_user;
            cm_content := lit "third"; cm_files := Some [lit "a.txt"];
            cm_created_at := 9 |};
         {| cm_id := 1%nat; cm_session_id := 0%nat; cm_role := role_user;
            cm_content := lit "first"; cm_files := Some []; cm_created_at := 5 |} ];
     uuid_seed := 4%nat |}.

Definition first_call : Submission :=
  {| sub_env := calm (success_reply "It depends."); sub_query := section8_query;
     sub_files := [] |}.

Definition second_call : Submission :=
  {| sub_env := calm (success_reply "See the attachment."); sub_query := [];
     sub_files := [fileA] |}.

From Stdlib Require Import DecimalString.

(* ================================================================== *)
(** ** What the page derives from its state when it renders *)

(** [messages[messages.length - 1]?.files || []], the [uploadedFiles] prop
    of the compliance report. *)
Definition uploadedFiles (u : UiState) : list jsstring :=
  match nth_error (messages u) (List.length (messages u) - 1) with
  | Some m => match msg_files m with Some fs => fs | None => [] end
  | None => []
  end.

(** [messages.length > 0 && showResults]: the report is on screen. *)
Definition report_shown (u : UiState) : bool :=
  (0 <? List.length (messages u))%nat && showResults u.

(** The answer of the relay as [fetch] and [response.json()] deliver it when
    the request gets through: a 500 answer still carries a JSON body. *)
Definition relay_outcome (openai : Relay.CompletionRequest -> Relay.Upstream)
           (body : ChatRequest) : FetchOutcome :=
  json_body (Relay.http_body (Relay.chat openai body)).

(** An environment whose gateway is the relay over the completion API
    [openai], asked with the body [handleSubmit] builds. *)
Definition through_relay (openai : Relay.CompletionRequest -> Relay.Upstream)
           (env : SubmitEnv) (closure : UiState) (query : jsstring) : SubmitEnv :=
  {| user_key := user_key env; assistant_key := assistant_key env;
     error_key := error_key env;
     session_insert := session_insert env; session_clock := session_clock env;
     user_insert := user_insert env; user_clock := user_clock env;
     gateway := relay_outcome openai (request_body closure query);
     assistant_insert := assistant_insert env;
     assistant_clock := assistant_clock env |}.

(* ================================================================== *)
(** ** Numbers as text *)

(** A non-negative integer as [String(n)] prints it. *)
Definition decimal (n : Z) : jsstring :=
  lit (NilZero.string_of_uint (N.to_uint (Z.to_N n))).

(* ================================================================== *)
(** ** State shared by several components *)

(** A handler over a state [S]: as [Prog], for components other than the
    page. *)
Definition ProgOn (S A : Type) : Type := S -> Completion A * S.

Definition retS {S A} (a : A) : ProgOn S A := fun s => (Normal a, s).

Definition bindS {S A B} (m : ProgOn S A) (k : A -> ProgOn S B) : ProgOn S B :=
  fun s =>
    match m s with
    | (Normal a, s') => k a s'
    | (Abrupt e, s') => (Abrupt e, s')
    end.

Definition try_catchS {S A} (body : ProgOn S A) (handler : Exn -> ProgOn S A)
  : ProgOn S A :=
  fun s =>
    match body s with
    | (Normal a, s') => (Normal a, s')
    | (Abrupt e, s') => handler e s'
    end.

Definition try_finallyS {S A} (body : ProgOn S A) (cleanup : ProgOn S unit)
  : ProgOn S A :=
  fun s =>
    match body s with
    | (c, s') =>
        match cleanup s' with
        | (Normal _, s'') => (c, s'')
        | (Abrupt e, s'') => (Abrupt e, s'')
        end
    end.

Definition execS {S A} (p : ProgOn S A) (s : S) : S := snd (p s).

Declare Scope progS_scope.
Delimit Scope progS_scope with progS.
Notation "x <- m ;; k" := (bindS m (fun x => k))
  (at level 61, m at next level, right associativity) : progS_scope.
Notation "m ;; k" := (bindS m (fun _ => k))
  (at level 61, right associativity) : progS_scope.

(* ================================================================== *)
(** ** The sidebar ([AppSidebar]) *)

Module Sidebar.

(** The component state of [AppSidebar]. *)
Record State := {
  sessions : list chat_session;
  isLoading : bool
}.

(** The page and its sidebar. *)
Record App := {
  page : World;
  sidebar : State
}.

(** A handler of the page, run from the sidebar. *)
Definition in_page {A} (p : Prog A) : ProgOn App A :=
  fun s =>
    let '(c, w) := p (page s) in
    (c, {| page := w; sidebar := sidebar s |}).

Definition setSessions (f : list chat_session -> list chat_session)
  : ProgOn App unit :=
  fun s => (Normal tt,
    {| page := page s;
       sidebar := {| sessions := f (sessions (sidebar s));
                     isLoading := isLoading (sidebar s) |} |}).

Definition setIsLoading (b : bool) : ProgOn App unit :=
  fun s => (Normal tt,
    {| page := page s;
       sidebar := {| sessions := sessions (sidebar s); isLoading := b |} |}).

(** [ORDER BY updated_at DESC].  Rows with equal timestamps keep their table
    order here; Postgres promises nothing about them. *)
Fixpoint place_recent (s : chat_session) (sorted : list chat_session)
  : list chat_session :=
  match sorted with
  | [] => [s]
  | h :: t =>
      if cs_updated_at h <=? cs_updated_at s then s :: sorted
      else h :: place_recent s t
  end.

Definition order_by_updated_at_desc (rows : list chat_session) : list chat_session :=
  fold_right place_recent [] rows.

(** [SELECT * FROM chat_sessions ORDER BY updated_at DESC LIMIT 10] under the
    policy "Users can view their own chat sessions". *)
Definition recent_sessions (auth_uid : option Uuid) (d : Database)
  : Response (list chat_session) :=
  ok (firstn 10 (order_by_updated_at_desc (Pg.select_sessions auth_uid d))).

Local Open Scope progS_scope.

Definition fetchSessions (t : Transport) : ProgOn App unit :=
  setIsLoading true ;;
  try_finallyS
    (try_catchS
       (r <- in_page (supabase t (fun a d => (recent_sessions a d, d))) ;;
        match error r, data r with
        | None, Some rows => setSessions (fun _ => rows)
        | _, _ => retS tt
        end)
       (fun _ =>
          in_page (console_warn "Supabase fetch error, using empty sessions:") ;;
          setSessions (fun _ => [])))
    (setIsLoading false).

(** [handleDeleteSession(e, sessionId)].  The prop [currentSessionId] is the
    page's, as of the render; [onSelectSession] is [handleSelectSession].
    Nothing catches a rejection here. *)
Definition handleDeleteSession (t : Transport) (sessionId : Uuid) : ProgOn App unit :=
  fun s =>
    let currentSessionId := currentSessionId (ui (page s)) in
    (r <- in_page (supabase t (fun a d => Pg.delete_session a sessionId d)) ;;
     match error r with
     | None =>
         setSessions (filter (fun x => negb (Nat.eqb (cs_id x) sessionId))) ;;
         match currentSessionId with
         | Some c =>
             if Nat.eqb c sessionId
             then in_page (handleSelectSession Reached None)
             else retS tt
         | None => retS tt
         end
     | Some _ => retS tt
     end) s.

(** [formatDate(dateString)] at the time [now], both in milliseconds
    ([getTime()]); a string that does not parse gives [None], and every
    comparison with the resulting NaN fails.  [toLocaleDateString] stands
    for [date.toLocaleDateString("en-US", { month: "short", day: "numeric" })],
    which depends on the time zone of the browser. *)
Definition formatDate (toLocaleDateString : option Z -> jsstring)
           (date : option Z) (now : Z) : jsstring :=
  match date with
  | None => toLocaleDateString None
  | Some t =>
      let diffHours := (now - t) / (1000 * 60 * 60) in
      if diffHours <? 1 then lit "Just now"
      else if diffHours <? 24 then decimal diffHours ++ lit "h ago"
      else if diffHours <? 48 then lit "Yesterday"
      else toLocaleDateString (Some t)
  end.

End Sidebar.

(* ================================================================== *)
(** ** The input box ([SearchInput]) *)

Module SearchInput.

(** The component state of [SearchInput]. *)
Record State := {
  query : jsstring;
  files : list UploadedFile;
  isRecording : bool
}.

(** WhiteSpace and LineTerminator code points, all of them in the basic
    plane: what [String.prototype.trim] strips. *)
Definition is_white (c : codeunit) : bool :=
  match c with
  | 9 | 10 | 11 | 12 | 13 | 32 | 160 | 5760
  | 8192 | 8193 | 8194 | 8195 | 8196 | 8197 | 8198 | 8199 | 8200 | 8201 | 8202
  | 8232 | 8233 | 8239 | 8287 | 12288 | 65279 => true
  | _ => false
  end%N.

Fixpoint trimStart (s : jsstring) : jsstring :=
  match s with
  | [] => []
  | c :: t => if is_white c then trimStart t else s
  end.

Definition trimEnd (s : jsstring) : jsstring := rev (trimStart (rev s)).

Definition trim (s : jsstring) : jsstring := trimEnd (trimStart s).

(** [handleFileUpload]: [uploaded] is [e.target.files] with the identifier
    generated for each file, [None] when the input has no file list. *)
Definition handleFileUpload (uploaded : option (list UploadedFile)) (st : State)
  : State :=
  match uploaded with
  | Some newFiles =>
      {| query := query st; files := files st ++ newFiles;
         isRecording := isRecording st |}
  | None => st
  end.

Definition removeFile (id : Uuid) (st : State) : State :=
  {| query := query st;
     files := filter (fun f => negb (Nat.eqb (uf_id f) id)) (files st);
     isRecording := isRecording st |}.

(** [handleSubmit]: hands the text and the files to [onSubmit] and clears
    both, or does nothing. *)
Definition handleSubmit (onSubmit : jsstring -> list UploadedFile -> Prog unit)
           (st : State) : Prog State :=
  if truthy (trim (query st)) || (0 <? List.length (files st))%nat then
    (onSubmit (query st) (files st) ;;
     ret {| query := []; files := []; isRecording := isRecording st |})%prog
  else ret st.

(** [(num / den).toFixed(1)] for [num >= 0] and [den] a power of two, so
    that the quotient is exact: the nearest number of tenths, the larger one
    on a tie. *)
Definition tenths (num den : Z) : Z := (2 * 10 * num + den) / (2 * den).

Definition toFixed1 (num den : Z) : jsstring :=
  decimal (tenths num den / 10) ++ lit "." ++ decimal (tenths num den mod 10).

(** [formatFileSize(bytes)] for the size of a file, a non-negative integer. *)
Definition formatFileSize (bytes : Z) : jsstring :=
  if bytes <? 1024 then decimal bytes ++ lit " B"
  else if bytes <? 1024 * 1024 then toFixed1 bytes 1024 ++ lit " KB"
  else toFixed1 bytes (1024 * 1024) ++ lit " MB".

End SearchInput.

(* ================================================================== *)
(** ** The compliance report ([ComplianceResult]) *)

Module Report.

(** [toggleFinding(index)] on the list of expanded findings. *)
Definition toggleFinding (index : nat) (prev : list nat) : list nat :=
  if existsb (Nat.eqb index) prev
  then filter (fun i => negb (Nat.eqb i index)) prev
  else prev ++ [index].

End Report.

(* ================================================================== *)
(** ** Vocabulary of the further statements *)

(** Primary keys: identifiers are unique within each table and already
    handed out. *)
Definition primary_keys (d : Database) : Prop :=
  NoDup (map cs_id (chat_sessions d)) /\
  NoDup (map cm_id (chat_messages d)) /\
  (forall m, In m (chat_messages d) -> (cm_id m < uuid_seed d)%nat).

(** A store as the schema keeps it: foreign key, primary keys, fresh
    generated identifiers. *)
Definition consistent (d : Database) : Prop := store_wf d /\ primary_keys d.

(** Everything an identity can read: its sessions, and the messages of its
    sessions. *)
Definition view (b : Uuid) (d : Database) : list chat_session * list chat_message :=
  (Pg.select_sessions (Some b) d,
   filter (fun m => Pg.session_owned (Some b) (chat_sessions d) (cm_session_id m))
          (chat_messages d)).

(** The session phase when the insert does not go through. *)
Definition session_failure_log (env : SubmitEnv) : list LogEntry :=
  match session_insert env with
  | Rejects => [ {| level := warn; label := lit "Supabase session creation error:" |} ]
  | Reached | Unreachable => []
  end.

(** Alice's page with her sidebar, which lists her session. *)
Definition alice_app : Sidebar.App :=
  {| Sidebar.page := alice_on_her_session;
     Sidebar.sidebar :=
       {| Sidebar.sessions :=
            [ {| cs_id := 3%nat; cs_user_id := 7%nat; cs_title := lit "Alice's chat";
                 cs_created_at := 4; cs_updated_at := 4 |} ];
          Sidebar.isLoading := false |} |}.


(** Two blanks and a file, as the input box hands them on. *)
Definition blank_with_file : SearchInput.State :=
  {| SearchInput.query := lit "  "; SearchInput.files := [fileA];
     SearchInput.isRecording := false |}.

(** The request the relay sends upstream for a submission from the page. *)
Definition upstream_of (u : UiState) (query : jsstring) : Relay.CompletionRequest :=
  {| Relay.cr_model := lit "gpt-3.5-turbo";
     Relay.cr_messages :=
       Relay.system_instruction :: map turn_of_message (messages u) ++
         [ {| turn_role := lit "user"; turn_content := query |} ];
     Relay.cr_max_tokens := 2000;
     Relay.cr_temperature := 8 # 10 |}.

(** A completion API that is out of quota. *)
Definition out_of_quota (req : Relay.CompletionRequest) : Relay.Upstream :=
  Relay.upstream_throws (lit "429 You exceeded your current quota").

(** The two rows a successful submission writes, the first with identifier
    [id]. *)
Definition saved_rows (id sid : Uuid) (s : Submission) : list chat_message :=
  [ user_row (sub_env s) id sid
      (userMessage_of (sub_env s) (sub_query s) (sub_files s));
    assistant_row (sub_env s) (S id) sid (reply_text s) ].

Fixpoint rows_from (id sid : Uuid) (l : list Submission) : list chat_message :=
  match l with
  | [] => []
  | s :: t => saved_rows id sid s ++ rows_from (S (S id)) sid t
  end.

(** The times at which the writes of a run of submissions happen. *)
Definition clocks (l : list Submission) : list Timestamp :=
  flat_map (fun s => [user_clock (sub_env s); assistant_clock (sub_env s)]) l.

(** What a transcript entry shows. *)
Definition shown (m : Message) : Role * jsstring := (msg_role m, msg_content m).

(** The turns of a run of successful submissions, as shown. *)
Definition turns (l : list Submission) : list (Role * jsstring) :=
  flat_map (fun s => [ (role_user, or_else (sub_query s) (lit "Hello"));
                       (role_assistant, reply_text s) ]) l.

(** The two calls of the earlier scenario, a second apart. *)
Definition later_call : Submission :=
  {| sub_env :=
       {| user_key := 103%nat; assistant_key := 104%nat; error_key := 105%nat;
          session_insert := Reached; session_clock := 20;
          user_insert := Reached; user_clock := 21;
          gateway := success_reply "See the attachment.";
          assistant_insert := Reached; assistant_clock := 22 |};
     sub_query := []; sub_files := [fileA] |}.

(* ================================================================== *)
(** * Properties *)

(** ** Strings *)

Lemma slice_from_start (s : jsstring) (n : nat) :
  slice s 0 (Z.of_nat n) = firstn n s.
Proof.
  unfold slice. cbn [Z.ltb Z.compare].
  assert (Hn : (Z.of_nat n <? 0) = false) by (apply Z.ltb_ge; lia).
  rewrite Hn. rewrite Z.min_l by lia. cbn [Z.to_nat skipn].
  destruct (0 >=? Z.min (Z.of_nat n) (Z.of_nat (List.length s))) eqn:E.
  - apply Z.geb_le in E.
    assert (Hz : n = 0%nat \/ List.length s = 0%nat) by lia.
    destruct Hz as [-> | Hl]; [reflexivity|].
    destruct s; [now rewrite firstn_nil | discriminate].
  - rewrite Z.sub_0_r.
    destruct (Nat.le_gt_cases n (List.length s)) as [Hle | Hgt].
    + rewrite Z.min_l by lia. now rewrite Nat2Z.id.
    + rewrite Z.min_r by lia. rewrite Nat2Z.id.
      rewrite !firstn_all2 by lia. reflexivity.
Qed.

Lemma or_else_nonempty (c : codeunit) (s d : jsstring) :
  or_else (c :: s) d = c :: s.
Proof. reflexivity. Qed.

Lemma or_else_empty (d : jsstring) : or_else [] d = d.
Proof. reflexivity. Qed.

(** The title [handleSubmit] gives a new session. *)
Lemma title_expression (query : jsstring) :
  or_else (slice query 0 50) (lit "AI Chat") =
  match query with
  | [] => lit "AI Chat"
  | _ :: _ => firstn 50 query
  end.
Proof.
  change 50 with (Z.of_nat 50). rewrite slice_from_start.
  destruct query; reflexivity.
Qed.

(** ** The phases of [handleSubmit] *)

Arguments lit : simpl never.
Arguments error_text : simpl never.

Ltac unfold_prog :=
  unfold exec, result, handleSubmit, ensure_session, save_user_message,
    call_gateway, loadSession, handleNewChat, try_finally, try_catch, bind, ret,
    throw, supabase, fetch_json, get_ui, setMessages, setShowResults,
    setIsLoading, setCurrentSessionId, console_warn, console_error, with_ui,
    auth_uid, gateway_reply in *.

Ltac split_cases :=
  repeat match goal with
    | |- context [match ?x with _ => _ end] => destruct x eqn:?; cbn in *
    | |- context [if ?x then _ else _] => destruct x eqn:?; cbn in *
    end.

Lemma owns_self (u : Uuid) (s : chat_session) :
  cs_user_id s = u -> Pg.owns (Some u) s = true.
Proof. intros <-. apply Nat.eqb_refl. Qed.

Lemma session_owned_exists a tbl sid :
  Pg.session_owned a tbl sid = true -> Pg.session_exists tbl sid = true.
Proof.
  unfold Pg.session_owned, Pg.session_exists. rewrite !existsb_exists.
  intros (s & Hin & H). apply andb_true_iff in H. exists s. tauto.
Qed.

Lemma insert_message_sessions a now sid r c f d :
  chat_sessions (snd (Pg.insert_message a now sid r c f d)) = chat_sessions d.
Proof. unfold Pg.insert_message. split_cases; reflexivity. Qed.

Lemma insert_message_owned a now sid r c f d :
  Pg.session_owned a (chat_sessions d) sid = true ->
  Pg.insert_message a now sid r c f d =
  (ok tt,
   {| chat_sessions := chat_sessions d;
      chat_messages := chat_messages d ++
        [ {| cm_id := uuid_seed d; cm_session_id := sid; cm_role := r;
             cm_content := c; cm_files := f; cm_created_at := now |} ];
      uuid_seed := S (uuid_seed d) |}).
Proof.
  intros H. unfold Pg.insert_message.
  rewrite H, (session_owned_exists _ _ _ H). reflexivity.
Qed.

Lemma insert_message_rejected a now sid r c f d :
  Pg.session_owned a (chat_sessions d) sid = false ->
  Pg.insert_message a now sid r c f d = (failed RowLevelSecurityViolation, d).
Proof. intros H. unfold Pg.insert_message. now rewrite H. Qed.

Lemma exec_bind {A B} (m : Prog A) (k : A -> Prog B) w a :
  fst (m w) = Normal a -> exec (bind m k) w = exec (k a) (exec m w).
Proof.
  unfold exec, bind. destruct (m w) as [c w']. cbn. now intros ->.
Qed.

Lemma result_normal {A} (p : Prog A) w a :
  fst (p w) = Normal a -> result p w = Some a.
Proof. unfold result. now intros ->. Qed.

(** Neither the session phase nor the saving phase can throw. *)
Lemma ensure_session_returns env closure query w :
  exists s, fst (ensure_session env closure query w) = Normal s.
Proof.
  unfold ensure_session.
  destruct (user closure) as [u|]; [|eexists; reflexivity].
  destruct (currentSessionId closure) as [s|]; [eexists; reflexivity|].
  unfold_prog.
  destruct (session_insert env); cbn; try (eexists; reflexivity).
  destruct (Pg.insert_session _ _ _ _ _) as [[[r|] [e|]] d']; cbn;
    eexists; reflexivity.
Qed.

Lemma save_user_message_returns env sessionId userMessage w :
  fst (save_user_message env sessionId userMessage w) = Normal tt.
Proof.
  unfold save_user_message. destruct sessionId as [s|]; [|reflexivity].
  unfold_prog. destruct (user_insert env); cbn; try reflexivity.
  destruct (Pg.insert_message _ _ _ _ _ _ _); reflexivity.
Qed.

(** [handleSubmit] as its phases, one after the other. *)
Lemma handleSubmit_phases env query files w :
  let closure := ui w in
  let userMessage := userMessage_of env query files in
  let w1 := exec (setMessages (fun prev => prev ++ [userMessage]) ;; setIsLoading true) w in
  let sessionId := local_session env closure query w1 in
  let w2 := exec (ensure_session env closure query) w1 in
  let w3 := exec (save_user_message env sessionId userMessage) w2 in
  exec (handleSubmit env query files) w = exec (call_gateway env closure query sessionId) w3.
Proof.
  intros closure userMessage w1 sessionId w2 w3.
  unfold handleSubmit.
  rewrite (exec_bind get_ui _ w (ui w)) by reflexivity.
  change (exec get_ui w) with w.
  rewrite (exec_bind (setMessages _) _ w tt) by reflexivity.
  rewrite (exec_bind (setIsLoading true) _ _ tt) by reflexivity.
  change (exec (setIsLoading true) (exec (setMessages (fun prev => prev ++ [userMessage])) w))
    with w1.
  destruct (ensure_session_returns env closure query w1) as [s Hs].
  rewrite (exec_bind _ _ w1 s) by exact Hs.
  fold w2.
  rewrite (exec_bind _ _ w2 tt) by apply save_user_message_returns.
  subst w3 sessionId. unfold local_session.
  rewrite (result_normal _ _ _ Hs). reflexivity.
Qed.

(** *** The session phase *)

Lemma ensure_session_active env closure query w sid :
  currentSessionId closure = Some sid ->
  ensure_session env closure query w = (Normal (Some sid), w).
Proof.
  intros H. unfold ensure_session. rewrite H.
  destruct (user closure); reflexivity.
Qed.

Lemma ensure_session_anonymous env closure query w :
  user closure = None ->
  ensure_session env closure query w = (Normal (currentSessionId closure), w).
Proof. intros H. unfold ensure_session. now rewrite H. Qed.

Lemma ensure_session_creates env closure query w u :
  user closure = Some u ->
  currentSessionId closure = None ->
  user (ui w) = Some u ->
  session_insert env = Reached ->
  ensure_session env closure query w =
  (Normal (Some (uuid_seed (db w))),
   {| ui := {| messages := messages (ui w); showResults := showResults (ui w);
               isLoading := isLoading (ui w);
               currentSessionId := Some (uuid_seed (db w));
               selectedModel := selectedModel (ui w); user := user (ui w) |};
      db := {| chat_sessions := chat_sessions (db w) ++ [new_session env u query (db w)];
               chat_messages := chat_messages (db w);
               uuid_seed := S (uuid_seed (db w)) |};
      console := console w;
      requests := requests w |}).
Proof.
  intros Hu Hs Hw Ht. unfold ensure_session. rewrite Hu, Hs.
  unfold_prog. rewrite Ht, Hw. cbn.
  unfold Pg.insert_session. cbn. rewrite Nat.eqb_refl. cbn.
  unfold new_session. rewrite Hw. reflexivity.
Qed.

Lemma ensure_session_frame env closure query w :
  let w' := exec (ensure_session env closure query) w in
  messages (ui w') = messages (ui w) /\
  user (ui w') = user (ui w) /\
  chat_messages (db w') = chat_messages (db w) /\
  requests w' = requests w.
Proof.
  unfold ensure_session.
  destruct (user closure) as [u|]; [|cbn; auto].
  destruct (currentSessionId closure) as [s|]; [cbn; auto|].
  unfold_prog.
  destruct (session_insert env); cbn; auto.
  unfold Pg.insert_session. cbn.
  destruct (Pg.owns _ _); cbn; auto.
Qed.

(** *** The saving phase *)

Lemma save_user_message_frame env sessionId userMessage w :
  let w' := exec (save_user_message env sessionId userMessage) w in
  ui w' = ui w /\
  chat_sessions (db w') = chat_sessions (db w) /\
  requests w' = requests w.
Proof.
  unfold save_user_message. destruct sessionId as [s|]; [|cbn; auto].
  unfold_prog. destruct (user_insert env); cbn; auto.
  pose proof (insert_message_sessions (option_map uid (user (ui w)))
                (user_clock env) s role_user (msg_content userMessage)
                (msg_files userMessage) (db w)) as H.
  destruct (Pg.insert_message _ _ _ _ _ _ _) as [r d']. cbn in *. auto.
Qed.

Lemma save_user_message_owned env sid userMessage w :
  user_insert env = Reached ->
  Pg.session_owned (auth_uid w) (chat_sessions (db w)) sid = true ->
  exec (save_user_message env (Some sid) userMessage) w =
  {| ui := ui w;
     db := {| chat_sessions := chat_sessions (db w);
              chat_messages := chat_messages (db w) ++ [user_row env (uuid_seed (db w)) sid userMessage];
              uuid_seed := S (uuid_seed (db w)) |};
     console := console w;
     requests := requests w |}.
Proof.
  intros Ht Ho. unfold save_user_message. unfold_prog. rewrite Ht.
  rewrite (insert_message_owned _ _ _ _ _ _ _ Ho). reflexivity.
Qed.

(** Whatever happens, the saving phase adds at most one row, a user turn. *)
Lemma save_user_message_rows env sessionId userMessage w :
  let w' := exec (save_user_message env sessionId userMessage) w in
  exists added,
    chat_messages (db w') = chat_messages (db w) ++ added /\
    (List.length added <= 1)%nat /\
    Forall (fun m => cm_role m = role_user) added.
Proof.
  assert (Hnone : forall l : list chat_message, exists added,
             l = l ++ added /\ (List.length added <= 1)%nat /\
             Forall (fun m => cm_role m = role_user) added).
  { intros l. exists (@nil chat_message). rewrite app_nil_r. cbn. auto. }
  unfold save_user_message. destruct sessionId as [s|]; [|apply Hnone].
  unfold_prog. destruct (user_insert env); cbn; try apply Hnone.
  unfold Pg.insert_message.
  destruct (negb (Pg.session_owned _ _ _)); cbn; try apply Hnone.
  destruct (negb (Pg.session_exists _ _)); cbn; try apply Hnone.
  eexists. split; [reflexivity|]. cbn. split; auto.
Qed.

(** *** The gateway phase *)

Lemma call_gateway_failure env closure query sessionId w :
  gateway_reply (gateway env) = None ->
  exec (call_gateway env closure query sessionId) w =
  {| ui := {| messages := messages (ui w) ++ [errorMessage_of env];
              showResults := showResults (ui w);
              isLoading := false;
              currentSessionId := currentSessionId (ui w);
              selectedModel := selectedModel (ui w); user := user (ui w) |};
     db := db w;
     console := console w ++ [ {| level := log_error; label := lit "Error calling AI API:" |} ];
     requests := requests w ++ [request_body closure query] |}.
Proof.
  intros H. unfold_prog. destruct (gateway env) as [| |reply]; cbn; try reflexivity.
  destruct (strict_eq (status reply) (lit "success")); [discriminate|].
  reflexivity.
Qed.

Lemma call_gateway_unsaved env closure query w text :
  gateway_reply (gateway env) = Some text ->
  exec (call_gateway env closure query None) w =
  {| ui := {| messages := messages (ui w) ++ [assistantMessage_of env text];
              showResults := true;
              isLoading := false;
              currentSessionId := currentSessionId (ui w);
              selectedModel := selectedModel (ui w); user := user (ui w) |};
     db := db w;
     console := console w;
     requests := requests w ++ [request_body closure query] |}.
Proof.
  intros H. unfold_prog. destruct (gateway env) as [| |reply]; try discriminate.
  cbn. destruct (strict_eq (status reply) (lit "success")); [|discriminate].
  injection H as <-. reflexivity.
Qed.

Lemma call_gateway_saved env closure query w text sid :
  gateway_reply (gateway env) = Some text ->
  assistant_insert env = Reached ->
  Pg.session_owned (auth_uid w) (chat_sessions (db w)) sid = true ->
  exec (call_gateway env closure query (Some sid)) w =
  {| ui := {| messages := messages (ui w) ++ [assistantMessage_of env text];
              showResults := true;
              isLoading := false;
              currentSessionId := currentSessionId (ui w);
              selectedModel := selectedModel (ui w); user := user (ui w) |};
     db := {| chat_sessions := chat_sessions (db w);
              chat_messages := chat_messages (db w) ++ [assistant_row env (uuid_seed (db w)) sid text];
              uuid_seed := S (uuid_seed (db w)) |};
     console := console w;
     requests := requests w ++ [request_body closure query] |}.
Proof.
  intros H Ht Ho. unfold_prog. destruct (gateway env) as [| |reply]; try discriminate.
  cbn. destruct (strict_eq (status reply) (lit "success")); [|discriminate].
  injection H as <-. cbn. rewrite Ht. cbn.
  rewrite (insert_message_owned _ _ _ _ _ _ _ Ho). reflexivity.
Qed.

Lemma call_gateway_frame env closure query sessionId w :
  let w' := exec (call_gateway env closure query sessionId) w in
  chat_sessions (db w') = chat_sessions (db w) /\
  currentSessionId (ui w') = currentSessionId (ui w) /\
  user (ui w') = user (ui w) /\
  requests w' = requests w ++ [request_body closure query].
Proof.
  unfold_prog. destruct (gateway env) as [| |reply]; cbn; auto.
  destruct (strict_eq (status reply) (lit "success")); cbn; auto.
  destruct sessionId as [s|]; cbn; auto.
  destruct (assistant_insert env); cbn; auto.
  pose proof (insert_message_sessions (option_map uid (user (ui w)))
                (assistant_clock env) s role_assistant (response reply)
                (Some []) (db w)) as H.
  destruct (Pg.insert_message _ _ _ _ _ _ _) as [r d']. cbn in *. auto.
Qed.

Lemma handleSubmit_gateway env query files w :
  exec (handleSubmit env query files) w =
  exec (call_gateway env (ui w) query
          (local_session env (ui w) query
             (exec (setMessages (fun prev => prev ++ [userMessage_of env query files]) ;;
                    setIsLoading true) w)))
       (before_gateway env query files w).
Proof. apply handleSubmit_phases. Qed.

(** Before the gateway call the transcript has gained the user turn and
    nothing else. *)
Lemma before_gateway_transcript env query files w :
  messages (ui (before_gateway env query files w)) =
  messages (ui w) ++ [userMessage_of env query files] /\
  user (ui (before_gateway env query files w)) = user (ui w) /\
  requests (before_gateway env query files w) = requests w.
Proof.
  unfold before_gateway.
  set (um := userMessage_of env query files).
  set (w1 := exec (setMessages (fun prev => prev ++ [um]) ;; setIsLoading true) w).
  destruct (save_user_message_frame env (local_session env (ui w) query w1) um
              (exec (ensure_session env (ui w) query) w1)) as (Hui & _ & Hrq).
  destruct (ensure_session_frame env (ui w) query w1) as (Hm & Hu & _ & Hr).
  cbv zeta in *. rewrite Hui, Hrq, Hm, Hu, Hr. auto.
Qed.

Lemma before_gateway_rows env query files w :
  exists added,
    chat_messages (db (before_gateway env query files w)) =
      chat_messages (db w) ++ added /\
    (List.length added <= 1)%nat /\
    Forall (fun m => cm_role m = role_user) added.
Proof.
  unfold before_gateway.
  set (um := userMessage_of env query files).
  set (w1 := exec (setMessages (fun prev => prev ++ [um]) ;; setIsLoading true) w).
  destruct (save_user_message_rows env (local_session env (ui w) query w1) um
              (exec (ensure_session env (ui w) query) w1)) as (added & Ha & Hl & Hr).
  destruct (ensure_session_frame env (ui w) query w1) as (_ & _ & Hm & _).
  cbv zeta in *. exists added. rewrite Ha, Hm. auto.
Qed.

Lemma filter_user_rows (l added : list chat_message) :
  Forall (fun m => cm_role m = role_user) added ->
  filter (fun m => Role_eqb (cm_role m) role_assistant) (l ++ added) =
  filter (fun m => Role_eqb (cm_role m) role_assistant) l.
Proof.
  intros H. rewrite filter_app.
  assert (E : filter (fun m => Role_eqb (cm_role m) role_assistant) added = []).
  { induction H as [|m t Hm _ IH]; [reflexivity|]. cbn. now rewrite Hm. }
  rewrite E. apply app_nil_r.
Qed.

(** The gateway phase only ever appends, to the transcript and to the
    table. *)
Lemma call_gateway_grows env closure query sessionId w :
  let w' := exec (call_gateway env closure query sessionId) w in
  (exists rest, messages (ui w') = messages (ui w) ++ rest) /\
  (exists rows, chat_messages (db w') = chat_messages (db w) ++ rows).
Proof.
  assert (Hnil : forall A (l : list A), exists r, l = l ++ r).
  { intros A l. exists []. now rewrite app_nil_r. }
  unfold_prog. destruct (gateway env) as [| |reply]; cbn;
    try (split; [eexists; reflexivity | apply Hnil]).
  destruct (strict_eq (status reply) (lit "success")); cbn;
    try (split; [eexists; reflexivity | apply Hnil]).
  destruct sessionId as [s|]; cbn;
    try (split; [eexists; reflexivity | apply Hnil]).
  destruct (assistant_insert env); cbn;
    try (split; [eexists; reflexivity | apply Hnil]).
  - unfold Pg.insert_message.
    destruct (negb (Pg.session_owned _ _ _)); cbn;
      try (split; [eexists; reflexivity | apply Hnil]).
    destruct (negb (Pg.session_exists _ _)); cbn;
      try (split; [eexists; reflexivity | apply Hnil]).
    split; eexists; reflexivity.
  - split; [|apply Hnil]. rewrite <- app_assoc. eexists; reflexivity.
Qed.

(** The state before the gateway call when a session is already active and
    the user turn is saved. *)
Lemma before_gateway_active env query files w sid :
  currentSessionId (ui w) = Some sid ->
  user_insert env = Reached ->
  Pg.session_owned (auth_uid w) (chat_sessions (db w)) sid = true ->
  local_session env (ui w) query
    (exec (setMessages (fun prev => prev ++ [userMessage_of env query files]) ;;
           setIsLoading true) w) = Some sid /\
  before_gateway env query files w =
  {| ui := {| messages := messages (ui w) ++ [userMessage_of env query files];
              showResults := showResults (ui w);
              isLoading := true;
              currentSessionId := Some sid;
              selectedModel := selectedModel (ui w); user := user (ui w) |};
     db := {| chat_sessions := chat_sessions (db w);
              chat_messages := chat_messages (db w) ++
                [user_row env (uuid_seed (db w)) sid (userMessage_of env query files)];
              uuid_seed := S (uuid_seed (db w)) |};
     console := console w;
     requests := requests w |}.
Proof.
  intros Hs Ht Ho. unfold before_gateway, local_session, result.
  set (w1 := exec _ w).
  unfold exec at 2.
  rewrite (ensure_session_active env (ui w) query w1 sid Hs). cbn [fst snd].
  split; [reflexivity|].
  rewrite save_user_message_owned; [|exact Ht|exact Ho].
  cbn. rewrite Hs. reflexivity.
Qed.

(** The state before the gateway call when the submission creates the
    session and the user turn is saved in it. *)
Lemma before_gateway_created env query files w u :
  user (ui w) = Some u ->
  currentSessionId (ui w) = None ->
  session_insert env = Reached ->
  user_insert env = Reached ->
  local_session env (ui w) query
    (exec (setMessages (fun prev => prev ++ [userMessage_of env query files]) ;;
           setIsLoading true) w) = Some (uuid_seed (db w)) /\
  before_gateway env query files w =
  {| ui := {| messages := messages (ui w) ++ [userMessage_of env query files];
              showResults := showResults (ui w);
              isLoading := true;
              currentSessionId := Some (uuid_seed (db w));
              selectedModel := selectedModel (ui w); user := user (ui w) |};
     db := {| chat_sessions := chat_sessions (db w) ++ [new_session env u query (db w)];
              chat_messages := chat_messages (db w) ++
                [user_row env (S (uuid_seed (db w))) (uuid_seed (db w))
                   (userMessage_of env query files)];
              uuid_seed := S (S (uuid_seed (db w))) |};
     console := console w;
     requests := requests w |}.
Proof.
  intros Hu Hs Ht Ht'. unfold before_gateway, local_session, result.
  set (w1 := exec _ w).
  assert (E := ensure_session_creates env (ui w) query w1 u Hu Hs Hu Ht).
  unfold exec at 2. rewrite E. cbn [fst snd].
  split; [reflexivity|].
  rewrite save_user_message_owned; [reflexivity|exact Ht'|].
  cbn. rewrite Hu. cbn. unfold Pg.session_owned.
  rewrite existsb_app. cbn. rewrite !Nat.eqb_refl. cbn.
  apply orb_true_r.
Qed.

(** ** Title of a new session *)

(** C6.  When [handleSubmit] runs for a signed-in user with no active
    session and the insert reaches the database, exactly one session row is
    created, owned by the user and adopted as the active session; its title
    is the first 50 code units of the submitted text, and the fixed string
    "AI Chat" when the text is empty. *)
Theorem new_session_title env query files w u :
  user (ui w) = Some u ->
  currentSessionId (ui w) = None ->
  session_insert env = Reached ->
  exists row,
    chat_sessions (db (exec (handleSubmit env query files) w)) =
      chat_sessions (db w) ++ [row] /\
    cs_user_id row = uid u /\
    currentSessionId (ui (exec (handleSubmit env query files) w)) = Some (cs_id row) /\
    cs_title row = match query with
                   | [] => lit "AI Chat"
                   | _ :: _ => firstn 50 query
                   end.
Proof.
  intros Hu Hs Ht.
  exists (new_session env u query (db w)).
  rewrite handleSubmit_gateway.
  set (w1 := exec (setMessages _ ;; setIsLoading true) w).
  destruct (call_gateway_frame env (ui w) query (local_session env (ui w) query w1)
              (before_gateway env query files w)) as (Hcs & Hid & _).
  cbv zeta in Hcs, Hid. rewrite Hcs, Hid.
  unfold before_gateway. fold w1.
  destruct (save_user_message_frame env (local_session env (ui w) query w1)
              (userMessage_of env query files)
              (exec (ensure_session env (ui w) query) w1)) as (Hui & Hss & _).
  cbv zeta in Hui, Hss. rewrite Hui, Hss.
  assert (E := ensure_session_creates env (ui w) query w1 u Hu Hs Hu Ht).
  unfold exec at 1 2. rewrite E.
  cbn. repeat split. apply title_expression.
Qed.

(** The two submissions the specification gives as examples. *)

Example section8_title :
  cs_title (new_session (calm (success_reply "ok")) alice section8_query empty_database)
  = lit "Is my data retention policy compliant with Section".
Proof. reflexivity. Qed.

Example attachment_only_title :
  cs_title (new_session (calm (success_reply "ok")) alice [] empty_database)
  = lit "AI Chat".
Proof. reflexivity. Qed.

Lemma new_session_title_witness :
  user (ui (fresh_world (Some alice))) = Some alice /\
  currentSessionId (ui (fresh_world (Some alice))) = None /\
  session_insert (calm (success_reply "ok")) = Reached /\
  exists row,
    chat_sessions (db (exec (handleSubmit (calm (success_reply "ok")) section8_query [])
                            (fresh_world (Some alice)))) =
      chat_sessions (db (fresh_world (Some alice))) ++ [row] /\
    cs_user_id row = uid alice /\
    currentSessionId (ui (exec (handleSubmit (calm (success_reply "ok")) section8_query [])
                               (fresh_world (Some alice)))) = Some (cs_id row) /\
    cs_title row = lit "Is my data retention policy compliant with Section".
Proof.
  exact (conj eq_refl (conj eq_refl (conj eq_refl
    (new_session_title (calm (success_reply "ok")) section8_query []
       (fresh_world (Some alice)) alice eq_refl eq_refl eq_refl)))).
Defined.

(** ** Empty submissions *)

(** C10.  A submission with empty text puts a user turn with content
    "Hello" into the transcript, and the same content into the stored row
    when a session is active and the insert goes through, yet the [message]
    field of the one request sent to the gateway is the empty string. *)
Theorem empty_submission_says_hello env files w :
  (exists rest,
     messages (ui (exec (handleSubmit env [] files) w)) =
       messages (ui w) ++
       {| msg_id := key_client (user_key env); msg_role := role_user;
          msg_content := lit "Hello"; msg_files := Some (map uf_name files) |} :: rest) /\
  requests (exec (handleSubmit env [] files) w) =
    requests w ++
    [ {| message := [];
         model := Some (model_text (selectedModel (ui w)));
         history := Some (map turn_of_message (messages (ui w))) |} ] /\
  (forall sid,
     currentSessionId (ui w) = Some sid ->
     user_insert env = Reached ->
     Pg.session_owned (auth_uid w) (chat_sessions (db w)) sid = true ->
     exists rest,
       chat_messages (db (exec (handleSubmit env [] files) w)) =
         chat_messages (db w) ++
         {| cm_id := uuid_seed (db w); cm_session_id := sid; cm_role := role_user;
            cm_content := lit "Hello"; cm_files := Some (map uf_name files);
            cm_created_at := user_clock env |} :: rest) /\
  (forall u,
     user (ui w) = Some u ->
     currentSessionId (ui w) = None ->
     session_insert env = Reached ->
     user_insert env = Reached ->
     exists rest,
       chat_messages (db (exec (handleSubmit env [] files) w)) =
         chat_messages (db w) ++
         {| cm_id := S (uuid_seed (db w)); cm_session_id := uuid_seed (db w);
            cm_role := role_user;
            cm_content := lit "Hello"; cm_files := Some (map uf_name files);
            cm_created_at := user_clock env |} :: rest).
Proof.
  rewrite handleSubmit_gateway.
  set (w1 := exec (setMessages _ ;; setIsLoading true) w).
  set (sessionId := local_session env (ui w) [] w1).
  destruct (call_gateway_grows env (ui w) [] sessionId (before_gateway env [] files w))
    as ((rest & Hm) & (rows & Hr)).
  destruct (call_gateway_frame env (ui w) [] sessionId (before_gateway env [] files w))
    as (_ & _ & _ & Hq).
  destruct (before_gateway_transcript env [] files w) as (Hbm & _ & Hbq).
  cbv zeta in *.
  repeat split.
  - exists rest. rewrite Hm, Hbm, <- app_assoc. reflexivity.
  - rewrite Hq, Hbq. reflexivity.
  - intros sid Hs Ht Ho. exists rows. rewrite Hr.
    destruct (before_gateway_active env [] files w sid Hs Ht Ho) as (_ & E).
    rewrite E. cbn. rewrite <- app_assoc. reflexivity.
  - intros u Hu Hs Ht Ht'. exists rows. rewrite Hr.
    destruct (before_gateway_created env [] files w u Hu Hs Ht Ht') as (_ & E).
    rewrite E. cbn. rewrite <- app_assoc. reflexivity.
Qed.

Lemma empty_submission_says_hello_witness :
  map msg_content
    (messages (ui (exec (handleSubmit (calm (success_reply "Hi there")) [] [fileA])
                        alice_on_her_session))) =
    [lit "hi"; lit "Hello"; lit "Hi there"] /\
  map message
    (requests (exec (handleSubmit (calm (success_reply "Hi there")) [] [fileA])
                    alice_on_her_session)) = [ [] ] /\
  exists rest,
    chat_messages (db (exec (handleSubmit (calm (success_reply "Hi there")) [] [fileA])
                            alice_on_her_session)) =
      chat_messages bobs_database ++
      {| cm_id := 5%nat; cm_session_id := 3%nat; cm_role := role_user;
         cm_content := lit "Hello"; cm_files := Some [lit "policy.pdf"];
         cm_created_at := 11 |} :: rest.
Proof.
  split; [reflexivity|]. split; [reflexivity|].
  exact (proj1 (proj2 (proj2
    (empty_submission_says_hello (calm (success_reply "Hi there")) [fileA]
       alice_on_her_session))) 3%nat eq_refl eq_refl eq_refl).
Defined.

(** ** Gateway failures *)

(** C2.  When the gateway call fails ([fetch] rejects, the body is not JSON,
    or the reply's status is not "success"), the store is left exactly as it
    was just before the call, so no assistant row is added; the transcript
    gains the user turn and then exactly one assistant turn carrying the
    fixed error text; and exactly one request was sent. *)
Theorem gateway_failure_is_local env query files w :
  gateway_reply (gateway env) = None ->
  db (exec (handleSubmit env query files) w) = db (before_gateway env query files w) /\
  assistant_rows (db (exec (handleSubmit env query files) w)) = assistant_rows (db w) /\
  messages (ui (exec (handleSubmit env query files) w)) =
    messages (ui w) ++
    [ userMessage_of env query files;
      {| msg_id := key_client (error_key env); msg_role := role_assistant;
         msg_content := lit "Sorry, I encountered an error. Please try again.";
         msg_files := None |} ] /\
  requests (exec (handleSubmit env query files) w) =
    requests w ++ [request_body (ui w) query].
Proof.
  intros Hg. rewrite handleSubmit_gateway.
  rewrite (call_gateway_failure _ _ _ _ _ Hg). cbn [db ui messages requests].
  destruct (before_gateway_transcript env query files w) as (Hm & _ & Hq).
  destruct (before_gateway_rows env query files w) as (added & Ha & _ & Hr).
  repeat split.
  - unfold assistant_rows. rewrite Ha. now apply filter_user_rows.
  - rewrite Hm, <- app_assoc. reflexivity.
  - now rewrite Hq.
Qed.

Lemma gateway_failure_is_local_witness :
  gateway_reply (gateway (calm failed_reply)) = None /\
  db (exec (handleSubmit (calm failed_reply) (lit "hello?") []) alice_on_her_session) =
    db (before_gateway (calm failed_reply) (lit "hello?") [] alice_on_her_session) /\
  assistant_rows (db (exec (handleSubmit (calm failed_reply) (lit "hello?") [])
                           alice_on_her_session)) =
    assistant_rows (db alice_on_her_session) /\
  messages (ui (exec (handleSubmit (calm failed_reply) (lit "hello?") [])
                     alice_on_her_session)) =
    messages (ui alice_on_her_session) ++
    [ userMessage_of (calm failed_reply) (lit "hello?") [];
      {| msg_id := key_client 102%nat; msg_role := role_assistant;
         msg_content := lit "Sorry, I encountered an error. Please try again.";
         msg_files := None |} ] /\
  requests (exec (handleSubmit (calm failed_reply) (lit "hello?") [])
                 alice_on_her_session) =
    requests alice_on_her_session ++ [request_body (ui alice_on_her_session) (lit "hello?")].
Proof.
  exact (conj eq_refl
    (gateway_failure_is_local (calm failed_reply) (lit "hello?") []
       alice_on_her_session eq_refl)).
Defined.

Example failed_gateway_row_count :
  List.length (chat_messages (db (exec (handleSubmit (calm fetch_rejects) (lit "hello?") [])
                                       alice_on_her_session))) = 4%nat /\
  List.length (assistant_rows (db (exec (handleSubmit (calm fetch_rejects) (lit "hello?") [])
                                        alice_on_her_session))) = 1%nat.
Proof. split; reflexivity. Qed.

(** ** Failures of the storage writes *)

(** A rejected or failed insert of the user turn stays inside the saving
    phase: the transcript is not touched. *)
Lemma user_save_failure_is_swallowed env sessionId userMessage w :
  ui (exec (save_user_message env sessionId userMessage) w) = ui w.
Proof. apply save_user_message_frame. Qed.

Lemma user_save_rejection_is_logged env sid userMessage w :
  user_insert env = Rejects ->
  console (exec (save_user_message env (Some sid) userMessage) w) =
  console w ++ [ {| level := warn; label := lit "Supabase message save error:" |} ].
Proof. intros H. unfold_prog. now rewrite H. Qed.

Lemma call_gateway_quiet env closure query sessionId w :
  assistant_insert env <> Rejects ->
  messages (ui (exec (call_gateway env closure query sessionId) w)) =
    messages (ui w) ++ [reply_message env] /\
  console (exec (call_gateway env closure query sessionId) w) =
    console w ++ gateway_log env.
Proof.
  intros Hr. unfold reply_message, gateway_log. unfold_prog.
  destruct (gateway env) as [| |reply]; cbn; auto.
  destruct (strict_eq (status reply) (lit "success")); cbn; auto.
  destruct sessionId as [s|]; cbn; [|now rewrite app_nil_r].
  destruct (assistant_insert env) eqn:E; cbn.
  - destruct (Pg.insert_message _ _ _ _ _ _ _) as [r d']. cbn.
    now rewrite app_nil_r.
  - now rewrite app_nil_r.
  - now contradiction Hr.
Qed.

Lemma save_user_message_log env sid userMessage w :
  console (exec (save_user_message env (Some sid) userMessage) w) =
  console w ++ user_save_log env.
Proof.
  unfold user_save_log. unfold_prog. destruct (user_insert env); cbn.
  - destruct (Pg.insert_message _ _ _ _ _ _ _) as [r d']. cbn.
    now rewrite app_nil_r.
  - now rewrite app_nil_r.
  - reflexivity.
Qed.

(** C5, as stated, fails: with a session active, both inserts fail (the
    client resolves to [{ error }]) and nothing at all is logged. *)
Lemma storage_failure_logged_counterexample :
  ~ (forall env query files w sid,
        currentSessionId (ui w) = Some sid ->
        user_insert env <> Reached ->
        console (exec (handleSubmit env query files) w) <> console w /\
        messages (ui (exec (handleSubmit env query files) w)) =
          messages (ui w) ++ [userMessage_of env query files; reply_message env]).
Proof.
  intros H.
  destruct (H (writes_unreachable (success_reply "Hi there")) (lit "hello?") []
              alice_on_her_session 3%nat eq_refl) as [Hlog _].
  - discriminate.
  - apply Hlog. reflexivity.
Qed.

(** The part of the behaviour the amended statement leaves aside: when the
    promise of the assistant insert rejects, the rejection is caught by the
    handler of the gateway call, logged as "Error calling AI API:", and the
    error text is appended after the genuine assistant turn. *)
Example assistant_save_rejection_reaches_transcript :
  let w' := exec (handleSubmit (assistant_save_rejects (success_reply "Hi there"))
                    (lit "hello?") []) alice_on_her_session in
  map (fun m => (msg_role m, msg_content m)) (messages (ui w')) =
    [ (role_user, lit "hi");
      (role_user, lit "hello?");
      (role_assistant, lit "Hi there");
      (role_assistant, lit "Sorry, I encountered an error. Please try again.") ] /\
  console w' = [ {| level := log_error; label := lit "Error calling AI API:" |} ] /\
  assistant_rows (db w') = assistant_rows (db alice_on_her_session).
Proof. cbv zeta. repeat split; reflexivity. Qed.

(** C5, amended.  With a session active and an assistant insert that does
    not reject, no outcome of the storage writes changes what the user
    sees: the transcript gains the user turn and the gateway's turn, the
    gateway is called once, and the console receives a warning exactly when
    the user insert rejects (a failure reported in the result of an insert
    is dropped without a trace), besides the gateway's own error entry. *)
Theorem storage_failure_is_swallowed env query files w sid :
  currentSessionId (ui w) = Some sid ->
  assistant_insert env <> Rejects ->
  messages (ui (exec (handleSubmit env query files) w)) =
    messages (ui w) ++ [userMessage_of env query files; reply_message env] /\
  console (exec (handleSubmit env query files) w) =
    console w ++ user_save_log env ++ gateway_log env /\
  requests (exec (handleSubmit env query files) w) =
    requests w ++ [request_body (ui w) query].
Proof.
  intros Hs Hr. rewrite handleSubmit_gateway.
  set (w1 := exec (setMessages _ ;; setIsLoading true) w).
  set (sessionId := local_session env (ui w) query w1).
  destruct (call_gateway_quiet env (ui w) query sessionId
              (before_gateway env query files w) Hr) as (Hm & Hc).
  destruct (call_gateway_frame env (ui w) query sessionId
              (before_gateway env query files w)) as (_ & _ & _ & Hq).
  destruct (before_gateway_transcript env query files w) as (Hbm & _ & Hbq).
  cbv zeta in Hq. rewrite Hm, Hc, Hq, Hbm, Hbq, <- app_assoc.
  repeat split.
  rewrite app_assoc. f_equal.
  unfold before_gateway, local_session, result. fold w1.
  unfold exec at 2.
  rewrite (ensure_session_active env (ui w) query w1 sid Hs). cbn [fst snd].
  rewrite save_user_message_log. reflexivity.
Qed.

Lemma storage_failure_is_swallowed_witness :
  currentSessionId (ui alice_on_her_session) = Some 3%nat /\
  assistant_insert (writes_unreachable (success_reply "Hi there")) <> Rejects /\
  messages (ui (exec (handleSubmit (writes_unreachable (success_reply "Hi there"))
                        (lit "hello?") []) alice_on_her_session)) =
    messages (ui alice_on_her_session) ++
    [ userMessage_of (writes_unreachable (success_reply "Hi there")) (lit "hello?") [];
      assistantMessage_of (writes_unreachable (success_reply "Hi there")) (lit "Hi there") ] /\
  console (exec (handleSubmit (writes_unreachable (success_reply "Hi there"))
                   (lit "hello?") []) alice_on_her_session) = [] /\
  requests (exec (handleSubmit (writes_unreachable (success_reply "Hi there"))
                    (lit "hello?") []) alice_on_her_session) =
    [request_body (ui alice_on_her_session) (lit "hello?")].
Proof.
  refine (conj eq_refl (conj _
    (storage_failure_is_swallowed (writes_unreachable (success_reply "Hi there"))
       (lit "hello?") [] alice_on_her_session 3%nat eq_refl _)));
    discriminate.
Defined.

(** ** The [updated_at] column *)

(** C3, as stated, fails: a message appended at time 20 to a session last
    updated at time 4 leaves [updated_at] at 4. *)
Lemma append_refreshes_updated_at_counterexample :
  ~ (forall a now sid r c f d s,
        error (fst (Pg.insert_message a now sid r c f d)) = None ->
        In s (chat_sessions (snd (Pg.insert_message a now sid r c f d))) ->
        cs_id s = sid ->
        cs_updated_at s = now).
Proof.
  intros H.
  specialize (H (Some 7%nat) 20 3%nat role_user (lit "hi") None bobs_database
                {| cs_id := 3%nat; cs_user_id := 7%nat; cs_title := lit "Alice's chat";
                   cs_created_at := 4; cs_updated_at := 4 |}
                eq_refl (or_intror (or_introl eq_refl)) eq_refl).
  discriminate H.
Qed.

Lemma update_title_rows a now id title tbl s :
  In s tbl -> cs_id s = id -> Pg.owns a s = true ->
  In {| cs_id := cs_id s; cs_user_id := cs_user_id s; cs_title := title;
        cs_created_at := cs_created_at s; cs_updated_at := now |}
     (map (fun s0 =>
             if Nat.eqb (cs_id s0) id && Pg.owns a s0
             then Pg.update_updated_at_column now
                    {| cs_id := cs_id s0; cs_user_id := cs_user_id s0;
                       cs_title := title; cs_created_at := cs_created_at s0;
                       cs_updated_at := cs_updated_at s0 |}
             else s0) tbl).
Proof.
  intros Hin Hid Ho. apply in_map_iff. exists s. split; [|exact Hin].
  rewrite Hid, Nat.eqb_refl, Ho. reflexivity.
Qed.

(** C3, amended.  Appending a message never changes a row of
    [chat_sessions], whether by the bare insert or by a whole [handleSubmit]
    on an active session; [updated_at] becomes [now()] when the owner
    updates the session row itself, through the trigger. *)
Theorem append_keeps_updated_at :
  (forall a now sid r c f d,
      chat_sessions (snd (Pg.insert_message a now sid r c f d)) = chat_sessions d) /\
  (forall env query files w sid,
      currentSessionId (ui w) = Some sid ->
      chat_sessions (db (exec (handleSubmit env query files) w)) = chat_sessions (db w)) /\
  (forall a now id title d s,
      In s (chat_sessions d) -> cs_id s = id -> Pg.owns a s = true ->
      In {| cs_id := cs_id s; cs_user_id := cs_user_id s; cs_title := title;
            cs_created_at := cs_created_at s; cs_updated_at := now |}
         (chat_sessions (snd (Pg.update_session_title a now id title d)))).
Proof.
  split; [|split].
  - apply insert_message_sessions.
  - intros env query files w sid Hs.
    rewrite handleSubmit_gateway.
    set (w1 := exec (setMessages _ ;; setIsLoading true) w).
    destruct (call_gateway_frame env (ui w) query (local_session env (ui w) query w1)
                (before_gateway env query files w)) as (Hcs & _).
    cbv zeta in Hcs. rewrite Hcs. unfold before_gateway. fold w1.
    destruct (save_user_message_frame env (local_session env (ui w) query w1)
                (userMessage_of env query files)
                (exec (ensure_session env (ui w) query) w1)) as (_ & Hss & _).
    cbv zeta in Hss. rewrite Hss. unfold exec at 1.
    rewrite (ensure_session_active env (ui w) query w1 sid Hs). reflexivity.
  - intros a now id title d s Hin Hid Ho. cbn.
    now apply update_title_rows.
Qed.

Lemma append_keeps_updated_at_witness :
  map cs_updated_at
    (chat_sessions (db (exec (handleSubmit (calm (success_reply "Hi there")) (lit "hello?") [])
                             alice_on_her_session))) = [3; 4] /\
  chat_sessions (db (exec (handleSubmit (calm (success_reply "Hi there")) (lit "hello?") [])
                          alice_on_her_session)) = chat_sessions bobs_database /\
  In {| cs_id := 3%nat; cs_user_id := 7%nat; cs_title := lit "Renamed";
        cs_created_at := 4; cs_updated_at := 20 |}
     (chat_sessions (snd (Pg.update_session_title (Some 7%nat) 20 3%nat (lit "Renamed")
                            bobs_database))).
Proof.
  split; [reflexivity|]. split.
  - exact (proj1 (proj2 append_keeps_updated_at)
             (calm (success_reply "Hi there")) (lit "hello?") []
             alice_on_her_session 3%nat eq_refl).
  - exact (proj2 (proj2 append_keeps_updated_at)
             (Some 7%nat) 20 3%nat (lit "Renamed") bobs_database
             {| cs_id := 3%nat; cs_user_id := 7%nat; cs_title := lit "Alice's chat";
                cs_created_at := 4; cs_updated_at := 4 |}
             (or_intror (or_introl eq_refl)) eq_refl eq_refl).
Defined.

(** ** Loading a session *)

Lemma place_permutation m l : Permutation (m :: l) (Pg.place m l).
Proof.
  induction l as [|h t IH]; cbn; [reflexivity|].
  destruct (cm_created_at m <=? cm_created_at h); [reflexivity|].
  rewrite perm_swap. now constructor.
Qed.

Lemma order_by_permutation l : Permutation l (Pg.order_by_created_at l).
Proof.
  induction l as [|h t IH]; cbn; [constructor|].
  rewrite <- place_permutation. now constructor.
Qed.

Lemma place_sorted m l :
  StronglySorted created_le l -> StronglySorted created_le (Pg.place m l).
Proof.
  induction 1 as [|h t Hs IH Hh]; cbn.
  - repeat constructor.
  - destruct (cm_created_at m <=? cm_created_at h) eqn:E.
    + apply Z.leb_le in E. constructor; [now constructor|].
      constructor; [exact E|].
      eapply Forall_impl; [|exact Hh]. unfold created_le. intros; lia.
    + apply Z.leb_gt in E. constructor; [exact IH|].
      eapply Permutation_Forall; [apply place_permutation|].
      constructor; [unfold created_le; lia | exact Hh].
Qed.

Lemma order_by_sorted l : StronglySorted created_le (Pg.order_by_created_at l).
Proof.
  induction l as [|h t IH]; cbn; [constructor|]. now apply place_sorted.
Qed.

Lemma visible_messages_owned a sid d :
  Pg.session_owned a (chat_sessions d) sid = true ->
  Pg.visible_messages a sid d =
  filter (fun m => Nat.eqb (cm_session_id m) sid) (chat_messages d).
Proof.
  intros H. unfold Pg.visible_messages. apply filter_ext. intros m.
  destruct (Nat.eqb (cm_session_id m) sid) eqn:E; [|reflexivity].
  apply Nat.eqb_eq in E. now rewrite E, H.
Qed.

Lemma visible_messages_rejected a sid d :
  Pg.session_owned a (chat_sessions d) sid = false ->
  Pg.visible_messages a sid d = [].
Proof.
  intros H. unfold Pg.visible_messages.
  induction (chat_messages d) as [|m t IH]; [reflexivity|]. cbn.
  destruct (Nat.eqb (cm_session_id m) sid) eqn:E; cbn; [|exact IH].
  apply Nat.eqb_eq in E. now rewrite E, H.
Qed.

Lemma loadSession_reached sessionId w :
  exec (loadSession Reached sessionId) w =
  {| ui := {| messages :=
                map message_of_row
                  (Pg.order_by_created_at (Pg.visible_messages (auth_uid w) sessionId (db w)));
              showResults :=
                (0 <? List.length
                        (map message_of_row
                           (Pg.order_by_created_at
                              (Pg.visible_messages (auth_uid w) sessionId (db w)))))%nat;
              isLoading := isLoading (ui w);
              currentSessionId := Some sessionId;
              selectedModel := selectedModel (ui w); user := user (ui w) |};
     db := db w;
     console := console w;
     requests := requests w |}.
Proof. reflexivity. Qed.

Lemma loadSession_not_reached t sessionId w :
  t <> Reached -> ui (exec (loadSession t sessionId) w) = ui w /\
                  db (exec (loadSession t sessionId) w) = db w.
Proof. destruct t; intros H; [now contradiction H| |]; split; reflexivity. Qed.

(** C7.  When the query of [loadSession] reaches the store, the transcript
    becomes the image of the fetched rows: these are the rows of the session
    the caller may see (all rows of the session when the caller owns it), in
    ascending [created_at]; nothing of the previous transcript survives, so
    two pages over the same store end with the same transcript. *)
Theorem loadSession_replays_in_order sessionId w :
  exists rows,
    messages (ui (exec (loadSession Reached sessionId) w)) = map message_of_row rows /\
    StronglySorted created_le rows /\
    Permutation rows (Pg.visible_messages (auth_uid w) sessionId (db w)) /\
    (Pg.session_owned (auth_uid w) (chat_sessions (db w)) sessionId = true ->
     Permutation rows
       (filter (fun m => Nat.eqb (cm_session_id m) sessionId) (chat_messages (db w)))) /\
    currentSessionId (ui (exec (loadSession Reached sessionId) w)) = Some sessionId /\
    (forall w0, db w0 = db w -> user (ui w0) = user (ui w) ->
       messages (ui (exec (loadSession Reached sessionId) w0)) =
       messages (ui (exec (loadSession Reached sessionId) w))).
Proof.
  exists (Pg.order_by_created_at (Pg.visible_messages (auth_uid w) sessionId (db w))).
  rewrite loadSession_reached. cbn [ui messages currentSessionId].
  split; [reflexivity|]. split; [apply order_by_sorted|].
  split; [symmetry; apply order_by_permutation|].
  split; [|split; [reflexivity|]].
  - intros H. rewrite <- (visible_messages_owned _ _ _ H).
    symmetry; apply order_by_permutation.
  - intros w0 Hd Hu. rewrite loadSession_reached. cbn [ui messages].
    unfold auth_uid. now rewrite Hd, Hu.
Qed.

Lemma loadSession_replays_in_order_witness :
  map msg_content
    (messages (ui (exec (loadSession Reached 0%nat)
                     {| ui := initial_ui (Some alice); db := shuffled_database;
                        console := []; requests := [] |}))) =
    [lit "first"; lit "second"; lit "third"] /\
  exists rows,
    messages (ui (exec (loadSession Reached 0%nat)
                    {| ui := initial_ui (Some alice); db := shuffled_database;
                       console := []; requests := [] |})) = map message_of_row rows /\
    Permutation rows (chat_messages shuffled_database).
Proof.
  split; [reflexivity|].
  destruct (loadSession_replays_in_order 0%nat
              {| ui := initial_ui (Some alice); db := shuffled_database;
                 console := []; requests := [] |})
    as (rows & Hm & _ & _ & Hall & _).
  exists rows. split; [exact Hm | exact (Hall eq_refl)].
Defined.

(** C4, as stated, fails: Alice, with her own session open, loads Bob's
    session 0; the transcript is replaced by the empty one and 0 becomes the
    active session. *)
Lemma rejected_load_keeps_state_counterexample :
  ~ (forall t sessionId w,
        Pg.session_owned (auth_uid w) (chat_sessions (db w)) sessionId = false ->
        messages (ui (exec (loadSession t sessionId) w)) = messages (ui w) /\
        currentSessionId (ui (exec (loadSession t sessionId) w)) =
          currentSessionId (ui w)).
Proof.
  intros H.
  destruct (H Reached 0%nat alice_on_her_session eq_refl) as [Hm _].
  discriminate Hm.
Qed.

(** C4, amended.  When the ownership predicate rejects the caller, the
    query answers with no error and no rows; [loadSession] then empties the
    transcript, hides the results and adopts the identifier as the active
    session, leaving the store as it is.  The transcript and the active
    session are kept only when the query itself does not go through. *)
Theorem rejected_load_adopts_empty_session sessionId w :
  Pg.session_owned (auth_uid w) (chat_sessions (db w)) sessionId = false ->
  Pg.select_messages (auth_uid w) sessionId (db w) = ok [] /\
  messages (ui (exec (loadSession Reached sessionId) w)) = [] /\
  showResults (ui (exec (loadSession Reached sessionId) w)) = false /\
  currentSessionId (ui (exec (loadSession Reached sessionId) w)) = Some sessionId /\
  db (exec (loadSession Reached sessionId) w) = db w /\
  (forall t, t <> Reached -> ui (exec (loadSession t sessionId) w) = ui w).
Proof.
  intros H. rewrite loadSession_reached. unfold Pg.select_messages.
  rewrite (visible_messages_rejected _ _ _ H). cbn.
  repeat split. intros t Ht. now apply loadSession_not_reached.
Qed.

Lemma rejected_load_adopts_empty_session_witness :
  Pg.session_owned (auth_uid alice_on_her_session)
    (chat_sessions (db alice_on_her_session)) 0%nat = false /\
  Pg.select_messages (auth_uid alice_on_her_session) 0%nat (db alice_on_her_session) = ok [] /\
  messages (ui (exec (loadSession Reached 0%nat) alice_on_her_session)) = [] /\
  showResults (ui (exec (loadSession Reached 0%nat) alice_on_her_session)) = false /\
  currentSessionId (ui (exec (loadSession Reached 0%nat) alice_on_her_session)) = Some 0%nat /\
  db (exec (loadSession Reached 0%nat) alice_on_her_session) = db alice_on_her_session /\
  (forall t, t <> Reached ->
     ui (exec (loadSession t 0%nat) alice_on_her_session) = ui alice_on_her_session).
Proof.
  exact (conj eq_refl
    (rejected_load_adopts_empty_session 0%nat alice_on_her_session eq_refl)).
Defined.

(** ** Deleting a session *)

Lemma filter_none {A} (f : A -> bool) (l : list A) :
  (forall x, In x l -> f x = false) -> filter f l = [].
Proof.
  induction l as [|h t IH]; intros H; [reflexivity|]. cbn.
  rewrite (H h (or_introl eq_refl)). apply IH. intros x Hx. apply H. now right.
Qed.

Lemma filter_all {A} (f : A -> bool) (l : list A) :
  (forall x, In x l -> f x = true) -> filter f l = l.
Proof.
  induction l as [|h t IH]; intros H; [reflexivity|]. cbn.
  rewrite (H h (or_introl eq_refl)). f_equal. apply IH. intros x Hx. apply H. now right.
Qed.

(** With [id] a primary key, a session found under an identifier is the
    only one there. *)
Lemma primary_key_unique (tbl : list chat_session) s s' :
  NoDup (map cs_id tbl) -> In s tbl -> In s' tbl -> cs_id s' = cs_id s -> s' = s.
Proof.
  induction tbl as [|h t IH]; intros Hnd Hs Hs' He; [contradiction|].
  cbn in Hnd. inversion Hnd as [|x l Hnotin Hnd']; subst.
  destruct Hs as [-> | Hs], Hs' as [-> | Hs'].
  - reflexivity.
  - exfalso. apply Hnotin. rewrite <- He. now apply in_map.
  - exfalso. apply Hnotin. rewrite He. now apply in_map.
  - now apply IH.
Qed.

Lemma delete_session_no_hit a id d :
  (forall s, In s (chat_sessions d) -> cs_id s = id -> Pg.owns a s = false) ->
  Pg.delete_session a id d = (ok 0%nat, d).
Proof.
  intros H. unfold Pg.delete_session.
  assert (Hgone : filter (fun s => Nat.eqb (cs_id s) id && Pg.owns a s)
                    (chat_sessions d) = []).
  { apply filter_none. intros s Hin.
    destruct (Nat.eqb (cs_id s) id) eqn:E; [|reflexivity].
    apply Nat.eqb_eq in E. cbn. now apply H. }
  rewrite Hgone. cbn.
  rewrite !filter_all.
  - now destruct d.
  - reflexivity.
  - intros s Hin. apply negb_true_iff.
    destruct (Nat.eqb (cs_id s) id) eqn:E; [|reflexivity].
    apply Nat.eqb_eq in E. cbn. now apply H.
Qed.

(** C8.  Deleting a session under the identity of someone who does not own
    it deletes nothing: the statement succeeds with zero rows affected and
    no error, both tables are unchanged, and the owner still finds the
    session among the sessions visible to them. *)
Theorem delete_by_non_owner_is_noop a d s :
  NoDup (map cs_id (chat_sessions d)) ->
  In s (chat_sessions d) ->
  Pg.owns a s = false ->
  Pg.delete_session a (cs_id s) d = (ok 0%nat, d) /\
  error (fst (Pg.delete_session a (cs_id s) d)) = None /\
  chat_messages (snd (Pg.delete_session a (cs_id s) d)) = chat_messages d /\
  In s (Pg.select_sessions (Some (cs_user_id s)) (snd (Pg.delete_session a (cs_id s) d))).
Proof.
  intros Hnd Hin Ho.
  assert (E : Pg.delete_session a (cs_id s) d = (ok 0%nat, d)).
  { apply delete_session_no_hit. intros s' Hin' Hid.
    now rewrite (primary_key_unique _ s s' Hnd Hin Hin' Hid). }
  rewrite E. cbn. repeat split.
  unfold Pg.select_sessions. apply filter_In. split; [exact Hin|].
  now apply owns_self.
Qed.

Lemma delete_by_non_owner_is_noop_witness :
  NoDup (map cs_id (chat_sessions bobs_database)) /\
  In {| cs_id := 0%nat; cs_user_id := 8%nat; cs_title := lit "Bob's chat";
        cs_created_at := 1; cs_updated_at := 3 |} (chat_sessions bobs_database) /\
  Pg.owns (Some 7%nat)
    {| cs_id := 0%nat; cs_user_id := 8%nat; cs_title := lit "Bob's chat";
       cs_created_at := 1; cs_updated_at := 3 |} = false /\
  Pg.delete_session (Some 7%nat) 0%nat bobs_database = (ok 0%nat, bobs_database) /\
  error (fst (Pg.delete_session (Some 7%nat) 0%nat bobs_database)) = None /\
  chat_messages (snd (Pg.delete_session (Some 7%nat) 0%nat bobs_database)) =
    chat_messages bobs_database /\
  In {| cs_id := 0%nat; cs_user_id := 8%nat; cs_title := lit "Bob's chat";
        cs_created_at := 1; cs_updated_at := 3 |}
     (Pg.select_sessions (Some 8%nat)
        (snd (Pg.delete_session (Some 7%nat) 0%nat bobs_database))).
Proof.
  assert (Hnd : NoDup (map cs_id (chat_sessions bobs_database))).
  { cbn. constructor.
    - intros [H | []]. discriminate H.
    - constructor; [intros [] | constructor]. }
  refine (conj Hnd (conj (or_introl eq_refl) (conj eq_refl
    (delete_by_non_owner_is_noop (Some 7%nat) bobs_database
       {| cs_id := 0%nat; cs_user_id := 8%nat; cs_title := lit "Bob's chat";
          cs_created_at := 1; cs_updated_at := 3 |}
       Hnd (or_introl eq_refl) eq_refl)))).
Defined.

(** The owner's own delete, for contrast: the session and its messages go. *)
Example delete_by_owner_cascades :
  Pg.delete_session (Some 8%nat) 0%nat bobs_database =
  (ok 1%nat,
   {| chat_sessions :=
        [ {| cs_id := 3%nat; cs_user_id := 7%nat; cs_title := lit "Alice's chat";
             cs_created_at := 4; cs_updated_at := 4 |} ];
      chat_messages :=
        [ {| cm_id := 4%nat; cm_session_id := 3%nat; cm_role := role_user;
             cm_content := lit "hi"; cm_files := None; cm_created_at := 5 |} ];
      uuid_seed := 5%nat |}).
Proof. reflexivity. Qed.

(** ** The relay ignores the model *)

(** C9.  Whatever the [model] field of a request body says, the relay
    does the same thing.  For a body with a [history] it builds one request
    for the completion API, naming the model "gpt-3.5-turbo" and made of the
    fixed system instruction, then the history, then the message as a user
    turn, hands it to the API and answers with what the API returns; two
    bodies with the same [message] and [history] therefore lead to the same
    upstream request and the same answer; and the bodies [handleSubmit]
    builds with "chatgpt" and with "gemini" selected both lead to that one
    request. *)
Theorem relay_ignores_model :
  (forall b1 b2,
      message b1 = message b2 -> history b1 = history b2 ->
      Relay.upstream_request b1 = Relay.upstream_request b2 /\
      forall openai, Relay.chat openai b1 = Relay.chat openai b2) /\
  (forall b h,
      history b = Some h ->
      Relay.upstream_request b =
        Some {| Relay.cr_model := lit "gpt-3.5-turbo";
                Relay.cr_messages :=
                  Relay.system_instruction :: h ++
                    [ {| turn_role := lit "user"; turn_content := message b |} ];
                Relay.cr_max_tokens := 2000;
                Relay.cr_temperature := 8 # 10 |} /\
      forall openai,
        Relay.chat openai b =
        match openai {| Relay.cr_model := lit "gpt-3.5-turbo";
                        Relay.cr_messages :=
                          Relay.system_instruction :: h ++
                            [ {| turn_role := lit "user"; turn_content := message b |} ];
                        Relay.cr_max_tokens := 2000;
                        Relay.cr_temperature := 8 # 10 |} with
        | Relay.completion content =>
            {| Relay.http_status := 200;
               Relay.http_body := {| status := lit "success"; response := content;
                                     reply_error := [] |};
               Relay.http_details := None |}
        | Relay.upstream_throws details => Relay.service_error details
        end) /\
  (forall b req,
      Relay.upstream_request b = Some req ->
      Relay.cr_model req = lit "gpt-3.5-turbo" /\
      hd_error (Relay.cr_messages req) = Some Relay.system_instruction) /\
  (forall msgs shown loading sid who query,
      Relay.upstream_request
        (request_body {| messages := msgs; showResults := shown; isLoading := loading;
                         currentSessionId := sid; selectedModel := chatgpt;
                         user := who |} query) =
      Relay.upstream_request
        (request_body {| messages := msgs; showResults := shown; isLoading := loading;
                         currentSessionId := sid; selectedModel := gemini;
                         user := who |} query)) /\
  (forall u query,
      Relay.upstream_request (request_body u query) =
        Some {| Relay.cr_model := lit "gpt-3.5-turbo";
                Relay.cr_messages :=
                  Relay.system_instruction :: map turn_of_message (messages u) ++
                    [ {| turn_role := lit "user"; turn_content := query |} ];
                Relay.cr_max_tokens := 2000;
                Relay.cr_temperature := 8 # 10 |}).
Proof.
  split; [|split; [|split; [|split]]].
  - intros b1 b2 Hm Hh.
    assert (E : Relay.upstream_request b1 = Relay.upstream_request b2).
    { unfold Relay.upstream_request. now rewrite Hm, Hh. }
    split; [exact E|]. intros openai. unfold Relay.chat. now rewrite E.
  - intros b h Hh.
    assert (E : Relay.upstream_request b =
                Some {| Relay.cr_model := lit "gpt-3.5-turbo";
                        Relay.cr_messages :=
                          Relay.system_instruction :: h ++
                            [ {| turn_role := lit "user"; turn_content := message b |} ];
                        Relay.cr_max_tokens := 2000;
                        Relay.cr_temperature := 8 # 10 |}).
    { unfold Relay.upstream_request. now rewrite Hh. }
    split; [exact E|]. intros openai. unfold Relay.chat. rewrite E. reflexivity.
  - intros b req H. unfold Relay.upstream_request in H.
    destruct (history b); [|discriminate]. injection H as <-. split; reflexivity.
  - reflexivity.
  - reflexivity.
Qed.

Lemma relay_ignores_model_witness :
  Relay.upstream_request
    {| message := lit "hello?"; model := Some (lit "chatgpt");
       history := Some [ {| turn_role := lit "user"; turn_content := lit "hi" |} ] |} =
  Relay.upstream_request
    {| message := lit "hello?"; model := Some (lit "gemini");
       history := Some [ {| turn_role := lit "user"; turn_content := lit "hi" |} ] |} /\
  Relay.upstream_request
    {| message := lit "hello?"; model := Some (lit "gemini");
       history := Some [ {| turn_role := lit "user"; turn_content := lit "hi" |} ] |} =
    Some {| Relay.cr_model := lit "gpt-3.5-turbo";
            Relay.cr_messages :=
              [ Relay.system_instruction;
                {| turn_role := lit "user"; turn_content := lit "hi" |};
                {| turn_role := lit "user"; turn_content := lit "hello?" |} ];
            Relay.cr_max_tokens := 2000;
            Relay.cr_temperature := 8 # 10 |} /\
  Relay.chat (fun req => Relay.completion (Relay.cr_model req))
    {| message := lit "hello?"; model := Some (lit "gemini");
       history := Some [ {| turn_role := lit "user"; turn_content := lit "hi" |} ] |} =
    {| Relay.http_status := 200;
       Relay.http_body := {| status := lit "success"; response := lit "gpt-3.5-turbo";
                             reply_error := [] |};
       Relay.http_details := None |}.
Proof.
  split; [|split].
  - exact (proj1 (proj1 relay_ignores_model
      {| message := lit "hello?"; model := Some (lit "chatgpt");
         history := Some [ {| turn_role := lit "user"; turn_content := lit "hi" |} ] |}
      {| message := lit "hello?"; model := Some (lit "gemini");
         history := Some [ {| turn_role := lit "user"; turn_content := lit "hi" |} ] |}
      eq_refl eq_refl)).
  - exact (proj1 (proj1 (proj2 relay_ignores_model)
      {| message := lit "hello?"; model := Some (lit "gemini");
         history := Some [ {| turn_role := lit "user"; turn_content := lit "hi" |} ] |}
      [ {| turn_role := lit "user"; turn_content := lit "hi" |} ] eq_refl)).
  - exact (proj2 (proj1 (proj2 relay_ignores_model)
      {| message := lit "hello?"; model := Some (lit "gemini");
         history := Some [ {| turn_role := lit "user"; turn_content := lit "hi" |} ] |}
      [ {| turn_role := lit "user"; turn_content := lit "hi" |} ] eq_refl)
      (fun req => Relay.completion (Relay.cr_model req))).
Defined.

(** A body without a usable [history] is answered with the service error,
    the completion API not being asked. *)
Example relay_without_history :
  forall openai,
    Relay.chat openai {| message := lit "hello?"; model := Some (lit "gemini");
                         history := None |} =
    Relay.service_error (lit "history is not iterable").
Proof. reflexivity. Qed.

(** ** Successful submissions *)

Lemma fresh_session_has_no_rows d :
  store_wf d ->
  filter (fun m => Nat.eqb (cm_session_id m) (uuid_seed d)) (chat_messages d) = [].
Proof.
  intros [Hfk Hid]. apply filter_none. intros m Hin.
  apply Nat.eqb_neq. intros E.
  specialize (Hfk m Hin). unfold Pg.session_exists in Hfk.
  apply existsb_exists in Hfk as (s & Hs & Heq).
  apply Nat.eqb_eq in Heq. specialize (Hid s Hs). lia.
Qed.

Lemma submit_active u sid w s :
  user (ui w) = Some u ->
  currentSessionId (ui w) = Some sid ->
  Pg.session_owned (Some (uid u)) (chat_sessions (db w)) sid = true ->
  succeeds s ->
  user (ui (submit w s)) = Some u /\
  currentSessionId (ui (submit w s)) = Some sid /\
  chat_sessions (db (submit w s)) = chat_sessions (db w) /\
  exists added,
    chat_messages (db (submit w s)) = chat_messages (db w) ++ added /\
    map columns added = saved_turns sid s.
Proof.
  intros Hu Hs Ho (_ & Htu & Hta & Hg).
  unfold submit, saved_turns, reply_text.
  destruct (gateway_reply (gateway (sub_env s))) as [text|] eqn:Eg; [|now contradiction Hg].
  rewrite handleSubmit_gateway.
  assert (Ho' : Pg.session_owned (auth_uid w) (chat_sessions (db w)) sid = true).
  { unfold auth_uid. now rewrite Hu. }
  destruct (before_gateway_active (sub_env s) (sub_query s) (sub_files s) w sid
              Hs Htu Ho') as (El & Eb).
  rewrite El, Eb.
  rewrite (call_gateway_saved _ _ _ _ text sid Eg Hta); [|exact Ho'].
  cbn. rewrite Hu. repeat split.
  eexists. rewrite <- app_assoc. split; reflexivity.
Qed.

Lemma submit_first u w s :
  user (ui w) = Some u ->
  currentSessionId (ui w) = None ->
  succeeds s ->
  user (ui (submit w s)) = Some u /\
  currentSessionId (ui (submit w s)) = Some (uuid_seed (db w)) /\
  chat_sessions (db (submit w s)) =
    chat_sessions (db w) ++ [new_session (sub_env s) u (sub_query s) (db w)] /\
  exists added,
    chat_messages (db (submit w s)) = chat_messages (db w) ++ added /\
    map columns added = saved_turns (uuid_seed (db w)) s.
Proof.
  intros Hu Hs (Hts & Htu & Hta & Hg).
  unfold submit, saved_turns, reply_text.
  destruct (gateway_reply (gateway (sub_env s))) as [text|] eqn:Eg; [|now contradiction Hg].
  rewrite handleSubmit_gateway.
  destruct (before_gateway_created (sub_env s) (sub_query s) (sub_files s) w u
              Hu Hs Hts Htu) as (El & Eb).
  rewrite El, Eb.
  rewrite (call_gateway_saved _ _ _ _ text (uuid_seed (db w)) Eg Hta).
  - cbn. rewrite Hu. repeat split.
    eexists. rewrite <- app_assoc. split; reflexivity.
  - cbn. rewrite Hu. cbn. unfold Pg.session_owned.
    rewrite existsb_app. cbn. rewrite !Nat.eqb_refl. apply orb_true_r.
Qed.

Lemma submit_all_active u sid l : forall w,
  user (ui w) = Some u ->
  currentSessionId (ui w) = Some sid ->
  Pg.session_owned (Some (uid u)) (chat_sessions (db w)) sid = true ->
  Forall succeeds l ->
  currentSessionId (ui (submit_all w l)) = Some sid /\
  chat_sessions (db (submit_all w l)) = chat_sessions (db w) /\
  exists added,
    chat_messages (db (submit_all w l)) = chat_messages (db w) ++ added /\
    map columns added = flat_map (saved_turns sid) l.
Proof.
  induction l as [|s l IH]; intros w Hu Hs Ho Hall.
  - cbn. repeat split; auto. exists []. now rewrite app_nil_r.
  - inversion Hall as [|s' l' Hok Hrest]; subst.
    destruct (submit_active u sid w s Hu Hs Ho Hok) as (Hu' & Hs' & Hcs & added & Ha & Hc).
    assert (Ho' : Pg.session_owned (Some (uid u)) (chat_sessions (db (submit w s))) sid = true)
      by now rewrite Hcs.
    destruct (IH (submit w s) Hu' Hs' Ho' Hrest) as (Hs2 & Hcs2 & added2 & Ha2 & Hc2).
    change (submit_all w (s :: l)) with (submit_all (submit w s) l).
    split; [exact Hs2|]. split; [now rewrite Hcs2|].
    exists (added ++ added2). rewrite Ha2, Ha, <- app_assoc. split; [reflexivity|].
    rewrite map_app, Hc, Hc2. reflexivity.
Qed.

Lemma saved_turns_length sid l :
  List.length (flat_map (saved_turns sid) l) = (2 * List.length l)%nat.
Proof. induction l as [|s l IH]; cbn in *; [reflexivity | lia]. Qed.

Lemma saved_turns_session sid l :
  Forall (fun c => fst (fst (fst c)) = sid) (flat_map (saved_turns sid) l).
Proof. induction l as [|s l IH]; cbn; repeat constructor. exact IH. Qed.

Lemma rows_of_session sid added cols :
  map columns added = cols ->
  Forall (fun c => fst (fst (fst c)) = sid) cols ->
  filter (fun m => Nat.eqb (cm_session_id m) sid) added = added.
Proof.
  intros <- H. apply filter_all. intros m Hin.
  rewrite Forall_forall in H. apply Nat.eqb_eq.
  apply (H (columns m)). now apply in_map.
Qed.

(** C1.  A signed-in user makes N submissions, each with all writes and the
    gateway call succeeding.  Then the store has gained exactly 2N message
    rows; they are, in call order, the user turn and then the assistant turn
    of each call; and all of them belong to one session, which is the active
    one afterwards: the session that was active at the start, or else the
    one the first call created.  In the latter case, over a consistent
    store, that session was created by these calls for this user and holds
    these 2N rows and nothing else. *)
Theorem successful_submissions_persisted u w l :
  user (ui w) = Some u ->
  session_writable u w ->
  Forall succeeds l ->
  exists added,
    chat_messages (db (submit_all w l)) = chat_messages (db w) ++ added /\
    List.length added = (2 * List.length l)%nat /\
    map columns added = flat_map (saved_turns (session_in_use w)) l /\
    (l <> [] -> currentSessionId (ui (submit_all w l)) = Some (session_in_use w)) /\
    (currentSessionId (ui w) = None ->
     store_wf (db w) ->
     filter (fun m => Nat.eqb (cm_session_id m) (session_in_use w))
            (chat_messages (db (submit_all w l))) = added /\
     (l <> [] ->
      exists row,
        chat_sessions (db (submit_all w l)) = chat_sessions (db w) ++ [row] /\
        cs_id row = session_in_use w /\ cs_user_id row = uid u)).
Proof.
  intros Hu Hw Hall. unfold session_in_use, session_writable in *.
  destruct (currentSessionId (ui w)) as [sid|] eqn:Hs.
  - destruct (submit_all_active u sid l w Hu Hs Hw Hall) as (Hs' & _ & added & Ha & Hc).
    exists added. split; [exact Ha|]. split; [|split; [exact Hc|split]].
    + rewrite <- (length_map columns), Hc. apply saved_turns_length.
    + intros _. exact Hs'.
    + discriminate.
  - destruct l as [|s l].
    + exists []. cbn. rewrite app_nil_r.
      split; [reflexivity|]. split; [reflexivity|]. split; [reflexivity|].
      split; [intros H; now contradiction H|].
      intros _ Hwf. split; [apply (fresh_session_has_no_rows _ Hwf)|].
      intros H; now contradiction H.
    + inversion Hall as [|s' l' Hok Hrest]; subst.
      destruct (submit_first u w s Hu Hs Hok) as (Hu' & Hs' & Hcs & added & Ha & Hc).
      assert (Ho : Pg.session_owned (Some (uid u)) (chat_sessions (db (submit w s)))
                     (uuid_seed (db w)) = true).
      { rewrite Hcs. unfold Pg.session_owned. rewrite existsb_app. cbn.
        rewrite !Nat.eqb_refl. apply orb_true_r. }
      destruct (submit_all_active u (uuid_seed (db w)) l (submit w s) Hu' Hs' Ho Hrest)
        as (Hs2 & Hcs2 & added2 & Ha2 & Hc2).
      change (submit_all w (s :: l)) with (submit_all (submit w s) l).
      assert (Hcols : map columns (added ++ added2) =
                      flat_map (saved_turns (uuid_seed (db w))) (s :: l)).
      { rewrite map_app, Hc, Hc2. reflexivity. }
      exists (added ++ added2).
      split; [now rewrite Ha2, Ha, <- app_assoc|].
      split; [rewrite <- (length_map columns), Hcols; apply saved_turns_length|].
      split; [exact Hcols|]. split; [intros _; exact Hs2|].
      intros _ Hwf. split.
      * rewrite Ha2, Ha, <- app_assoc, filter_app, (fresh_session_has_no_rows _ Hwf).
        cbn [app]. apply (rows_of_session _ _ _ Hcols), saved_turns_session.
      * intros _. exists (new_session (sub_env s) u (sub_query s) (db w)).
        rewrite Hcs2, Hcs. repeat split.
Qed.

Lemma successful_submissions_persisted_witness :
  user (ui (fresh_world (Some alice))) = Some alice /\
  session_writable alice (fresh_world (Some alice)) /\
  Forall succeeds [first_call; second_call] /\
  exists added,
    chat_messages (db (submit_all (fresh_world (Some alice)) [first_call; second_call])) =
      chat_messages (db (fresh_world (Some alice))) ++ added /\
    List.length added = 4%nat /\
    map columns added =
      [ (0%nat, role_user, section8_query, Some []);
        (0%nat, role_assistant, lit "It depends.", Some []);
        (0%nat, role_user, lit "Hello", Some [lit "policy.pdf"]);
        (0%nat, role_assistant, lit "See the attachment.", Some []) ] /\
    ([first_call; second_call] <> [] ->
     currentSessionId (ui (submit_all (fresh_world (Some alice))
                             [first_call; second_call])) = Some 0%nat) /\
    (currentSessionId (ui (fresh_world (Some alice))) = None ->
     store_wf (db (fresh_world (Some alice))) ->
     filter (fun m => Nat.eqb (cm_session_id m) 0%nat)
            (chat_messages (db (submit_all (fresh_world (Some alice))
                                  [first_call; second_call]))) = added /\
     ([first_call; second_call] <> [] ->
      exists row,
        chat_sessions (db (submit_all (fresh_world (Some alice))
                             [first_call; second_call])) =
          chat_sessions (db (fresh_world (Some alice))) ++ [row] /\
        cs_id row = 0%nat /\ cs_user_id row = uid alice)).
Proof.
  assert (Hall : Forall succeeds [first_call; second_call]).
  { repeat constructor; discriminate. }
  exact (conj eq_refl (conj I (conj Hall
    (successful_submissions_persisted alice (fresh_world (Some alice))
       [first_call; second_call] eq_refl I Hall)))).
Defined.

Example fresh_store_is_consistent : store_wf (db (fresh_world (Some alice))).
Proof. split; intros x []. Qed.

(** The same two calls on a page that already has a session open. *)
Example submissions_into_open_session :
  map columns
    (chat_messages (db (submit_all alice_on_her_session [first_call; second_call]))) =
  map columns (chat_messages bobs_database) ++
  [ (3%nat, role_user, section8_query, Some []);
    (3%nat, role_assistant, lit "It depends.", Some []);
    (3%nat, role_user, lit "Hello", Some [lit "policy.pdf"]);
    (3%nat, role_assistant, lit "See the attachment.", Some []) ].
Proof. reflexivity. Qed.

(* ================================================================== *)
(** * Further properties of the code *)

(** ** The store stays consistent *)

Lemma session_exists_app tbl extra sid :
  Pg.session_exists tbl sid = true -> Pg.session_exists (tbl ++ extra) sid = true.
Proof.
  unfold Pg.session_exists. rewrite existsb_app. intros ->. reflexivity.
Qed.

Lemma session_exists_in tbl sid :
  Pg.session_exists tbl sid = true <-> exists s, In s tbl /\ cs_id s = sid.
Proof.
  unfold Pg.session_exists. rewrite existsb_exists.
  split; intros (s & Hin & H); exists s; split; auto.
  - now apply Nat.eqb_eq.
  - now apply Nat.eqb_eq.
Qed.

Lemma NoDup_snoc_fresh (l : list nat) n :
  NoDup l -> (forall x, In x l -> (x < n)%nat) -> NoDup (l ++ [n]).
Proof.
  intros Hnd Hlt. apply NoDup_app; [exact Hnd | repeat constructor; intros [] |].
  intros x Hx [E | []]. specialize (Hlt x Hx). lia.
Qed.

Lemma NoDup_map_filter {A} (f : A -> nat) (p : A -> bool) (l : list A) :
  NoDup (map f l) -> NoDup (map f (filter p l)).
Proof.
  induction l as [|h t IH]; cbn; intros H; [constructor|].
  inversion H as [|x l' Hnotin Hnd]; subst.
  destruct (p h); cbn; [|now apply IH].
  constructor; [|now apply IH].
  intros Hin. apply Hnotin. apply in_map_iff in Hin as (y & Hy & Hin).
  apply filter_In in Hin as [Hin _]. apply in_map_iff. now exists y.
Qed.

Ltac split_consistent := split; [split | split; [| split]].

Lemma insert_session_consistent a now user_id title d :
  consistent d -> consistent (snd (Pg.insert_session a now user_id title d)).
Proof.
  intros ((Hfk & Hid) & (Hs & Hm & Hmid)). unfold Pg.insert_session.
  destruct (Pg.owns a _); cbn; [|split_consistent; assumption].
  split_consistent; cbn.
  - intros m Hin. apply session_exists_app. now apply Hfk.
  - intros s Hin. apply in_app_iff in Hin as [Hin | [<- | []]]; cbn.
    + specialize (Hid s Hin). lia.
    + lia.
  - rewrite map_app. cbn. apply NoDup_snoc_fresh; [exact Hs|].
    intros x Hx. apply in_map_iff in Hx as (s & <- & Hin). now apply Hid.
  - exact Hm.
  - intros m Hin. specialize (Hmid m Hin). lia.
Qed.

Lemma insert_message_consistent a now sid r c f d :
  consistent d -> consistent (snd (Pg.insert_message a now sid r c f d)).
Proof.
  intros ((Hfk & Hid) & (Hs & Hm & Hmid)). unfold Pg.insert_message.
  destruct (negb (Pg.session_owned _ _ _)); cbn; [split_consistent; assumption|].
  destruct (negb (Pg.session_exists _ _)) eqn:Ex; cbn; [split_consistent; assumption|].
  apply negb_false_iff in Ex.
  split_consistent; cbn.
  - intros m Hin. apply in_app_iff in Hin as [Hin | [<- | []]];
      [exact (Hfk m Hin) | exact Ex].
  - intros s Hin. specialize (Hid s Hin). lia.
  - exact Hs.
  - rewrite map_app. cbn. apply NoDup_snoc_fresh; [exact Hm|].
    intros x Hx. apply in_map_iff in Hx as (m & <- & Hin). now apply Hmid.
  - intros m Hin. apply in_app_iff in Hin as [Hin | [<- | []]]; cbn.
    + specialize (Hmid m Hin). lia.
    + lia.
Qed.

Lemma update_session_title_ids a now id title tbl :
  map cs_id
    (map (fun s =>
            if Nat.eqb (cs_id s) id && Pg.owns a s
            then Pg.update_updated_at_column now
                   {| cs_id := cs_id s; cs_user_id := cs_user_id s; cs_title := title;
                      cs_created_at := cs_created_at s;
                      cs_updated_at := cs_updated_at s |}
            else s) tbl) = map cs_id tbl.
Proof.
  rewrite map_map. apply map_ext. intros s.
  destruct (Nat.eqb (cs_id s) id && Pg.owns a s); reflexivity.
Qed.

Lemma session_exists_ids tbl tbl' sid :
  map cs_id tbl' = map cs_id tbl ->
  Pg.session_exists tbl' sid = Pg.session_exists tbl sid.
Proof.
  intros H. unfold Pg.session_exists.
  rewrite <- (map_id tbl), <- (map_id tbl') at 1.
  assert (E : forall l, existsb (fun s => Nat.eqb (cs_id s) sid) l =
                        existsb (fun i => Nat.eqb i sid) (map cs_id l)).
  { induction l as [|h t IH]; cbn; [reflexivity | now rewrite IH]. }
  rewrite !map_id, !E, H. reflexivity.
Qed.

Lemma update_session_title_consistent a now id title d :
  consistent d -> consistent (snd (Pg.update_session_title a now id title d)).
Proof.
  intros ((Hfk & Hid) & (Hs & Hm & Hmid)). unfold Pg.update_session_title, consistent, store_wf, primary_keys.
  cbn [snd chat_sessions chat_messages uuid_seed].
  pose proof (update_session_title_ids a now id title (chat_sessions d)) as Hids.
  split_consistent.
  - intros m Hin. rewrite (session_exists_ids _ _ _ Hids). now apply Hfk.
  - intros s Hin.
    assert (Hi : In (cs_id s) (map cs_id (chat_sessions d))).
    { rewrite <- Hids. now apply in_map. }
    apply in_map_iff in Hi as (s0 & E & Hin0). rewrite <- E. now apply Hid.
  - now rewrite Hids.
  - exact Hm.
  - exact Hmid.
Qed.

Lemma delete_session_consistent a id d :
  consistent d -> consistent (snd (Pg.delete_session a id d)).
Proof.
  intros ((Hfk & Hid) & (Hs & Hm & Hmid)). unfold Pg.delete_session, consistent, store_wf, primary_keys.
  cbn [snd chat_sessions chat_messages uuid_seed].
  split_consistent.
  - intros m Hin. apply filter_In in Hin as [Hin Hkeep].
    apply negb_true_iff in Hkeep.
    apply session_exists_in.
    destruct (proj1 (session_exists_in _ _) (Hfk m Hin)) as (s & Hs0 & E).
    exists s. split; [|exact E]. apply filter_In. split; [exact Hs0|].
    apply negb_true_iff. destruct (Nat.eqb (cs_id s) id && Pg.owns a s) eqn:Hit;
      [|reflexivity].
    exfalso. rewrite <- not_true_iff_false in Hkeep. apply Hkeep.
    apply existsb_exists. exists s. split.
    + apply filter_In. now split.
    + now apply Nat.eqb_eq.
  - intros s Hin. apply filter_In in Hin as [Hin _]. now apply Hid.
  - now apply NoDup_map_filter.
  - now apply NoDup_map_filter.
  - intros m Hin. apply filter_In in Hin as [Hin _]. now apply Hmid.
Qed.

(** X1.  Every statement the application can issue keeps the store
    consistent: the foreign key and the primary keys hold afterwards, and
    generated identifiers stay fresh. *)
Theorem statements_keep_store_consistent d :
  consistent d ->
  (forall a now user_id title,
      consistent (snd (Pg.insert_session a now user_id title d))) /\
  (forall a now sid r c f,
      consistent (snd (Pg.insert_message a now sid r c f d))) /\
  (forall a now id title,
      consistent (snd (Pg.update_session_title a now id title d))) /\
  (forall a id, consistent (snd (Pg.delete_session a id d))).
Proof.
  intros H. split; [|split; [|split]].
  - intros. now apply insert_session_consistent.
  - intros. now apply insert_message_consistent.
  - intros. now apply update_session_title_consistent.
  - intros. now apply delete_session_consistent.
Qed.

Ltac nodup_concrete :=
  repeat (constructor; [cbn; intuition discriminate|]); constructor.

Example bobs_database_consistent : consistent bobs_database.
Proof.
  split; [split | split; [| split]]; cbn.
  - intros m [<- | [<- | [<- | []]]]; reflexivity.
  - intros s [<- | [<- | []]]; cbn; lia.
  - nodup_concrete.
  - nodup_concrete.
  - intros m [<- | [<- | [<- | []]]]; cbn; lia.
Qed.

Lemma statements_keep_store_consistent_witness :
  consistent bobs_database /\
  (forall a now user_id title,
      consistent (snd (Pg.insert_session a now user_id title bobs_database))) /\
  (forall a now sid r c f,
      consistent (snd (Pg.insert_message a now sid r c f bobs_database))) /\
  (forall a now id title,
      consistent (snd (Pg.update_session_title a now id title bobs_database))) /\
  (forall a id, consistent (snd (Pg.delete_session a id bobs_database))).
Proof.
  exact (conj bobs_database_consistent
    (statements_keep_store_consistent bobs_database bobs_database_consistent)).
Defined.

(** *** What a handler can do to the store *)

(** The store after the session phase is the store before, or the result of
    one session insert under the caller's identity. *)
Lemma ensure_session_store (P : Database -> Prop) env closure query w :
  (forall d now user_id title,
      P d -> P (snd (Pg.insert_session (auth_uid w) now user_id title d))) ->
  P (db w) -> P (db (exec (ensure_session env closure query) w)).
Proof.
  intros Hins H. unfold ensure_session.
  destruct (user closure) as [u|]; [|exact H].
  destruct (currentSessionId closure) as [s|]; [exact H|].
  unfold_prog. destruct (session_insert env); cbn; try exact H.
  specialize (Hins (db w) (session_clock env) (uid u)
                (or_else (slice query 0 50) (lit "AI Chat")) H).
  destruct (Pg.insert_session _ _ _ _ _) as [[[r|] [e|]] d']; cbn in *; exact Hins.
Qed.

Lemma save_user_message_store (P : Database -> Prop) env sessionId userMessage w :
  (forall d now sid r c f,
      P d -> P (snd (Pg.insert_message (auth_uid w) now sid r c f d))) ->
  P (db w) -> P (db (exec (save_user_message env sessionId userMessage) w)).
Proof.
  intros Hins H. unfold save_user_message.
  destruct sessionId as [s|]; [|exact H].
  unfold_prog. destruct (user_insert env); cbn; try exact H.
  specialize (Hins (db w) (user_clock env) s role_user (msg_content userMessage)
                (msg_files userMessage) H).
  destruct (Pg.insert_message _ _ _ _ _ _ _) as [r d']; cbn in *; exact Hins.
Qed.

Lemma call_gateway_store (P : Database -> Prop) env closure query sessionId w :
  (forall d now sid r c f,
      P d -> P (snd (Pg.insert_message (auth_uid w) now sid r c f d))) ->
  P (db w) -> P (db (exec (call_gateway env closure query sessionId) w)).
Proof.
  intros Hins H. unfold_prog.
  destruct (gateway env) as [| |reply]; cbn; try exact H.
  destruct (strict_eq (status reply) (lit "success")); cbn; [|exact H].
  destruct sessionId as [s|]; cbn; [|exact H].
  destruct (assistant_insert env); cbn; try exact H.
  specialize (Hins (db w) (assistant_clock env) s role_assistant (response reply)
                (Some []) H).
  destruct (Pg.insert_message _ _ _ _ _ _ _) as [r d']; cbn in *; exact Hins.
Qed.

(** A property of the store that the two inserts keep, under the caller's
    identity, is kept by [handleSubmit] in every environment. *)
Lemma handleSubmit_store (P : Database -> Prop) env query files w :
  (forall d now user_id title,
      P d -> P (snd (Pg.insert_session (auth_uid w) now user_id title d))) ->
  (forall d now sid r c f,
      P d -> P (snd (Pg.insert_message (auth_uid w) now sid r c f d))) ->
  P (db w) -> P (db (exec (handleSubmit env query files) w)).
Proof.
  intros Hs Hm H. rewrite handleSubmit_gateway.
  set (w1 := exec (setMessages _ ;; setIsLoading true) w).
  assert (Ha : auth_uid (before_gateway env query files w) = auth_uid w).
  { unfold auth_uid.
    now destruct (before_gateway_transcript env query files w) as (_ & -> & _). }
  apply call_gateway_store; [now rewrite Ha|].
  unfold before_gateway. fold w1.
  assert (Ha2 : auth_uid (exec (ensure_session env (ui w) query) w1) = auth_uid w).
  { unfold auth_uid.
    now destruct (ensure_session_frame env (ui w) query w1) as (_ & -> & _). }
  apply save_user_message_store; [now rewrite Ha2|].
  apply ensure_session_store; [exact Hs | exact H].
Qed.

Lemma loadSession_store t sessionId w : db (exec (loadSession t sessionId) w) = db w.
Proof. destruct t; reflexivity. Qed.

(** X2.  Whatever the environment does (transport faults, gateway failures,
    rejected promises), [handleSubmit] and [loadSession] leave a consistent
    store consistent. *)
Theorem handlers_keep_store_consistent w :
  consistent (db w) ->
  (forall env query files, consistent (db (exec (handleSubmit env query files) w))) /\
  (forall t sessionId, consistent (db (exec (loadSession t sessionId) w))) /\
  consistent (db (exec handleNewChat w)).
Proof.
  intros H. split; [|split].
  - intros env query files. apply handleSubmit_store; [| |exact H].
    + intros. now apply insert_session_consistent.
    + intros. now apply insert_message_consistent.
  - intros t sessionId. now rewrite loadSession_store.
  - exact H.
Qed.

Lemma handlers_keep_store_consistent_witness :
  consistent (db alice_on_her_session) /\
  (forall env query files,
      consistent (db (exec (handleSubmit env query files) alice_on_her_session))) /\
  (forall t sessionId,
      consistent (db (exec (loadSession t sessionId) alice_on_her_session))) /\
  consistent (db (exec handleNewChat alice_on_her_session)).
Proof.
  exact (conj bobs_database_consistent
    (handlers_keep_store_consistent alice_on_her_session bobs_database_consistent)).
Defined.

(** ** One identity cannot touch what another can read *)

Lemma owns_two a b s :
  Pg.owns a s = true -> Pg.owns (Some b) s = true -> a = Some b.
Proof.
  destruct a as [u|]; cbn; [|discriminate].
  intros Hu Hb. apply Nat.eqb_eq in Hu, Hb. congruence.
Qed.

Lemma owns_other a b s :
  a <> Some b -> Pg.owns a s = true -> Pg.owns (Some b) s = false.
Proof.
  intros Hne Ha. destruct (Pg.owns (Some b) s) eqn:Hb; [|reflexivity].
  now contradiction Hne; apply (owns_two a b s).
Qed.

Lemma session_owned_in a tbl sid :
  Pg.session_owned a tbl sid = true <->
  exists s, In s tbl /\ cs_id s = sid /\ Pg.owns a s = true.
Proof.
  unfold Pg.session_owned. rewrite existsb_exists.
  split; intros (s & Hin & H); exists s.
  - apply andb_true_iff in H as [H1 H2]. apply Nat.eqb_eq in H1. auto.
  - destruct H as [H1 H2]. split; [exact Hin|]. apply andb_true_iff.
    split; [now apply Nat.eqb_eq | exact H2].
Qed.

(** With [id] a primary key, a session has one owner. *)
Lemma owner_unique tbl a b sid :
  NoDup (map cs_id tbl) -> a <> Some b ->
  Pg.session_owned a tbl sid = true -> Pg.session_owned (Some b) tbl sid = false.
Proof.
  intros Hnd Hne Ha.
  destruct (Pg.session_owned (Some b) tbl sid) eqn:Hb; [|reflexivity].
  apply session_owned_in in Ha as (s1 & Hin1 & Hid1 & Ho1).
  apply session_owned_in in Hb as (s2 & Hin2 & Hid2 & Ho2).
  assert (E : s2 = s1) by (apply (primary_key_unique tbl); congruence).
  subst s2. contradiction Hne. now apply (owns_two a b s1).
Qed.

Lemma filter_absorb {A} (p q : A -> bool) (l : list A) :
  (forall x, In x l -> p x = true -> q x = true) ->
  filter p (filter q l) = filter p l.
Proof.
  induction l as [|h t IH]; intros H; [reflexivity|]. cbn.
  assert (IH' : filter p (filter q t) = filter p t).
  { apply IH. intros x Hx. apply H. now right. }
  destruct (q h) eqn:Hq; cbn.
  - now rewrite IH'.
  - destruct (p h) eqn:Hp; [|exact IH'].
    rewrite (H h (or_introl eq_refl) Hp) in Hq. discriminate.
Qed.

Lemma existsb_absorb {A} (p q : A -> bool) (l : list A) :
  (forall x, In x l -> p x = true -> q x = true) ->
  existsb p (filter q l) = existsb p l.
Proof.
  induction l as [|h t IH]; intros H; [reflexivity|]. cbn.
  assert (IH' : existsb p (filter q t) = existsb p t).
  { apply IH. intros x Hx. apply H. now right. }
  destruct (q h) eqn:Hq; cbn.
  - now rewrite IH'.
  - destruct (p h) eqn:Hp; [|exact IH'].
    rewrite (H h (or_introl eq_refl) Hp) in Hq. discriminate.
Qed.

Lemma insert_session_view a b now user_id title d :
  a <> Some b ->
  view b (snd (Pg.insert_session a now user_id title d)) = view b d.
Proof.
  intros Hne. unfold Pg.insert_session.
  set (row := {| cs_id := uuid_seed d; cs_user_id := user_id; cs_title := title;
                 cs_created_at := now; cs_updated_at := now |}).
  destruct (Pg.owns a row) eqn:Ho; [|reflexivity].
  pose proof (owns_other a b row Hne Ho) as Hb.
  unfold view, Pg.select_sessions. cbn [snd chat_sessions chat_messages].
  f_equal.
  - rewrite filter_app. cbn [filter]. rewrite Hb. apply app_nil_r.
  - apply filter_ext. intros m. unfold Pg.session_owned.
    rewrite existsb_app. cbn [existsb]. rewrite Hb, andb_false_r. cbn.
    now rewrite orb_false_r.
Qed.

Lemma insert_message_view a b now sid r c f d :
  NoDup (map cs_id (chat_sessions d)) -> a <> Some b ->
  view b (snd (Pg.insert_message a now sid r c f d)) = view b d.
Proof.
  intros Hnd Hne. unfold Pg.insert_message.
  destruct (Pg.session_owned a (chat_sessions d) sid) eqn:Ho; cbn [negb]; [|reflexivity].
  destruct (negb (Pg.session_exists _ _)); [reflexivity|].
  unfold view, Pg.select_sessions. cbn [snd chat_sessions chat_messages].
  f_equal. rewrite filter_app. cbn [filter cm_session_id].
  rewrite (owner_unique _ a b sid Hnd Hne Ho). apply app_nil_r.
Qed.

Lemma update_session_title_view a b now id title d :
  a <> Some b ->
  view b (snd (Pg.update_session_title a now id title d)) = view b d.
Proof.
  intros Hne. unfold Pg.update_session_title, view, Pg.select_sessions.
  cbn [snd chat_sessions chat_messages].
  set (upd := fun s => if Nat.eqb (cs_id s) id && Pg.owns a s then _ else s).
  assert (Hkeep : forall s, Nat.eqb (cs_id (upd s)) = Nat.eqb (cs_id s) /\
                            Pg.owns (Some b) (upd s) = Pg.owns (Some b) s).
  { intros s. unfold upd. destruct (Nat.eqb (cs_id s) id && Pg.owns a s); split; reflexivity. }
  assert (Hsame : forall s, Pg.owns (Some b) s = true -> upd s = s).
  { intros s Hb. unfold upd. destruct (Pg.owns a s) eqn:Ha.
    - now rewrite (owns_other a b s Hne Ha) in Hb.
    - now rewrite andb_false_r. }
  f_equal.
  - induction (chat_sessions d) as [|h t IH]; [reflexivity|]. cbn [map filter].
    rewrite (proj2 (Hkeep h)). destruct (Pg.owns (Some b) h) eqn:Hb.
    + now rewrite (Hsame h Hb), IH.
    + exact IH.
  - apply filter_ext. intros m. unfold Pg.session_owned.
    induction (chat_sessions d) as [|h t IH]; [reflexivity|]. cbn [map existsb].
    now rewrite (proj1 (Hkeep h)), (proj2 (Hkeep h)), IH.
Qed.

Lemma delete_session_view a b id d :
  NoDup (map cs_id (chat_sessions d)) -> a <> Some b ->
  view b (snd (Pg.delete_session a id d)) = view b d.
Proof.
  intros Hnd Hne. unfold Pg.delete_session, view, Pg.select_sessions.
  cbn [snd chat_sessions chat_messages].
  set (hit := fun s => Nat.eqb (cs_id s) id && Pg.owns a s).
  assert (Hsafe : forall s, Pg.owns (Some b) s = true -> negb (hit s) = true).
  { intros s Hb. unfold hit. destruct (Pg.owns a s) eqn:Ha.
    - now rewrite (owns_other a b s Hne Ha) in Hb.
    - now rewrite andb_false_r. }
  assert (Hown : forall sid,
             Pg.session_owned (Some b) (filter (fun s => negb (hit s)) (chat_sessions d)) sid =
             Pg.session_owned (Some b) (chat_sessions d) sid).
  { intros sid. unfold Pg.session_owned. apply existsb_absorb.
    intros s _ H. apply andb_true_iff in H as [_ H]. now apply Hsafe. }
  f_equal.
  - apply filter_absorb. intros s _. apply Hsafe.
  - rewrite (filter_ext _ (fun m => Pg.session_owned (Some b) (chat_sessions d)
                                      (cm_session_id m)))
      by (intros m; apply Hown).
    apply filter_absorb. intros m _ Hb. apply negb_true_iff.
    destruct (existsb _ (filter hit (chat_sessions d))) eqn:Hc; [|reflexivity].
    apply existsb_exists in Hc as (s & Hs & E). apply Nat.eqb_eq in E.
    apply filter_In in Hs as [Hs Hhit]. unfold hit in Hhit.
    apply andb_true_iff in Hhit as [_ Ha].
    assert (Ho : Pg.session_owned a (chat_sessions d) (cm_session_id m) = true).
    { apply session_owned_in. now exists s. }
    now rewrite (owner_unique _ a b _ Hnd Hne Ho) in Hb.
Qed.

(** X3.  Row-level security isolates identities: whatever statement one
    identity issues, the sessions and messages another identity can read
    are the same afterwards. *)
Theorem statements_keep_foreign_view a b d :
  NoDup (map cs_id (chat_sessions d)) ->
  a <> Some b ->
  (forall now user_id title,
      view b (snd (Pg.insert_session a now user_id title d)) = view b d) /\
  (forall now sid r c f,
      view b (snd (Pg.insert_message a now sid r c f d)) = view b d) /\
  (forall now id title,
      view b (snd (Pg.update_session_title a now id title d)) = view b d) /\
  (forall id, view b (snd (Pg.delete_session a id d)) = view b d).
Proof.
  intros Hnd Hne. split; [|split; [|split]]; intros.
  - now apply insert_session_view.
  - now apply insert_message_view.
  - now apply update_session_title_view.
  - now apply delete_session_view.
Qed.

Lemma statements_keep_foreign_view_witness :
  NoDup (map cs_id (chat_sessions bobs_database)) /\
  Some 7%nat <> Some 8%nat /\
  (forall now user_id title,
      view 8%nat (snd (Pg.insert_session (Some 7%nat) now user_id title bobs_database)) =
      view 8%nat bobs_database) /\
  (forall now sid r c f,
      view 8%nat (snd (Pg.insert_message (Some 7%nat) now sid r c f bobs_database)) =
      view 8%nat bobs_database) /\
  (forall now id title,
      view 8%nat (snd (Pg.update_session_title (Some 7%nat) now id title bobs_database)) =
      view 8%nat bobs_database) /\
  (forall id,
      view 8%nat (snd (Pg.delete_session (Some 7%nat) id bobs_database)) =
      view 8%nat bobs_database).
Proof.
  assert (Hne : Some 7%nat <> Some 8%nat) by discriminate.
  exact (conj (proj1 (proj2 bobs_database_consistent)) (conj Hne
    (statements_keep_foreign_view (Some 7%nat) 8%nat bobs_database
       (proj1 (proj2 bobs_database_consistent)) Hne))).
Defined.

(** X4.  The same holds for the page: however a submission of one user
    goes, and whatever session the page has adopted, what any other user can
    read in a consistent store is unchanged. *)
Theorem submission_keeps_foreign_view env query files w b :
  consistent (db w) ->
  auth_uid w <> Some b ->
  view b (db (exec (handleSubmit env query files) w)) = view b (db w).
Proof.
  intros Hc Hne.
  apply (handleSubmit_store (fun d => consistent d /\ view b d = view b (db w))).
  - intros d now user_id title [Hcd Hv]. split.
    + now apply insert_session_consistent.
    + now rewrite insert_session_view.
  - intros d now sid r c f [Hcd Hv]. split.
    + now apply insert_message_consistent.
    + rewrite insert_message_view; [exact Hv | exact (proj1 (proj2 Hcd)) | exact Hne].
  - now split.
Qed.

Lemma submission_keeps_foreign_view_witness :
  consistent (db alice_on_her_session) /\
  auth_uid alice_on_her_session <> Some 8%nat /\
  view 8%nat (db (exec (handleSubmit (calm (success_reply "Hi there")) (lit "hello?") [])
                       alice_on_her_session)) =
    view 8%nat (db alice_on_her_session).
Proof.
  assert (Hne : auth_uid alice_on_her_session <> Some 8%nat) by discriminate.
  exact (conj bobs_database_consistent (conj Hne
    (submission_keeps_foreign_view (calm (success_reply "Hi there")) (lit "hello?") []
       alice_on_her_session 8%nat bobs_database_consistent Hne))).
Defined.

(** What [loadSession] puts on screen comes from the previous transcript or
    from rows the caller's policy lets through. *)
Lemma visible_messages_in a sid d row :
  In row (Pg.visible_messages a sid d) ->
  In row (chat_messages d) /\ cm_session_id row = sid /\
  Pg.session_owned a (chat_sessions d) sid = true.
Proof.
  unfold Pg.visible_messages. intros H. apply filter_In in H as [Hin H].
  apply andb_true_iff in H as [H1 H2]. apply Nat.eqb_eq in H1.
  rewrite H1 in H2. auto.
Qed.

(** X5.  A loaded transcript never shows a row of a session the caller does
    not own: each of its entries was already on screen (when the query did
    not go through) or is the image of a row of the requested session, and
    that session is the caller's. *)
Theorem loaded_transcript_is_readable t sessionId w m :
  In m (messages (ui (exec (loadSession t sessionId) w))) ->
  In m (messages (ui w)) \/
  exists row,
    m = message_of_row row /\ In row (chat_messages (db w)) /\
    cm_session_id row = sessionId /\
    Pg.session_owned (auth_uid w) (chat_sessions (db w)) sessionId = true.
Proof.
  destruct t.
  - rewrite loadSession_reached. cbn [ui messages]. intros H. right.
    apply in_map_iff in H as (row & <- & Hin). exists row. split; [reflexivity|].
    apply visible_messages_in.
    eapply Permutation_in; [symmetry; apply order_by_permutation | exact Hin].
  - intros H. left. exact H.
  - intros H. left. exact H.
Qed.

Lemma loaded_transcript_is_readable_witness :
  In {| msg_id := key_row 4%nat; msg_role := role_user; msg_content := lit "hi";
        msg_files := Some [] |}
     (messages (ui (exec (loadSession Reached 3%nat) alice_on_her_session))) /\
  (In {| msg_id := key_row 4%nat; msg_role := role_user; msg_content := lit "hi";
         msg_files := Some [] |} (messages (ui alice_on_her_session)) \/
   exists row,
     {| msg_id := key_row 4%nat; msg_role := role_user; msg_content := lit "hi";
        msg_files := Some [] |} = message_of_row row /\
     In row (chat_messages (db alice_on_her_session)) /\
     cm_session_id row = 3%nat /\
     Pg.session_owned (auth_uid alice_on_her_session)
       (chat_sessions (db alice_on_her_session)) 3%nat = true).
Proof.
  exact (conj (or_introl eq_refl)
    (loaded_transcript_is_readable Reached 3%nat alice_on_her_session _ (or_introl eq_refl))).
Defined.

(** ** Callers the store turns away *)

Lemma update_nothing (f : chat_session -> chat_session) (tbl : list chat_session) :
  map (fun s => if false then f s else s) tbl = tbl.
Proof. induction tbl as [|h t IH]; cbn; [reflexivity | now rewrite IH]. Qed.

(** X6.  Without an identity the store answers every read with nothing and
    refuses or ignores every write. *)
Theorem anonymous_caller_is_locked_out d :
  Pg.select_sessions None d = [] /\
  (forall sid, Pg.visible_messages None sid d = []) /\
  (forall now user_id title,
      Pg.insert_session None now user_id title d = (failed RowLevelSecurityViolation, d)) /\
  (forall now sid r c f,
      Pg.insert_message None now sid r c f d = (failed RowLevelSecurityViolation, d)) /\
  (forall now id title, Pg.update_session_title None now id title d = (ok 0%nat, d)) /\
  (forall id, Pg.delete_session None id d = (ok 0%nat, d)).
Proof.
  assert (Hno : forall sid, Pg.session_owned None (chat_sessions d) sid = false).
  { intros sid. unfold Pg.session_owned.
    induction (chat_sessions d) as [|h t IH]; [reflexivity|]. cbn.
    now rewrite andb_false_r. }
  split; [|split; [|split; [|split; [|split]]]].
  - unfold Pg.select_sessions. now apply filter_none.
  - intros sid. apply visible_messages_rejected, Hno.
  - reflexivity.
  - intros. apply insert_message_rejected, Hno.
  - intros now id title. unfold Pg.update_session_title.
    assert (E : filter (fun s => Nat.eqb (cs_id s) id && Pg.owns None s) (chat_sessions d) = []).
    { apply filter_none. intros s _. apply andb_false_r. }
    rewrite E. cbn [List.length]. f_equal.
    rewrite (map_ext _ (fun s => s)); [rewrite map_id; now destruct d|].
    intros s. cbn. now rewrite andb_false_r.
  - intros id. apply delete_session_no_hit. reflexivity.
Qed.

Lemma call_gateway_no_session env closure query w :
  messages (ui (exec (call_gateway env closure query None) w)) =
    messages (ui w) ++ [reply_message env] /\
  console (exec (call_gateway env closure query None) w) =
    console w ++ gateway_log env /\
  db (exec (call_gateway env closure query None) w) = db w.
Proof.
  unfold reply_message, gateway_log. unfold_prog.
  destruct (gateway env) as [| |reply]; cbn; auto.
  destruct (strict_eq (status reply) (lit "success")); cbn; auto.
  now rewrite app_nil_r.
Qed.

Lemma ensure_session_fails env closure query w u :
  user closure = Some u ->
  currentSessionId closure = None ->
  session_insert env <> Reached ->
  ensure_session env closure query w =
  (Normal None,
   {| ui := ui w; db := db w; console := console w ++ session_failure_log env;
      requests := requests w |}).
Proof.
  intros Hu Hs Ht. unfold ensure_session, session_failure_log. rewrite Hu, Hs.
  unfold_prog. destruct (session_insert env); cbn.
  - now contradiction Ht.
  - rewrite app_nil_r. now destruct w.
  - reflexivity.
Qed.

(** The state before the gateway call when no session is in use. *)
Lemma before_gateway_without_session env query files w log :
  ensure_session env (ui w) query
    (exec (setMessages (fun prev => prev ++ [userMessage_of env query files]) ;;
           setIsLoading true) w) =
  (Normal None,
   {| ui := ui (exec (setMessages (fun prev => prev ++ [userMessage_of env query files]) ;;
                      setIsLoading true) w);
      db := db w; console := console w ++ log; requests := requests w |}) ->
  local_session env (ui w) query
    (exec (setMessages (fun prev => prev ++ [userMessage_of env query files]) ;;
           setIsLoading true) w) = None /\
  before_gateway env query files w =
  {| ui := {| messages := messages (ui w) ++ [userMessage_of env query files];
              showResults := showResults (ui w);
              isLoading := true;
              currentSessionId := currentSessionId (ui w);
              selectedModel := selectedModel (ui w); user := user (ui w) |};
     db := db w; console := console w ++ log; requests := requests w |}.
Proof.
  intros E. unfold before_gateway, local_session, result.
  set (w1 := exec (setMessages _ ;; setIsLoading true) w) in *.
  change (exec (ensure_session env (ui w) query) w1)
    with (snd (ensure_session env (ui w) query w1)).
  rewrite E. cbn [fst snd]. split; reflexivity.
Qed.

(** X7.  A visitor who is not signed in and has no session chats in memory
    only: in every environment the store is untouched, no session is
    adopted, exactly one request goes to the gateway, and the transcript
    gains the user turn and the gateway's turn. *)
Theorem guest_submission_stays_in_memory env query files w :
  user (ui w) = None ->
  currentSessionId (ui w) = None ->
  db (exec (handleSubmit env query files) w) = db w /\
  currentSessionId (ui (exec (handleSubmit env query files) w)) = None /\
  messages (ui (exec (handleSubmit env query files) w)) =
    messages (ui w) ++ [userMessage_of env query files; reply_message env] /\
  console (exec (handleSubmit env query files) w) = console w ++ gateway_log env /\
  requests (exec (handleSubmit env query files) w) =
    requests w ++ [request_body (ui w) query].
Proof.
  intros Hu Hs. rewrite handleSubmit_gateway.
  set (w1 := exec (setMessages _ ;; setIsLoading true) w).
  assert (E : ensure_session env (ui w) query w1 =
              (Normal None,
               {| ui := ui w1; db := db w; console := console w ++ [];
                  requests := requests w |})).
  { rewrite (ensure_session_anonymous _ _ _ _ Hu), Hs, app_nil_r. reflexivity. }
  destruct (before_gateway_without_session env query files w [] E) as (El & Eb).
  fold w1 in El. rewrite El, Eb.
  destruct (call_gateway_no_session env (ui w) query
              {| ui := {| messages := messages (ui w) ++ [userMessage_of env query files];
                          showResults := showResults (ui w); isLoading := true;
                          currentSessionId := currentSessionId (ui w);
                          selectedModel := selectedModel (ui w); user := user (ui w) |};
                 db := db w; console := console w ++ []; requests := requests w |})
    as (Hm & Hc & Hd).
  destruct (call_gateway_frame env (ui w) query None
              {| ui := {| messages := messages (ui w) ++ [userMessage_of env query files];
                          showResults := showResults (ui w); isLoading := true;
                          currentSessionId := currentSessionId (ui w);
                          selectedModel := selectedModel (ui w); user := user (ui w) |};
                 db := db w; console := console w ++ []; requests := requests w |})
    as (_ & Hid & _ & Hq).
  cbv zeta in Hid, Hq. rewrite Hm, Hc, Hd, Hid, Hq.
  cbn [ui db console requests messages currentSessionId].
  rewrite app_nil_r, <- app_assoc. auto.
Qed.

Lemma guest_submission_stays_in_memory_witness :
  user (ui (fresh_world None)) = None /\
  currentSessionId (ui (fresh_world None)) = None /\
  db (exec (handleSubmit (calm (success_reply "Hi there")) (lit "hello?") [fileA])
           (fresh_world None)) = db (fresh_world None) /\
  currentSessionId (ui (exec (handleSubmit (calm (success_reply "Hi there")) (lit "hello?")
                                [fileA]) (fresh_world None))) = None /\
  messages (ui (exec (handleSubmit (calm (success_reply "Hi there")) (lit "hello?") [fileA])
                     (fresh_world None))) =
    messages (ui (fresh_world None)) ++
    [ userMessage_of (calm (success_reply "Hi there")) (lit "hello?") [fileA];
      assistantMessage_of (calm (success_reply "Hi there")) (lit "Hi there") ] /\
  console (exec (handleSubmit (calm (success_reply "Hi there")) (lit "hello?") [fileA])
                (fresh_world None)) = console (fresh_world None) ++ [] /\
  requests (exec (handleSubmit (calm (success_reply "Hi there")) (lit "hello?") [fileA])
                 (fresh_world None)) =
    requests (fresh_world None) ++ [request_body (ui (fresh_world None)) (lit "hello?")].
Proof.
  exact (conj eq_refl (conj eq_refl
    (guest_submission_stays_in_memory (calm (success_reply "Hi there")) (lit "hello?")
       [fileA] (fresh_world None) eq_refl eq_refl))).
Defined.

(** X8.  When creating the session fails (the client resolves to an error
    or the promise rejects), the submission goes on without one: nothing is
    written, no session is adopted, so the next submission will try again,
    and the transcript still gains the user turn and the gateway's turn;
    only a rejection leaves a warning on the console. *)
Theorem failed_session_creation_is_survived env query files w u :
  user (ui w) = Some u ->
  currentSessionId (ui w) = None ->
  session_insert env <> Reached ->
  db (exec (handleSubmit env query files) w) = db w /\
  currentSessionId (ui (exec (handleSubmit env query files) w)) = None /\
  messages (ui (exec (handleSubmit env query files) w)) =
    messages (ui w) ++ [userMessage_of env query files; reply_message env] /\
  console (exec (handleSubmit env query files) w) =
    console w ++ session_failure_log env ++ gateway_log env.
Proof.
  intros Hu Hs Ht. rewrite handleSubmit_gateway.
  set (w1 := exec (setMessages _ ;; setIsLoading true) w).
  assert (E := ensure_session_fails env (ui w) query w1 u Hu Hs Ht).
  destruct (before_gateway_without_session env query files w _ E) as (El & Eb).
  fold w1 in El. rewrite El, Eb.
  match goal with
  | |- context [exec (call_gateway env (ui w) query None) ?x] =>
      destruct (call_gateway_no_session env (ui w) query x) as (Hm & Hc & Hd);
      destruct (call_gateway_frame env (ui w) query None x) as (_ & Hid & _)
  end.
  cbv zeta in Hid. rewrite Hm, Hc, Hd, Hid.
  cbn [ui db console requests messages currentSessionId].
  rewrite <- !app_assoc. auto.
Qed.

Lemma failed_session_creation_is_survived_witness :
  user (ui (fresh_world (Some alice))) = Some alice /\
  currentSessionId (ui (fresh_world (Some alice))) = None /\
  session_insert (writes_unreachable (success_reply "Hi there")) <> Reached /\
  db (exec (handleSubmit (writes_unreachable (success_reply "Hi there")) (lit "hello?") [])
           (fresh_world (Some alice))) = db (fresh_world (Some alice)) /\
  currentSessionId
    (ui (exec (handleSubmit (writes_unreachable (success_reply "Hi there")) (lit "hello?") [])
              (fresh_world (Some alice)))) = None /\
  messages
    (ui (exec (handleSubmit (writes_unreachable (success_reply "Hi there")) (lit "hello?") [])
              (fresh_world (Some alice)))) =
    messages (ui (fresh_world (Some alice))) ++
    [ userMessage_of (writes_unreachable (success_reply "Hi there")) (lit "hello?") [];
      assistantMessage_of (writes_unreachable (success_reply "Hi there")) (lit "Hi there") ] /\
  console (exec (handleSubmit (writes_unreachable (success_reply "Hi there")) (lit "hello?") [])
                (fresh_world (Some alice))) = [] ++ [] ++ [].
Proof.
  refine (conj eq_refl (conj eq_refl (conj _
    (failed_session_creation_is_survived (writes_unreachable (success_reply "Hi there"))
       (lit "hello?") [] (fresh_world (Some alice)) alice eq_refl eq_refl _))));
    discriminate.
Defined.

Lemma save_user_message_unowned env sid userMessage w :
  Pg.session_owned (auth_uid w) (chat_sessions (db w)) sid = false ->
  db (exec (save_user_message env (Some sid) userMessage) w) = db w.
Proof.
  intros Ho. unfold save_user_message. unfold_prog.
  destruct (user_insert env); cbn; try reflexivity.
  now rewrite (insert_message_rejected _ _ _ _ _ _ _ Ho).
Qed.

Lemma call_gateway_unowned env closure query sid w :
  Pg.session_owned (auth_uid w) (chat_sessions (db w)) sid = false ->
  db (exec (call_gateway env closure query (Some sid)) w) = db w.
Proof.
  intros Ho. unfold_prog.
  destruct (gateway env) as [| |reply]; cbn; try reflexivity.
  destruct (strict_eq (status reply) (lit "success")); cbn; [|reflexivity].
  destruct (assistant_insert env); cbn; try reflexivity.
  now rewrite (insert_message_rejected _ _ _ _ _ _ _ Ho).
Qed.

(** X9.  While the active session is one the user does not own (or one that
    no longer exists), a submission writes nothing at all, in every
    environment: both inserts are turned away by the policy. *)
Theorem submission_into_foreign_session_writes_nothing env query files w sid :
  currentSessionId (ui w) = Some sid ->
  Pg.session_owned (auth_uid w) (chat_sessions (db w)) sid = false ->
  db (exec (handleSubmit env query files) w) = db w.
Proof.
  intros Hs Ho. rewrite handleSubmit_gateway.
  set (w1 := exec (setMessages _ ;; setIsLoading true) w).
  unfold before_gateway, local_session, result. fold w1.
  change (exec (ensure_session env (ui w) query) w1)
    with (snd (ensure_session env (ui w) query w1)).
  rewrite (ensure_session_active env (ui w) query w1 sid Hs). cbn [fst snd].
  assert (Hd : db (exec (save_user_message env (Some sid)
                           (userMessage_of env query files)) w1) = db w)
    by exact (save_user_message_unowned env sid _ w1 Ho).
  rewrite call_gateway_unowned; [exact Hd|].
  rewrite Hd. unfold auth_uid.
  destruct (save_user_message_frame env (Some sid) (userMessage_of env query files) w1)
    as (-> & _). exact Ho.
Qed.

Lemma submission_into_foreign_session_writes_nothing_witness :
  currentSessionId (ui (exec (loadSession Reached 0%nat) alice_on_her_session)) = Some 0%nat /\
  Pg.session_owned (auth_uid (exec (loadSession Reached 0%nat) alice_on_her_session))
    (chat_sessions (db (exec (loadSession Reached 0%nat) alice_on_her_session))) 0%nat = false /\
  db (exec (handleSubmit (calm (success_reply "Hi there")) (lit "hello?") [])
           (exec (loadSession Reached 0%nat) alice_on_her_session)) =
    db (exec (loadSession Reached 0%nat) alice_on_her_session).
Proof.
  exact (conj eq_refl (conj eq_refl
    (submission_into_foreign_session_writes_nothing (calm (success_reply "Hi there"))
       (lit "hello?") [] (exec (loadSession Reached 0%nat) alice_on_her_session) 0%nat
       eq_refl eq_refl))).
Defined.

(** ** Deleting one's own session *)

Lemma filter_key_singleton (tbl : list chat_session) s :
  NoDup (map cs_id tbl) -> In s tbl ->
  filter (fun x => Nat.eqb (cs_id x) (cs_id s)) tbl = [s].
Proof.
  induction tbl as [|h t IH]; intros Hnd Hin; [contradiction|].
  cbn in Hnd. inversion Hnd as [|x l Hnotin Hnd']; subst. cbn.
  destruct Hin as [-> | Hin].
  - rewrite Nat.eqb_refl. f_equal. apply filter_none. intros x Hx.
    apply Nat.eqb_neq. intros E. apply Hnotin. rewrite <- E. now apply in_map.
  - destruct (Nat.eqb (cs_id h) (cs_id s)) eqn:E; [|now apply IH].
    apply Nat.eqb_eq in E. exfalso. apply Hnotin. rewrite E. now apply in_map.
Qed.

Lemma delete_session_owned a d s :
  NoDup (map cs_id (chat_sessions d)) ->
  In s (chat_sessions d) ->
  Pg.owns a s = true ->
  Pg.delete_session a (cs_id s) d =
  (ok 1%nat,
   {| chat_sessions := filter (fun x => negb (Nat.eqb (cs_id x) (cs_id s))) (chat_sessions d);
      chat_messages :=
        filter (fun m => negb (Nat.eqb (cm_session_id m) (cs_id s))) (chat_messages d);
      uuid_seed := uuid_seed d |}).
Proof.
  intros Hnd Hin Ho. unfold Pg.delete_session.
  assert (Hhit : forall x, In x (chat_sessions d) ->
             Nat.eqb (cs_id x) (cs_id s) && Pg.owns a x = Nat.eqb (cs_id x) (cs_id s)).
  { intros x Hx. destruct (Nat.eqb (cs_id x) (cs_id s)) eqn:E; [|reflexivity].
    apply Nat.eqb_eq in E.
    now rewrite (primary_key_unique _ s x Hnd Hin Hx E), Ho. }
  rewrite (filter_ext_in _ (fun x => Nat.eqb (cs_id x) (cs_id s)) _ Hhit).
  rewrite (filter_key_singleton _ s Hnd Hin). cbn [List.length].
  f_equal. f_equal.
  - apply filter_ext_in. intros x Hx. now rewrite (Hhit x Hx).
  - apply filter_ext. intros m. cbn. now rewrite orb_false_r, Nat.eqb_sym.
Qed.

(** X10.  When the owner deletes a session, exactly that session and
    exactly its messages go: one row is reported deleted, every other
    session and every message of another session stays, in table order. *)
Theorem owner_delete_removes_session_and_messages a d s :
  NoDup (map cs_id (chat_sessions d)) ->
  In s (chat_sessions d) ->
  Pg.owns a s = true ->
  fst (Pg.delete_session a (cs_id s) d) = ok 1%nat /\
  chat_sessions (snd (Pg.delete_session a (cs_id s) d)) =
    filter (fun x => negb (Nat.eqb (cs_id x) (cs_id s))) (chat_sessions d) /\
  chat_messages (snd (Pg.delete_session a (cs_id s) d)) =
    filter (fun m => negb (Nat.eqb (cm_session_id m) (cs_id s))) (chat_messages d) /\
  ~ In s (chat_sessions (snd (Pg.delete_session a (cs_id s) d))) /\
  (forall m, In m (chat_messages (snd (Pg.delete_session a (cs_id s) d))) ->
             cm_session_id m <> cs_id s).
Proof.
  intros Hnd Hin Ho. rewrite (delete_session_owned a d s Hnd Hin Ho).
  cbn [fst snd chat_sessions chat_messages]. repeat split.
  - intros H. apply filter_In in H as [_ H]. now rewrite Nat.eqb_refl in H.
  - intros m H E. apply filter_In in H as [_ H]. rewrite E, Nat.eqb_refl in H.
    discriminate.
Qed.

Lemma owner_delete_removes_session_and_messages_witness :
  NoDup (map cs_id (chat_sessions bobs_database)) /\
  In {| cs_id := 0%nat; cs_user_id := 8%nat; cs_title := lit "Bob's chat";
        cs_created_at := 1; cs_updated_at := 3 |} (chat_sessions bobs_database) /\
  Pg.owns (Some 8%nat)
    {| cs_id := 0%nat; cs_user_id := 8%nat; cs_title := lit "Bob's chat";
       cs_created_at := 1; cs_updated_at := 3 |} = true /\
  fst (Pg.delete_session (Some 8%nat) 0%nat bobs_database) = ok 1%nat /\
  chat_sessions (snd (Pg.delete_session (Some 8%nat) 0%nat bobs_database)) =
    filter (fun x => negb (Nat.eqb (cs_id x) 0%nat)) (chat_sessions bobs_database) /\
  chat_messages (snd (Pg.delete_session (Some 8%nat) 0%nat bobs_database)) =
    filter (fun m => negb (Nat.eqb (cm_session_id m) 0%nat)) (chat_messages bobs_database) /\
  ~ In {| cs_id := 0%nat; cs_user_id := 8%nat; cs_title := lit "Bob's chat";
          cs_created_at := 1; cs_updated_at := 3 |}
       (chat_sessions (snd (Pg.delete_session (Some 8%nat) 0%nat bobs_database))) /\
  (forall m, In m (chat_messages (snd (Pg.delete_session (Some 8%nat) 0%nat bobs_database))) ->
             cm_session_id m <> 0%nat).
Proof.
  exact (conj (proj1 (proj2 bobs_database_consistent)) (conj (or_introl eq_refl) (conj eq_refl
    (owner_delete_removes_session_and_messages (Some 8%nat) bobs_database
       {| cs_id := 0%nat; cs_user_id := 8%nat; cs_title := lit "Bob's chat";
          cs_created_at := 1; cs_updated_at := 3 |}
       (proj1 (proj2 bobs_database_consistent)) (or_introl eq_refl) eq_refl)))).
Defined.

(** ** The sidebar *)

Lemma handleDeleteSession_reached sessionId st :
  execS (Sidebar.handleDeleteSession Reached sessionId) st =
  {| Sidebar.page :=
       {| ui := if match currentSessionId (ui (Sidebar.page st)) with
                   | Some c => Nat.eqb c sessionId
                   | None => false
                   end
                then {| messages := []; showResults := false;
                        isLoading := isLoading (ui (Sidebar.page st));
                        currentSessionId := None;
                        selectedModel := selectedModel (ui (Sidebar.page st));
                        user := user (ui (Sidebar.page st)) |}
                else ui (Sidebar.page st);
          db := snd (Pg.delete_session (auth_uid (Sidebar.page st)) sessionId
                       (db (Sidebar.page st)));
          console := console (Sidebar.page st);
          requests := requests (Sidebar.page st) |};
     Sidebar.sidebar :=
       {| Sidebar.sessions :=
            filter (fun x => negb (Nat.eqb (cs_id x) sessionId))
                   (Sidebar.sessions (Sidebar.sidebar st));
          Sidebar.isLoading := Sidebar.isLoading (Sidebar.sidebar st) |} |}.
Proof.
  unfold execS, Sidebar.handleDeleteSession, bindS, Sidebar.in_page, supabase.
  cbn. destruct (currentSessionId (ui (Sidebar.page st))) as [c|]; cbn.
  - destruct (Nat.eqb c sessionId); reflexivity.
  - now destruct (ui (Sidebar.page st)).
Qed.

(** X11.  Deleting from the sidebar.  When the request reaches the store,
    the entry leaves the sidebar's list; the page is reset to an empty new
    chat exactly when the deleted session was the active one, and is left as
    it was otherwise; and for a session the user owns, neither the session
    nor any of its messages remains in the store.  When the client reports
    an error, nothing changes anywhere. *)
Theorem sidebar_delete st s :
  NoDup (map cs_id (chat_sessions (db (Sidebar.page st)))) ->
  In s (chat_sessions (db (Sidebar.page st))) ->
  Pg.owns (auth_uid (Sidebar.page st)) s = true ->
  (forall x, In x (Sidebar.sessions
                     (Sidebar.sidebar (execS (Sidebar.handleDeleteSession Reached (cs_id s)) st))) <->
             In x (Sidebar.sessions (Sidebar.sidebar st)) /\ cs_id x <> cs_id s) /\
  (currentSessionId (ui (Sidebar.page st)) = Some (cs_id s) ->
   messages (ui (Sidebar.page (execS (Sidebar.handleDeleteSession Reached (cs_id s)) st))) = [] /\
   currentSessionId
     (ui (Sidebar.page (execS (Sidebar.handleDeleteSession Reached (cs_id s)) st))) = None) /\
  (currentSessionId (ui (Sidebar.page st)) <> Some (cs_id s) ->
   ui (Sidebar.page (execS (Sidebar.handleDeleteSession Reached (cs_id s)) st)) =
   ui (Sidebar.page st)) /\
  ~ In s (chat_sessions
            (db (Sidebar.page (execS (Sidebar.handleDeleteSession Reached (cs_id s)) st)))) /\
  (forall m, In m (chat_messages
                     (db (Sidebar.page (execS (Sidebar.handleDeleteSession Reached (cs_id s)) st)))) ->
             cm_session_id m <> cs_id s) /\
  execS (Sidebar.handleDeleteSession Unreachable (cs_id s)) st = st.
Proof.
  intros Hnd Hin Ho. rewrite handleDeleteSession_reached.
  cbn [Sidebar.page Sidebar.sidebar Sidebar.sessions ui db].
  rewrite (delete_session_owned _ _ s Hnd Hin Ho).
  cbn [snd chat_sessions chat_messages].
  split; [|split; [|split; [|split; [|split]]]].
  - intros x. rewrite filter_In, negb_true_iff, Nat.eqb_neq. tauto.
  - intros ->. rewrite Nat.eqb_refl. split; reflexivity.
  - intros Hne. destruct (currentSessionId (ui (Sidebar.page st))) as [c|]; [|reflexivity].
    destruct (Nat.eqb c (cs_id s)) eqn:E; [|reflexivity].
    apply Nat.eqb_eq in E. subst c. now contradiction Hne.
  - intros H. apply filter_In in H as [_ H]. now rewrite Nat.eqb_refl in H.
  - intros m H E. apply filter_In in H as [_ H]. rewrite E, Nat.eqb_refl in H.
    discriminate.
  - destruct st as [w sb]. destruct w, sb. reflexivity.
Qed.

Lemma sidebar_delete_witness :
  NoDup (map cs_id (chat_sessions (db (Sidebar.page alice_app)))) /\
  Pg.owns (auth_uid (Sidebar.page alice_app))
    {| cs_id := 3%nat; cs_user_id := 7%nat; cs_title := lit "Alice's chat";
       cs_created_at := 4; cs_updated_at := 4 |} = true /\
  Sidebar.sessions
    (Sidebar.sidebar (execS (Sidebar.handleDeleteSession Reached 3%nat) alice_app)) = [] /\
  messages (ui (Sidebar.page (execS (Sidebar.handleDeleteSession Reached 3%nat) alice_app))) = [] /\
  currentSessionId
    (ui (Sidebar.page (execS (Sidebar.handleDeleteSession Reached 3%nat) alice_app))) = None /\
  (forall m, In m (chat_messages
                     (db (Sidebar.page (execS (Sidebar.handleDeleteSession Reached 3%nat)
                                          alice_app)))) ->
             cm_session_id m <> 3%nat).
Proof.
  split; [exact (proj1 (proj2 bobs_database_consistent))|].
  split; [reflexivity|]. split; [reflexivity|].
  pose proof (sidebar_delete alice_app
                {| cs_id := 3%nat; cs_user_id := 7%nat; cs_title := lit "Alice's chat";
                   cs_created_at := 4; cs_updated_at := 4 |}
                (proj1 (proj2 bobs_database_consistent))
                (or_intror (or_introl eq_refl)) eq_refl) as (_ & Hreset & _ & _ & Hgone & _).
  destruct (Hreset eq_refl) as [Hm Hc].
  split; [exact Hm|]. split; [exact Hc | exact Hgone].
Defined.








Example sidebar_fetch_for_alice :
  Sidebar.sessions (Sidebar.sidebar (execS (Sidebar.fetchSessions Reached)
                                       {| Sidebar.page := alice_on_her_session;
                                          Sidebar.sidebar :=
                                            {| Sidebar.sessions := [];
                                               Sidebar.isLoading := true |} |})) =
  [ {| cs_id := 3%nat; cs_user_id := 7%nat; cs_title := lit "Alice's chat";
       cs_created_at := 4; cs_updated_at := 4 |} ].
Proof. reflexivity. Qed.

(** X13.  The age label of a session.  With the age in milliseconds:
    under an hour, and for any timestamp in the future, "Just now"; from one
    hour up to a day, the whole hours elapsed, between 1 and 23, followed by
    "h ago"; from 24 up to 48 hours, "Yesterday", whatever the calendar
    says; from 48 hours on, and for a date that does not parse, the calendar
    date. *)
Theorem formatDate_by_age toLocaleDateString t now :
  Sidebar.formatDate toLocaleDateString None now = toLocaleDateString None /\
  (now - t < 3600000 ->
   Sidebar.formatDate toLocaleDateString (Some t) now = lit "Just now") /\
  (3600000 <= now - t < 24 * 3600000 ->
   exists h, Sidebar.formatDate toLocaleDateString (Some t) now = decimal h ++ lit "h ago" /\
             1 <= h <= 23 /\ h * 3600000 <= now - t < (h + 1) * 3600000) /\
  (24 * 3600000 <= now - t < 48 * 3600000 ->
   Sidebar.formatDate toLocaleDateString (Some t) now = lit "Yesterday") /\
  (48 * 3600000 <= now - t ->
   Sidebar.formatDate toLocaleDateString (Some t) now = toLocaleDateString (Some t)).
Proof.
  unfold Sidebar.formatDate. change (1000 * 60 * 60) with 3600000.
  pose proof (Z.div_mod (now - t) 3600000 ltac:(lia)) as Hdm.
  pose proof (Z.mod_pos_bound (now - t) 3600000 ltac:(lia)) as Hmod.
  set (q := (now - t) / 3600000) in *.
  split; [reflexivity|].
  split; [|split; [|split]]; intros H.
  - destruct (Z.ltb_spec q 1); [reflexivity | lia].
  - exists q. destruct (Z.ltb_spec q 1); [lia|].
    destruct (Z.ltb_spec q 24); [|lia]. split; [reflexivity | lia].
  - destruct (Z.ltb_spec q 1); [lia|].
    destruct (Z.ltb_spec q 24); [lia|].
    destruct (Z.ltb_spec q 48); [reflexivity | lia].
  - destruct (Z.ltb_spec q 1); [lia|].
    destruct (Z.ltb_spec q 24); [lia|].
    destruct (Z.ltb_spec q 48); [lia | reflexivity].
Qed.

Lemma formatDate_by_age_witness :
  Sidebar.formatDate (fun _ => lit "Jan 1") (Some 1000) (1000 + 5 * 3600000 + 17) =
    lit "5h ago" /\
  Sidebar.formatDate (fun _ => lit "Jan 1") (Some 1000) 0 = lit "Just now" /\
  Sidebar.formatDate (fun _ => lit "Jan 1") (Some 0) (47 * 3600000) = lit "Yesterday" /\
  Sidebar.formatDate (fun _ => lit "Jan 1") (Some 0) (48 * 3600000) = lit "Jan 1".
Proof.
  split; [reflexivity|]. split.
  - apply (proj1 (proj2 (formatDate_by_age (fun _ => lit "Jan 1") 1000 0))). reflexivity.
  - split.
    + apply (proj1 (proj2 (proj2 (proj2
               (formatDate_by_age (fun _ => lit "Jan 1") 0 (47 * 3600000)))))).
      split; [discriminate | reflexivity].
    + apply (proj2 (proj2 (proj2 (proj2
               (formatDate_by_age (fun _ => lit "Jan 1") 0 (48 * 3600000)))))).
      discriminate.
Defined.

(** ** The input box *)

Lemma trimStart_empty s :
  SearchInput.trimStart s = [] <-> forallb SearchInput.is_white s = true.
Proof.
  induction s as [|c t IH]; cbn; [tauto|].
  destruct (SearchInput.is_white c); cbn; [exact IH|]. split; discriminate.
Qed.

Lemma trimStart_head s c t :
  SearchInput.trimStart s = c :: t -> SearchInput.is_white c = false /\ In c s.
Proof.
  induction s as [|h r IH]; cbn; [discriminate|].
  destruct (SearchInput.is_white h) eqn:E.
  - intros H. destruct (IH H) as [Hw Hin]. auto.
  - intros H. injection H as <- _. auto.
Qed.

(** [query.trim()] is truthy exactly when the text has a code unit that is
    not white space. *)
Lemma trim_truthy s :
  truthy (SearchInput.trim s) = negb (forallb SearchInput.is_white s).
Proof.
  unfold SearchInput.trim, SearchInput.trimEnd.
  destruct (SearchInput.trimStart s) as [|c t] eqn:E.
  - apply trimStart_empty in E. now rewrite E.
  - destruct (trimStart_head _ _ _ E) as [Hw Hin].
    assert (Hs : forallb SearchInput.is_white s = false).
    { apply not_true_iff_false. intros H. rewrite forallb_forall in H.
      rewrite (H c Hin) in Hw. discriminate. }
    rewrite Hs. cbn [negb].
    destruct (SearchInput.trimStart (rev (c :: t))) as [|c' t'] eqn:E'.
    + apply trimStart_empty in E'. rewrite forallb_forall in E'.
      rewrite (E' c) in Hw; [discriminate|]. apply -> in_rev. now left.
    + destruct (rev (c' :: t')) eqn:Er; [|reflexivity].
      apply (f_equal (@List.length _)) in Er. rewrite length_rev in Er. discriminate.
Qed.

Lemma call_gateway_returns env closure query sessionId w :
  fst (call_gateway env closure query sessionId w) = Normal tt.
Proof.
  unfold_prog. destruct (gateway env) as [| |reply]; cbn; try reflexivity.
  destruct (strict_eq (status reply) (lit "success")); cbn; [|reflexivity].
  destruct sessionId as [s|]; cbn; [|reflexivity].
  destruct (assistant_insert env); cbn; try reflexivity.
  destruct (Pg.insert_message _ _ _ _ _ _ _); reflexivity.
Qed.

Lemma bind_normal {A B} (m : Prog A) (k : A -> Prog B) w a :
  fst (m w) = Normal a -> bind m k w = k a (snd (m w)).
Proof. unfold bind. destruct (m w) as [c w']. cbn. now intros ->. Qed.

(** [handleSubmit] catches everything: its promise never rejects. *)
Lemma handleSubmit_returns env query files w :
  fst (handleSubmit env query files w) = Normal tt.
Proof.
  unfold handleSubmit.
  rewrite (bind_normal get_ui _ w (ui w)) by reflexivity.
  rewrite (bind_normal (setMessages _) _ _ tt) by reflexivity.
  rewrite (bind_normal (setIsLoading true) _ _ tt) by reflexivity.
  match goal with
  | |- context [bind (ensure_session env ?c query) _ ?x] =>
      destruct (ensure_session_returns env c query x) as [s Hs];
      rewrite (bind_normal _ _ x s Hs)
  end.
  rewrite (bind_normal (save_user_message _ _ _) _ _ tt)
    by apply save_user_message_returns.
  apply call_gateway_returns.
Qed.

(** X14.  The input box forwards a submission exactly when the text has
    something other than white space or a file is attached; it forwards the
    text as typed, untrimmed, and then clears text and files.  So through
    the input box the page records the substitute "Hello" only for a
    submission of attachments without any text, and records text made of
    white space as it is. *)
Theorem input_box_submission env st w :
  (forallb SearchInput.is_white (SearchInput.query st) = true ->
   SearchInput.files st = [] ->
   SearchInput.handleSubmit (handleSubmit env) st w = (Normal st, w)) /\
  (forallb SearchInput.is_white (SearchInput.query st) = false \/
   SearchInput.files st <> [] ->
   SearchInput.handleSubmit (handleSubmit env) st w =
     (Normal {| SearchInput.query := []; SearchInput.files := [];
                SearchInput.isRecording := SearchInput.isRecording st |},
      exec (handleSubmit env (SearchInput.query st) (SearchInput.files st)) w) /\
   msg_content (userMessage_of env (SearchInput.query st) (SearchInput.files st)) =
     match SearchInput.query st with
     | [] => lit "Hello"
     | _ :: _ => SearchInput.query st
     end /\
   (SearchInput.query st = [] -> SearchInput.files st <> [])).
Proof.
  unfold SearchInput.handleSubmit. rewrite trim_truthy. split.
  - intros -> ->. reflexivity.
  - intros H.
    assert (Hgo : negb (forallb SearchInput.is_white (SearchInput.query st))
                  || (0 <? List.length (SearchInput.files st))%nat = true).
    { destruct H as [-> | H]; [reflexivity|]. apply orb_true_iff. right.
      destruct (SearchInput.files st); [now contradiction H | reflexivity]. }
    rewrite Hgo. split; [|split].
    + rewrite (bind_normal _ _ w tt) by apply handleSubmit_returns. reflexivity.
    + unfold userMessage_of. cbn. now destruct (SearchInput.query st).
    + intros Hq. destruct H as [H | H]; [|exact H]. now rewrite Hq in H.
Qed.

Lemma input_box_submission_witness :
  (forallb SearchInput.is_white (SearchInput.query blank_with_file) = false \/
   SearchInput.files blank_with_file <> []) /\
  SearchInput.handleSubmit (handleSubmit (calm (success_reply "Hi there"))) blank_with_file
    (fresh_world (Some alice)) =
    (Normal {| SearchInput.query := []; SearchInput.files := [];
               SearchInput.isRecording := false |},
     exec (handleSubmit (calm (success_reply "Hi there")) (lit "  ") [fileA])
          (fresh_world (Some alice))) /\
  msg_content (userMessage_of (calm (success_reply "Hi there")) (lit "  ") [fileA]) = lit "  ".
Proof.
  assert (H : forallb SearchInput.is_white (SearchInput.query blank_with_file) = false \/
              SearchInput.files blank_with_file <> []) by (right; discriminate).
  split; [exact H|].
  destruct (proj2 (input_box_submission (calm (success_reply "Hi there")) blank_with_file
                     (fresh_world (Some alice))) H) as (Hrun & Hcontent & _).
  split; [exact Hrun | exact Hcontent].
Defined.

Example blank_text_is_not_forwarded :
  SearchInput.handleSubmit (handleSubmit (calm (success_reply "Hi there")))
    {| SearchInput.query := lit "   "; SearchInput.files := [];
       SearchInput.isRecording := false |} (fresh_world (Some alice)) =
  (Normal {| SearchInput.query := lit "   "; SearchInput.files := [];
             SearchInput.isRecording := false |}, fresh_world (Some alice)).
Proof. reflexivity. Qed.

(** X15.  Attaching files and removing one again: a file that was just
    attached, with an identifier no attached file has, is removed by
    [removeFile] without disturbing the others; removing an identifier that
    is not attached changes nothing. *)
Theorem attach_then_remove st f :
  (forall g, In g (SearchInput.files st) -> uf_id g <> uf_id f) ->
  SearchInput.removeFile (uf_id f) (SearchInput.handleFileUpload (Some [f]) st) = st /\
  SearchInput.removeFile (uf_id f) st = st /\
  SearchInput.handleFileUpload None st = st.
Proof.
  intros Hfresh.
  assert (Hkeep : filter (fun g => negb (Nat.eqb (uf_id g) (uf_id f))) (SearchInput.files st)
                  = SearchInput.files st).
  { apply filter_all. intros g Hg. apply negb_true_iff, Nat.eqb_neq. now apply Hfresh. }
  unfold SearchInput.removeFile, SearchInput.handleFileUpload.
  cbn [SearchInput.query SearchInput.files SearchInput.isRecording].
  rewrite filter_app, Hkeep. cbn [filter]. rewrite Nat.eqb_refl. cbn [negb].
  rewrite app_nil_r. destruct st; auto.
Qed.

Lemma attach_then_remove_witness :
  (forall g, In g (SearchInput.files blank_with_file) ->
             uf_id g <> uf_id {| uf_id := 2%nat; uf_name := lit "b.txt"; uf_size := 10;
                                uf_type := lit "text/plain" |}) /\
  SearchInput.removeFile 2%nat
    (SearchInput.handleFileUpload
       (Some [ {| uf_id := 2%nat; uf_name := lit "b.txt"; uf_size := 10;
                  uf_type := lit "text/plain" |} ]) blank_with_file) = blank_with_file.
Proof.
  assert (H : forall g, In g (SearchInput.files blank_with_file) ->
              uf_id g <> uf_id {| uf_id := 2%nat; uf_name := lit "b.txt"; uf_size := 10;
                                 uf_type := lit "text/plain" |}).
  { intros g [<- | []]. discriminate. }
  exact (conj H (proj1 (attach_then_remove blank_with_file
    {| uf_id := 2%nat; uf_name := lit "b.txt"; uf_size := 10; uf_type := lit "text/plain" |}
    H))).
Defined.

(** X16.  The size label of a file.  Up to 1023 bytes it is the exact
    count; from 1 KiB it is a number of tenths of a KiB, from 1 MiB a number
    of tenths of a MiB: in both cases the one number of tenths that lies
    within one twentieth of the true figure, the larger one when the figure
    is exactly halfway.  A file one byte short of a MiB is labelled
    "1024.0 KB". *)
Theorem formatFileSize_accuracy bytes :
  0 <= bytes ->
  (bytes < 1024 ->
   SearchInput.formatFileSize bytes = decimal bytes ++ lit " B") /\
  (1024 <= bytes < 1024 * 1024 ->
   exists t,
     SearchInput.formatFileSize bytes =
       decimal (t / 10) ++ lit "." ++ decimal (t mod 10) ++ lit " KB" /\
     10 <= t <= 10240 /\ - 512 <= 10 * bytes - 1024 * t < 512) /\
  (1024 * 1024 <= bytes ->
   exists t,
     SearchInput.formatFileSize bytes =
       decimal (t / 10) ++ lit "." ++ decimal (t mod 10) ++ lit " MB" /\
     10 <= t /\ - 524288 <= 10 * bytes - 1048576 * t < 524288) /\
  SearchInput.formatFileSize (1024 * 1024 - 1) = lit "1024.0 KB".
Proof.
  intros Hpos. unfold SearchInput.formatFileSize, SearchInput.toFixed1, SearchInput.tenths.
  change (1024 * 1024) with 1048576.
  split; [|split; [|split]].
  - intros H. destruct (Z.ltb_spec bytes 1024); [reflexivity | lia].
  - intros H. destruct (Z.ltb_spec bytes 1024); [lia|].
    destruct (Z.ltb_spec bytes 1048576); [|lia].
    exists ((2 * 10 * bytes + 1024) / (2 * 1024)).
    pose proof (Z.div_mod (2 * 10 * bytes + 1024) (2 * 1024) ltac:(lia)) as Hdm.
    pose proof (Z.mod_pos_bound (2 * 10 * bytes + 1024) (2 * 1024) ltac:(lia)) as Hmod.
    split; [now rewrite <- !app_assoc | lia].
  - intros H. destruct (Z.ltb_spec bytes 1024); [lia|].
    destruct (Z.ltb_spec bytes 1048576); [lia|].
    exists ((2 * 10 * bytes + 1048576) / (2 * 1048576)).
    pose proof (Z.div_mod (2 * 10 * bytes + 1048576) (2 * 1048576) ltac:(lia)) as Hdm.
    pose proof (Z.mod_pos_bound (2 * 10 * bytes + 1048576) (2 * 1048576) ltac:(lia)) as Hmod.
    split; [now rewrite <- !app_assoc | lia].
  - reflexivity.
Qed.

Lemma formatFileSize_accuracy_witness :
  0 <= 1310720 /\
  SearchInput.formatFileSize 1536 = lit "1.5 KB" /\
  SearchInput.formatFileSize 1280 = lit "1.3 KB" /\
  SearchInput.formatFileSize 1310720 = lit "1.3 MB" /\
  (exists t,
     SearchInput.formatFileSize 1280 =
       decimal (t / 10) ++ lit "." ++ decimal (t mod 10) ++ lit " KB" /\
     10 <= t <= 10240 /\ - 512 <= 10 * 1280 - 1024 * t < 512) /\
  (exists t,
     SearchInput.formatFileSize 1310720 =
       decimal (t / 10) ++ lit "." ++ decimal (t mod 10) ++ lit " MB" /\
     10 <= t /\ - 524288 <= 10 * 1310720 - 1048576 * t < 524288).
Proof.
  split; [discriminate|]. split; [reflexivity|]. split; [reflexivity|].
  split; [reflexivity|]. split.
  - apply (proj1 (proj2 (formatFileSize_accuracy 1280 ltac:(discriminate)))).
    split; [discriminate | reflexivity].
  - apply (proj1 (proj2 (proj2 (formatFileSize_accuracy 1310720 ltac:(discriminate))))).
    discriminate.
Defined.

(** ** What a submission leaves on the page *)

Lemma ensure_session_model env closure query w :
  selectedModel (ui (exec (ensure_session env closure query) w)) = selectedModel (ui w).
Proof.
  unfold ensure_session.
  destruct (user closure) as [u|]; [|reflexivity].
  destruct (currentSessionId closure) as [s|]; [reflexivity|].
  unfold_prog. destruct (session_insert env); cbn; auto.
  unfold Pg.insert_session. cbn. destruct (Pg.owns _ _); reflexivity.
Qed.

Lemma call_gateway_screen env closure query sessionId w :
  selectedModel (ui (exec (call_gateway env closure query sessionId) w)) =
    selectedModel (ui w) /\
  isLoading (ui (exec (call_gateway env closure query sessionId) w)) = false /\
  (exists init m,
      messages (ui (exec (call_gateway env closure query sessionId) w)) =
        (messages (ui w) ++ init) ++ [m] /\
      msg_files m = None /\ msg_role m = role_assistant) /\
  showResults (ui (exec (call_gateway env closure query sessionId) w)) =
    match gateway_reply (gateway env) with
    | Some _ => true
    | None => showResults (ui w)
    end.
Proof.
  assert (Hone : forall (l : list Message) m,
             msg_files m = None -> msg_role m = role_assistant ->
             exists init m', l ++ [m] = (l ++ init) ++ [m'] /\
                             msg_files m' = None /\ msg_role m' = role_assistant).
  { intros l m H1 H2. exists [], m. now rewrite app_nil_r. }
  unfold_prog. destruct (gateway env) as [| |reply]; cbn;
    try (repeat split; auto; now apply Hone).
  destruct (strict_eq (status reply) (lit "success")); cbn;
    try (repeat split; auto; now apply Hone).
  destruct sessionId as [s|]; cbn; try (repeat split; auto; now apply Hone).
  destruct (assistant_insert env); cbn; try (repeat split; auto; now apply Hone).
  - destruct (Pg.insert_message _ _ _ _ _ _ _) as [r d']. cbn.
    repeat split; auto; now apply Hone.
  - repeat split; auto. eexists [_], _. rewrite <- !app_assoc. cbn. repeat split.
Qed.

Lemma nth_error_last {A} (l : list A) (x : A) :
  nth_error (l ++ [x]) (List.length (l ++ [x]) - 1) = Some x.
Proof.
  rewrite length_app. cbn [List.length].
  replace (List.length l + 1 - 1)%nat with (List.length l) by lia.
  rewrite nth_error_app2 by lia. now rewrite Nat.sub_diag.
Qed.

(** X17.  However a submission goes, the input is enabled again at the
    end, and the transcript ends with an assistant turn that carries no
    files: the compliance report rendered under it is given an empty list
    of uploaded files even when the user attached some.  The report is
    switched on by a successful reply and left as it was by a failure. *)
Theorem submission_leaves_no_uploaded_files env query files w :
  isLoading (ui (exec (handleSubmit env query files) w)) = false /\
  uploadedFiles (ui (exec (handleSubmit env query files) w)) = [] /\
  messages (ui (exec (handleSubmit env query files) w)) <> [] /\
  (gateway_reply (gateway env) <> None ->
   report_shown (ui (exec (handleSubmit env query files) w)) = true) /\
  (gateway_reply (gateway env) = None ->
   showResults (ui (exec (handleSubmit env query files) w)) = showResults (ui w)).
Proof.
  rewrite handleSubmit_gateway.
  set (w1 := exec (setMessages _ ;; setIsLoading true) w).
  destruct (call_gateway_screen env (ui w) query (local_session env (ui w) query w1)
              (before_gateway env query files w))
    as (_ & Hload & (init & m & Hm & Hf & _) & Hshow).
  split; [exact Hload|].
  assert (Hne : messages (ui (exec (call_gateway env (ui w) query
                  (local_session env (ui w) query w1)) (before_gateway env query files w)))
                <> []).
  { rewrite Hm. intros E. apply (f_equal (@List.length _)) in E.
    rewrite length_app in E. cbn in E. lia. }
  split; [|split; [exact Hne|split]].
  - unfold uploadedFiles. rewrite Hm, nth_error_last, Hf. reflexivity.
  - intros Hg. unfold report_shown. rewrite Hshow.
    destruct (gateway_reply (gateway env)); [|now contradiction Hg].
    rewrite andb_true_r. apply Nat.ltb_lt.
    destruct (messages (ui _)); [now contradiction Hne | cbn; lia].
  - intros Hg. rewrite Hshow, Hg. unfold before_gateway. fold w1.
    destruct (save_user_message_frame env (local_session env (ui w) query w1)
                (userMessage_of env query files)
                (exec (ensure_session env (ui w) query) w1)) as (-> & _).
    clear. unfold ensure_session.
    destruct (user (ui w)) as [u|]; [|reflexivity].
    destruct (currentSessionId (ui w)) as [s|]; [reflexivity|].
    unfold_prog. destruct (session_insert env); cbn; auto.
    unfold Pg.insert_session. cbn. destruct (Pg.owns _ _); reflexivity.
Qed.

Example attached_files_do_not_reach_the_report :
  uploadedFiles (ui (exec (handleSubmit (calm (success_reply "Hi there")) (lit "see file")
                             [fileA]) (fresh_world (Some alice)))) = [] /\
  report_shown (ui (exec (handleSubmit (calm (success_reply "Hi there")) (lit "see file")
                            [fileA]) (fresh_world (Some alice)))) = true.
Proof. split; reflexivity. Qed.

(** The transcript a submission leaves when the assistant insert does not
    reject. *)
Lemma handleSubmit_transcript env query files w :
  assistant_insert env <> Rejects ->
  messages (ui (exec (handleSubmit env query files) w)) =
    messages (ui w) ++ [userMessage_of env query files; reply_message env] /\
  selectedModel (ui (exec (handleSubmit env query files) w)) = selectedModel (ui w) /\
  requests (exec (handleSubmit env query files) w) =
    requests w ++ [request_body (ui w) query].
Proof.
  intros Hr. rewrite handleSubmit_gateway.
  set (w1 := exec (setMessages _ ;; setIsLoading true) w).
  set (sessionId := local_session env (ui w) query w1).
  destruct (call_gateway_quiet env (ui w) query sessionId
              (before_gateway env query files w) Hr) as (Hm & _).
  destruct (call_gateway_frame env (ui w) query sessionId
              (before_gateway env query files w)) as (_ & _ & _ & Hq).
  destruct (call_gateway_screen env (ui w) query sessionId
              (before_gateway env query files w)) as (Hmodel & _).
  destruct (before_gateway_transcript env query files w) as (Hbm & _ & Hbq).
  cbv zeta in Hq. rewrite Hm, Hq, Hbm, Hbq, Hmodel, <- app_assoc.
  split; [reflexivity|]. split; [|reflexivity].
  unfold before_gateway. fold w1. fold sessionId.
  destruct (save_user_message_frame env sessionId (userMessage_of env query files)
              (exec (ensure_session env (ui w) query) w1)) as (-> & _).
  now rewrite ensure_session_model.
Qed.

(** X18.  What the model is told about the past.  The second of two
    submissions sends as history the whole transcript the first one left:
    everything that was on screen before, then the first user turn as
    recorded ("Hello" for an empty text, although the first request carried
    the empty text) and the first reply as shown, which after a gateway
    failure is the local error text. *)
Theorem next_request_replays_transcript env1 query1 files1 env2 query2 files2 w :
  assistant_insert env1 <> Rejects ->
  requests (exec (handleSubmit env2 query2 files2)
                 (exec (handleSubmit env1 query1 files1) w)) =
  requests w ++
  [ {| message := query1;
       model := Some (model_text (selectedModel (ui w)));
       history := Some (map turn_of_message (messages (ui w))) |};
    {| message := query2;
       model := Some (model_text (selectedModel (ui w)));
       history :=
         Some (map turn_of_message (messages (ui w)) ++
               [ {| turn_role := lit "user";
                    turn_content := or_else query1 (lit "Hello") |};
                 {| turn_role := lit "assistant";
                    turn_content :=
                      match gateway_reply (gateway env1) with
                      | Some text => text
                      | None => lit "Sorry, I encountered an error. Please try again."
                      end |} ]) |} ].
Proof.
  intros Hr.
  destruct (handleSubmit_transcript env1 query1 files1 w Hr) as (Hm & Hmodel & Hq).
  destruct (call_gateway_frame env2 (ui (exec (handleSubmit env1 query1 files1) w)) query2
              (local_session env2 (ui (exec (handleSubmit env1 query1 files1) w)) query2
                 (exec (setMessages (fun prev => prev ++ [userMessage_of env2 query2 files2]) ;;
                        setIsLoading true) (exec (handleSubmit env1 query1 files1) w)))
              (before_gateway env2 query2 files2 (exec (handleSubmit env1 query1 files1) w)))
    as (_ & _ & _ & Hq2).
  destruct (before_gateway_transcript env2 query2 files2
              (exec (handleSubmit env1 query1 files1) w)) as (_ & _ & Hbq).
  rewrite handleSubmit_gateway. cbv zeta in Hq2. rewrite Hq2, Hbq, Hq, <- app_assoc.
  unfold request_body. rewrite Hm, Hmodel, map_app. cbn [app map].
  unfold reply_message, turn_of_message.
  destruct (gateway_reply (gateway env1)); reflexivity.
Qed.

Lemma next_request_replays_transcript_witness :
  assistant_insert (calm fetch_rejects) <> Rejects /\
  map history
    (requests (exec (handleSubmit (calm (success_reply "Hi there")) (lit "again") [])
                    (exec (handleSubmit (calm fetch_rejects) [] [fileA])
                          {| ui := initial_ui None; db := empty_database; console := [];
                             requests := [] |}))) =
  [ Some (map turn_of_message (messages (initial_ui None)));
    Some (map turn_of_message (messages (initial_ui None)) ++
          [ {| turn_role := lit "user"; turn_content := lit "Hello" |};
            {| turn_role := lit "assistant";
               turn_content := lit "Sorry, I encountered an error. Please try again." |} ]) ].
Proof.
  assert (H : assistant_insert (calm fetch_rejects) <> Rejects) by discriminate.
  split; [exact H|].
  rewrite (next_request_replays_transcript (calm fetch_rejects) [] [fileA]
             (calm (success_reply "Hi there")) (lit "again") []
             {| ui := initial_ui None; db := empty_database; console := []; requests := [] |}
             H).
  reflexivity.
Defined.

(** ** The page and the relay together *)

Lemma strict_eq_refl (a : jsstring) : strict_eq a a = true.
Proof. unfold strict_eq. destruct (jsstring_eq_dec a a); [reflexivity | contradiction]. Qed.

Lemma relay_gateway_reply openai (u : UiState) query :
  gateway_reply (relay_outcome openai (request_body u query)) =
  match openai (upstream_of u query) with
  | Relay.completion content => Some content
  | Relay.upstream_throws _ => None
  end.
Proof.
  unfold relay_outcome, Relay.chat, request_body, Relay.upstream_request.
  cbn [history message]. fold (upstream_of u query).
  destruct (openai (upstream_of u query)); cbn [gateway_reply Relay.http_body status response].
  - now rewrite strict_eq_refl.
  - reflexivity.
Qed.

(** What the gateway phase appends after a successful reply: the answer,
    and after it the error text only when the assistant insert rejects. *)
Lemma call_gateway_answer env closure query sessionId w text :
  gateway_reply (gateway env) = Some text ->
  exists tail,
    messages (ui (exec (call_gateway env closure query sessionId) w)) =
      messages (ui w) ++ assistantMessage_of env text :: tail /\
    (tail = [] \/ tail = [errorMessage_of env]) /\
    (assistant_insert env <> Rejects -> tail = []) /\
    (sessionId = None -> tail = []) /\
    (assistant_insert env = Rejects -> sessionId <> None ->
     tail = [errorMessage_of env]).
Proof.
  intros H. unfold_prog. destruct (gateway env) as [| |reply]; try discriminate.
  cbn. destruct (strict_eq (status reply) (lit "success")); [|discriminate].
  injection H as <-. cbn.
  destruct sessionId as [s|]; cbn.
  - destruct (assistant_insert env) eqn:E; cbn.
    + destruct (Pg.insert_message _ _ _ _ _ _ _) as [r d']. cbn. exists [].
      repeat split; auto; discriminate.
    + exists []. repeat split; auto; discriminate.
    + exists [errorMessage_of env]. rewrite <- app_assoc. cbn.
      split; [reflexivity|]. split; [now right|]. split; [|split].
      * intros Hne. now contradiction Hne.
      * discriminate.
      * reflexivity.
  - exists []. repeat split; auto. intros _ Hn. now contradiction Hn.
Qed.

(** X19.  From the input to the completion API and back.  With the relay
    as gateway, the API is asked with the fixed system instruction, then
    every turn of the transcript as it stood, then the text as typed.  If it
    throws, the transcript gains the user turn and the local error text:
    neither the relay's error message nor the upstream details are shown.
    If it answers, the transcript gains the user turn and the answer as the
    assistant turn.  Nothing follows the answer unless the promise of the
    assistant insert rejects; when it rejects, the local error text follows
    whenever a session was active at the submission, and nothing follows
    for a visitor without a session, for whom no insert is attempted. *)
Theorem page_through_relay openai env query files w :
  Relay.upstream_request (request_body (ui w) query) = Some (upstream_of (ui w) query) /\
  match openai (upstream_of (ui w) query) with
  | Relay.upstream_throws _ =>
      messages (ui (exec (handleSubmit (through_relay openai env (ui w) query) query files) w)) =
        messages (ui w) ++ [userMessage_of env query files; errorMessage_of env]
  | Relay.completion content =>
      exists tail,
        messages (ui (exec (handleSubmit (through_relay openai env (ui w) query) query files)
                           w)) =
          messages (ui w) ++
          userMessage_of env query files :: assistantMessage_of env content :: tail /\
        (tail = [] \/ tail = [errorMessage_of env]) /\
        (assistant_insert env <> Rejects -> tail = []) /\
        (user (ui w) = None -> currentSessionId (ui w) = None -> tail = []) /\
        (assistant_insert env = Rejects -> currentSessionId (ui w) <> None ->
         tail = [errorMessage_of env])
  end.
Proof.
  split; [reflexivity|].
  set (env' := through_relay openai env (ui w) query).
  pose proof (relay_gateway_reply openai (ui w) query) as Hreply.
  change (relay_outcome openai (request_body (ui w) query)) with (gateway env') in Hreply.
  rewrite handleSubmit_gateway.
  destruct (before_gateway_transcript env' query files w) as (Hbm & _).
  destruct (openai (upstream_of (ui w) query)) as [content|details].
  - set (w1 := exec (setMessages (fun prev => prev ++ [userMessage_of env' query files]) ;;
                     setIsLoading true) w).
    destruct (call_gateway_answer env' (ui w) query
                (local_session env' (ui w) query w1)
                (before_gateway env' query files w) content Hreply)
      as (tail & Hm & Htail & Hquiet & Hguest & Hloud).
    exists tail. rewrite Hm, Hbm, <- app_assoc. split; [reflexivity|].
    split; [exact Htail|]. split; [exact Hquiet|]. split.
    + intros Hu Hs. apply Hguest. unfold local_session, result.
      now rewrite (ensure_session_anonymous env' (ui w) query w1 Hu), Hs.
    + intros Hr Hs. apply (Hloud Hr).
      destruct (currentSessionId (ui w)) as [sid|] eqn:E; [|now contradiction Hs].
      unfold local_session, result.
      rewrite (ensure_session_active env' (ui w) query w1 sid E). discriminate.
  - rewrite (call_gateway_failure _ _ _ _ _ Hreply). cbn [ui messages].
    rewrite Hbm, <- app_assoc. reflexivity.
Qed.

Lemma page_through_relay_witness :
  map msg_content
    (messages (ui (exec (handleSubmit
                           (through_relay out_of_quota (calm fetch_rejects)
                              (ui (fresh_world None)) (lit "hello?"))
                           (lit "hello?") []) (fresh_world None)))) =
    map msg_content (messages (ui (fresh_world None))) ++
    [ lit "hello?"; lit "Sorry, I encountered an error. Please try again." ] /\
  assistant_insert (calm fetch_rejects) <> Rejects /\
  map msg_content
    (messages (ui (exec (handleSubmit
                           (through_relay (fun req => Relay.completion (Relay.cr_model req))
                              (calm fetch_rejects) (ui (fresh_world None)) (lit "hello?"))
                           (lit "hello?") []) (fresh_world None)))) =
    map msg_content (messages (ui (fresh_world None))) ++
    [ lit "hello?"; lit "gpt-3.5-turbo" ] /\
  assistant_insert (assistant_save_rejects fetch_rejects) = Rejects /\
  currentSessionId (ui alice_on_her_session) <> None /\
  map msg_content
    (messages (ui (exec (handleSubmit
                           (through_relay (fun req => Relay.completion (Relay.cr_model req))
                              (assistant_save_rejects fetch_rejects)
                              (ui alice_on_her_session) (lit "hello?"))
                           (lit "hello?") []) alice_on_her_session))) =
    map msg_content (messages (ui alice_on_her_session)) ++
    [ lit "hello?"; lit "gpt-3.5-turbo";
      lit "Sorry, I encountered an error. Please try again." ].
Proof.
  assert (H : assistant_insert (calm fetch_rejects) <> Rejects) by discriminate.
  assert (Hr : assistant_insert (assistant_save_rejects fetch_rejects) = Rejects)
    by reflexivity.
  assert (Hs : currentSessionId (ui alice_on_her_session) <> None) by discriminate.
  split; [|split; [exact H|split; [|split; [exact Hr|split; [exact Hs|]]]]].
  - assert (Hm : messages (ui (exec (handleSubmit
                           (through_relay out_of_quota (calm fetch_rejects)
                              (ui (fresh_world None)) (lit "hello?"))
                           (lit "hello?") []) (fresh_world None))) =
                 messages (ui (fresh_world None)) ++
                 [ userMessage_of (calm fetch_rejects) (lit "hello?") [];
                   errorMessage_of (calm fetch_rejects) ])
      by exact (proj2 (page_through_relay out_of_quota (calm fetch_rejects) (lit "hello?") []
                         (fresh_world None))).
    rewrite Hm. reflexivity.
  - assert (Hm : exists tail,
               messages (ui (exec (handleSubmit
                           (through_relay (fun req => Relay.completion (Relay.cr_model req))
                              (calm fetch_rejects) (ui (fresh_world None)) (lit "hello?"))
                           (lit "hello?") []) (fresh_world None))) =
                 messages (ui (fresh_world None)) ++
                 userMessage_of (calm fetch_rejects) (lit "hello?") [] ::
                 assistantMessage_of (calm fetch_rejects) (lit "gpt-3.5-turbo") :: tail /\
               (tail = [] \/ tail = [errorMessage_of (calm fetch_rejects)]) /\
               (assistant_insert (calm fetch_rejects) <> Rejects -> tail = []) /\
               (user (ui (fresh_world None)) = None ->
                currentSessionId (ui (fresh_world None)) = None -> tail = []) /\
               (assistant_insert (calm fetch_rejects) = Rejects ->
                currentSessionId (ui (fresh_world None)) <> None ->
                tail = [errorMessage_of (calm fetch_rejects)]))
      by exact (proj2 (page_through_relay (fun req => Relay.completion (Relay.cr_model req))
                         (calm fetch_rejects) (lit "hello?") [] (fresh_world None))).
    destruct Hm as (tail & Hm & _ & Hquiet & _).
    rewrite Hm, (Hquiet H). reflexivity.
  - assert (Hm : exists tail,
               messages (ui (exec (handleSubmit
                           (through_relay (fun req => Relay.completion (Relay.cr_model req))
                              (assistant_save_rejects fetch_rejects)
                              (ui alice_on_her_session) (lit "hello?"))
                           (lit "hello?") []) alice_on_her_session)) =
                 messages (ui alice_on_her_session) ++
                 userMessage_of (assistant_save_rejects fetch_rejects) (lit "hello?") [] ::
                 assistantMessage_of (assistant_save_rejects fetch_rejects)
                   (lit "gpt-3.5-turbo") :: tail /\
               (tail = [] \/ tail = [errorMessage_of (assistant_save_rejects fetch_rejects)]) /\
               (assistant_insert (assistant_save_rejects fetch_rejects) <> Rejects ->
                tail = []) /\
               (user (ui alice_on_her_session) = None ->
                currentSessionId (ui alice_on_her_session) = None -> tail = []) /\
               (assistant_insert (assistant_save_rejects fetch_rejects) = Rejects ->
                currentSessionId (ui alice_on_her_session) <> None ->
                tail = [errorMessage_of (assistant_save_rejects fetch_rejects)]))
      by exact (proj2 (page_through_relay (fun req => Relay.completion (Relay.cr_model req))
                         (assistant_save_rejects fetch_rejects) (lit "hello?") []
                         alice_on_her_session)).
    destruct Hm as (tail & Hm & _ & _ & _ & Hloud).
    rewrite Hm, (Hloud Hr Hs). reflexivity.
Defined.

(** ** Starting over *)

Lemma call_gateway_rows env closure query sid w :
  exists rows,
    chat_messages (db (exec (call_gateway env closure query (Some sid)) w)) =
      chat_messages (db w) ++ rows /\
    Forall (fun m => cm_session_id m = sid) rows.
Proof.
  assert (Hnil : forall l : list chat_message, exists rows,
             l = l ++ rows /\ Forall (fun m => cm_session_id m = sid) rows).
  { intros l. exists []. now rewrite app_nil_r. }
  unfold_prog. destruct (gateway env) as [| |reply]; cbn; try apply Hnil.
  destruct (strict_eq (status reply) (lit "success")); cbn; try apply Hnil.
  destruct (assistant_insert env); cbn; try apply Hnil.
  unfold Pg.insert_message.
  destruct (negb (Pg.session_owned _ _ _)); cbn; try apply Hnil.
  destruct (negb (Pg.session_exists _ _)); cbn; try apply Hnil.
  eexists. split; [reflexivity|]. repeat constructor.
Qed.

(** X20.  A new chat forgets the old one.  [handleNewChat] itself touches
    nothing in the store.  The next submission of a signed-in user tells
    the model nothing of the earlier conversation (its history is empty), it
    creates a session of its own, and every row it writes goes into that
    session, none into the one that was open before. *)
Theorem new_chat_starts_afresh env query files w u :
  user (ui w) = Some u ->
  session_insert env = Reached ->
  user_insert env = Reached ->
  db (exec handleNewChat w) = db w /\
  requests (exec (handleSubmit env query files) (exec handleNewChat w)) =
    requests w ++
    [ {| message := query;
         model := Some (model_text (selectedModel (ui w)));
         history := Some [] |} ] /\
  chat_sessions (db (exec (handleSubmit env query files) (exec handleNewChat w))) =
    chat_sessions (db w) ++ [new_session env u query (db w)] /\
  currentSessionId (ui (exec (handleSubmit env query files) (exec handleNewChat w))) =
    Some (uuid_seed (db w)) /\
  exists added,
    chat_messages (db (exec (handleSubmit env query files) (exec handleNewChat w))) =
      chat_messages (db w) ++ added /\
    Forall (fun m => cm_session_id m = uuid_seed (db w)) added.
Proof.
  intros Hu Ht Ht'. split; [reflexivity|].
  set (w0 := exec handleNewChat w).
  assert (Hu0 : user (ui w0) = Some u) by exact Hu.
  assert (Hs0 : currentSessionId (ui w0) = None) by reflexivity.
  destruct (before_gateway_created env query files w0 u Hu0 Hs0 Ht Ht') as (El & Eb).
  rewrite handleSubmit_gateway, El.
  destruct (call_gateway_frame env (ui w0) query (Some (uuid_seed (db w0)))
              (before_gateway env query files w0)) as (Hcs & Hid & _ & Hq).
  destruct (call_gateway_rows env (ui w0) query (uuid_seed (db w0))
              (before_gateway env query files w0)) as (rows & Hrows & Hall).
  cbv zeta in Hcs, Hid, Hq. rewrite Hcs, Hid, Hq, Hrows, Eb.
  cbn [db ui chat_sessions chat_messages currentSessionId requests].
  repeat split.
  exists (user_row env (S (uuid_seed (db w))) (uuid_seed (db w))
            (userMessage_of env query files) :: rows).
  split; [now rewrite <- app_assoc|]. constructor; [reflexivity | exact Hall].
Qed.

Lemma new_chat_starts_afresh_witness :
  user (ui alice_on_her_session) = Some alice /\
  session_insert (calm (success_reply "Hi there")) = Reached /\
  user_insert (calm (success_reply "Hi there")) = Reached /\
  map history
    (requests (exec (handleSubmit (calm (success_reply "Hi there")) (lit "hello?") [])
                    (exec handleNewChat alice_on_her_session))) = [Some []] /\
  currentSessionId
    (ui (exec (handleSubmit (calm (success_reply "Hi there")) (lit "hello?") [])
              (exec handleNewChat alice_on_her_session))) = Some 5%nat.
Proof.
  split; [reflexivity|]. split; [reflexivity|]. split; [reflexivity|].
  destruct (new_chat_starts_afresh (calm (success_reply "Hi there")) (lit "hello?") []
              alice_on_her_session alice eq_refl eq_refl eq_refl)
    as (_ & Hq & _ & Hid & _).
  split; [now rewrite Hq | exact Hid].
Defined.

(** ** Replaying a conversation *)

Lemma submit_active_rows u sid w s :
  user (ui w) = Some u ->
  currentSessionId (ui w) = Some sid ->
  Pg.session_owned (Some (uid u)) (chat_sessions (db w)) sid = true ->
  succeeds s ->
  chat_messages (db (submit w s)) =
    chat_messages (db w) ++ saved_rows (uuid_seed (db w)) sid s /\
  uuid_seed (db (submit w s)) = S (S (uuid_seed (db w))) /\
  messages (ui (submit w s)) =
    messages (ui w) ++
    [ userMessage_of (sub_env s) (sub_query s) (sub_files s);
      assistantMessage_of (sub_env s) (reply_text s) ].
Proof.
  intros Hu Hs Ho (_ & Htu & Hta & Hg).
  unfold submit, saved_rows, reply_text.
  destruct (gateway_reply (gateway (sub_env s))) as [text|] eqn:Eg; [|now contradiction Hg].
  rewrite handleSubmit_gateway.
  assert (Ho' : Pg.session_owned (auth_uid w) (chat_sessions (db w)) sid = true).
  { unfold auth_uid. now rewrite Hu. }
  destruct (before_gateway_active (sub_env s) (sub_query s) (sub_files s) w sid
              Hs Htu Ho') as (El & Eb).
  rewrite El, Eb.
  rewrite (call_gateway_saved _ _ _ _ text sid Eg Hta); [|exact Ho'].
  cbn. rewrite <- !app_assoc. repeat split.
Qed.

Lemma submit_first_rows u w s :
  user (ui w) = Some u ->
  currentSessionId (ui w) = None ->
  succeeds s ->
  chat_messages (db (submit w s)) =
    chat_messages (db w) ++ saved_rows (S (uuid_seed (db w))) (uuid_seed (db w)) s /\
  uuid_seed (db (submit w s)) = S (S (S (uuid_seed (db w)))) /\
  messages (ui (submit w s)) =
    messages (ui w) ++
    [ userMessage_of (sub_env s) (sub_query s) (sub_files s);
      assistantMessage_of (sub_env s) (reply_text s) ].
Proof.
  intros Hu Hs (Hts & Htu & Hta & Hg).
  unfold submit, saved_rows, reply_text.
  destruct (gateway_reply (gateway (sub_env s))) as [text|] eqn:Eg; [|now contradiction Hg].
  rewrite handleSubmit_gateway.
  destruct (before_gateway_created (sub_env s) (sub_query s) (sub_files s) w u
              Hu Hs Hts Htu) as (El & Eb).
  rewrite El, Eb.
  rewrite (call_gateway_saved _ _ _ _ text (uuid_seed (db w)) Eg Hta).
  - cbn. rewrite <- !app_assoc. repeat split.
  - cbn. rewrite Hu. cbn. unfold Pg.session_owned.
    rewrite existsb_app. cbn. rewrite !Nat.eqb_refl. apply orb_true_r.
Qed.

Lemma submit_all_active_rows u sid l : forall w,
  user (ui w) = Some u ->
  currentSessionId (ui w) = Some sid ->
  Pg.session_owned (Some (uid u)) (chat_sessions (db w)) sid = true ->
  Forall succeeds l ->
  chat_messages (db (submit_all w l)) =
    chat_messages (db w) ++ rows_from (uuid_seed (db w)) sid l /\
  map shown (messages (ui (submit_all w l))) = map shown (messages (ui w)) ++ turns l.
Proof.
  induction l as [|s l IH]; intros w Hu Hs Ho Hall.
  - cbn. now rewrite !app_nil_r.
  - inversion Hall as [|s' l' Hok Hrest]; subst.
    destruct (submit_active u sid w s Hu Hs Ho Hok) as (Hu' & Hs' & Hcs & _).
    destruct (submit_active_rows u sid w s Hu Hs Ho Hok) as (Hrows & Hseed & Hmsgs).
    assert (Ho' : Pg.session_owned (Some (uid u)) (chat_sessions (db (submit w s))) sid = true)
      by now rewrite Hcs.
    destruct (IH (submit w s) Hu' Hs' Ho' Hrest) as (Hr2 & Hm2).
    change (submit_all w (s :: l)) with (submit_all (submit w s) l).
    rewrite Hr2, Hm2, Hrows, Hseed, Hmsgs, map_app, <- !app_assoc. split; reflexivity.
Qed.

Lemma rows_from_clocks id sid l :
  map cm_created_at (rows_from id sid l) = clocks l.
Proof.
  revert id. induction l as [|s l IH]; intros id; [reflexivity|].
  cbn. now rewrite IH.
Qed.

Lemma rows_from_session id sid l :
  Forall (fun m => cm_session_id m = sid) (rows_from id sid l).
Proof.
  revert id. induction l as [|s l IH]; intros id; cbn; repeat constructor. apply IH.
Qed.

Lemma rows_from_shown id sid l :
  map (fun row => shown (message_of_row row)) (rows_from id sid l) = turns l.
Proof.
  revert id. induction l as [|s l IH]; intros id; [reflexivity|].
  cbn. now rewrite IH.
Qed.

Lemma sorted_by_time (rows : list chat_message) :
  StronglySorted Z.lt (map cm_created_at rows) -> StronglySorted created_le rows.
Proof.
  induction rows as [|h t IH]; cbn; intros H; [constructor|].
  inversion H as [|x l Hs Hh]; subst. constructor; [now apply IH|].
  rewrite Forall_map in Hh. eapply Forall_impl; [|exact Hh].
  unfold created_le. intros; lia.
Qed.

(** Rows already in ascending order come back as they are. *)
Lemma order_by_sorted_rows rows :
  StronglySorted created_le rows -> Pg.order_by_created_at rows = rows.
Proof.
  induction 1 as [|h t Hs IH Hh]; [reflexivity|].
  change (Pg.order_by_created_at (h :: t)) with (Pg.place h (Pg.order_by_created_at t)).
  rewrite IH. destruct t as [|x r]; [reflexivity|]. cbn [Pg.place].
  inversion Hh as [|x' r' Hx _]; subst. unfold created_le in Hx.
  apply Z.leb_le in Hx. now rewrite Hx.
Qed.

Lemma visible_subset a sid d :
  filter (fun m => Nat.eqb (cm_session_id m) sid) (chat_messages d) = [] ->
  Pg.visible_messages a sid d = [].
Proof.
  unfold Pg.visible_messages. induction (chat_messages d) as [|m t IH]; [reflexivity|].
  cbn. destruct (Nat.eqb (cm_session_id m) sid); cbn; [discriminate | exact IH].
Qed.

(** X21.  Replay.  A signed-in user starts without a session over a
    consistent store and makes submissions that all succeed, the clock
    advancing from one write to the next.  Loading the session they created
    then shows, turn for turn and in order, what the page showed for these
    submissions: role and text agree, with "Hello" standing for an empty
    text.  What was on screen before the first submission, such as the
    welcome message, is not part of the replay. *)
Theorem reload_replays_submissions u w l :
  user (ui w) = Some u ->
  currentSessionId (ui w) = None ->
  store_wf (db w) ->
  Forall succeeds l ->
  StronglySorted Z.lt (clocks l) ->
  map shown (messages (ui (exec (loadSession Reached (uuid_seed (db w))) (submit_all w l)))) =
    turns l /\
  map shown (messages (ui (submit_all w l))) = map shown (messages (ui w)) ++ turns l.
Proof.
  intros Hu Hs Hwf Hall Htick. rewrite loadSession_reached. cbn [ui messages].
  destruct l as [|s l].
  - cbn. rewrite app_nil_r. split; [|reflexivity].
    now rewrite (visible_subset _ _ _ (fresh_session_has_no_rows _ Hwf)).
  - inversion Hall as [|s' l' Hok Hrest]; subst.
    destruct (submit_first u w s Hu Hs Hok) as (Hu' & Hs' & Hcs & _).
    destruct (submit_first_rows u w s Hu Hs Hok) as (Hrows & Hseed & Hmsgs).
    assert (Ho : Pg.session_owned (Some (uid u)) (chat_sessions (db (submit w s)))
                   (uuid_seed (db w)) = true).
    { rewrite Hcs. unfold Pg.session_owned. rewrite existsb_app. cbn.
      rewrite !Nat.eqb_refl. apply orb_true_r. }
    destruct (submit_all_active u (uuid_seed (db w)) l (submit w s) Hu' Hs' Ho Hrest)
      as (_ & Hcs2 & _).
    destruct (submit_all_active_rows u (uuid_seed (db w)) l (submit w s) Hu' Hs' Ho Hrest)
      as (Hr2 & Hm2).
    change (submit_all w (s :: l)) with (submit_all (submit w s) l) in *.
    assert (Hall_rows : chat_messages (db (submit_all (submit w s) l)) =
                        chat_messages (db w) ++
                        rows_from (S (uuid_seed (db w))) (uuid_seed (db w)) (s :: l)).
    { rewrite Hr2, Hrows, Hseed, <- app_assoc. reflexivity. }
    split.
    + assert (Hown : Pg.session_owned (auth_uid (submit_all (submit w s) l))
                       (chat_sessions (db (submit_all (submit w s) l)))
                       (uuid_seed (db w)) = true).
      { rewrite Hcs2. unfold auth_uid.
        assert (Huser : user (ui (submit_all (submit w s) l)) = Some u).
        { clear - Hu' Hs' Ho Hrest. revert Hu' Hs' Ho.
          generalize (submit w s) as w0. induction Hrest as [|x r Hx _ IH]; intros w0 H1 H2 H3.
          - exact H1.
          - destruct (submit_active u (uuid_seed (db w)) w0 x H1 H2 H3 Hx)
              as (H1' & H2' & H3' & _).
            apply IH; [exact H1' | exact H2' | now rewrite H3']. }
        rewrite Huser. exact Ho. }
      rewrite (visible_messages_owned _ _ _ Hown), Hall_rows, filter_app.
      rewrite (fresh_session_has_no_rows _ Hwf). cbn [app].
      rewrite filter_all.
      * rewrite order_by_sorted_rows.
        -- rewrite map_map. apply rows_from_shown.
        -- apply sorted_by_time. now rewrite rows_from_clocks.
      * intros m Hm. apply Nat.eqb_eq.
        pose proof (rows_from_session (S (uuid_seed (db w))) (uuid_seed (db w)) (s :: l)) as Hf.
        rewrite Forall_forall in Hf. now apply Hf.
    + rewrite Hm2, Hmsgs, map_app, <- app_assoc. reflexivity.
Qed.

Lemma reload_replays_submissions_witness :
  user (ui (fresh_world (Some alice))) = Some alice /\
  currentSessionId (ui (fresh_world (Some alice))) = None /\
  store_wf (db (fresh_world (Some alice))) /\
  Forall succeeds [first_call; later_call] /\
  StronglySorted Z.lt (clocks [first_call; later_call]) /\
  map shown (messages (ui (exec (loadSession Reached 0%nat)
                              (submit_all (fresh_world (Some alice))
                                 [first_call; later_call])))) =
    [ (role_user, section8_query); (role_assistant, lit "It depends.");
      (role_user, lit "Hello"); (role_assistant, lit "See the attachment.") ].
Proof.
  assert (Hall : Forall succeeds [first_call; later_call]).
  { repeat constructor; discriminate. }
  assert (Htick : StronglySorted Z.lt (clocks [first_call; later_call])).
  { cbn. repeat constructor. }
  split; [reflexivity|]. split; [reflexivity|].
  split; [exact fresh_store_is_consistent|]. split; [exact Hall|]. split; [exact Htick|].
  exact (proj1 (reload_replays_submissions alice (fresh_world (Some alice))
                  [first_call; later_call] eq_refl eq_refl fresh_store_is_consistent
                  Hall Htick)).
Defined.

(** Loading a session twice in a row, with nothing written in between,
    leaves the page exactly as the first load left it. *)
Lemma loadSession_twice sessionId w :
  exec (loadSession Reached sessionId) (exec (loadSession Reached sessionId) w) =
  exec (loadSession Reached sessionId) w.
Proof. rewrite !loadSession_reached. reflexivity. Qed.

(** ** The compliance report *)

(** X22.  Expanding and collapsing a finding.  Toggling an index flips
    whether it is expanded and changes nothing for any other index, and a
    list without repetitions stays without repetitions, so two toggles of
    the same index bring back the same set of expanded findings. *)
Theorem toggleFinding_flips index prev :
  (In index (Report.toggleFinding index prev) <-> ~ In index prev) /\
  (forall i, i <> index -> (In i (Report.toggleFinding index prev) <-> In i prev)) /\
  (NoDup prev -> NoDup (Report.toggleFinding index prev)) /\
  (forall i, In i (Report.toggleFinding index (Report.toggleFinding index prev)) <-> In i prev).
Proof.
  assert (Hflip : forall l, In index (Report.toggleFinding index l) <-> ~ In index l).
  { intros l. unfold Report.toggleFinding.
    destruct (existsb (Nat.eqb index) l) eqn:E.
    - apply existsb_exists in E as (x & Hx & Ex). apply Nat.eqb_eq in Ex. subst x.
      rewrite filter_In, Nat.eqb_refl. cbn. split; [intros [_ H]; discriminate | tauto].
    - assert (Hn : ~ In index l).
      { intros Hin. rewrite <- not_true_iff_false in E. apply E.
        apply existsb_exists. exists index. split; [exact Hin | apply Nat.eqb_refl]. }
      rewrite in_app_iff. cbn. tauto. }
  assert (Hother : forall l i, i <> index ->
                               (In i (Report.toggleFinding index l) <-> In i l)).
  { intros l i Hne. unfold Report.toggleFinding.
    destruct (existsb (Nat.eqb index) l).
    - rewrite filter_In, negb_true_iff, Nat.eqb_neq. tauto.
    - rewrite in_app_iff. cbn. intuition congruence. }
  split; [apply Hflip|]. split; [apply Hother|]. split.
  - intros Hnd. unfold Report.toggleFinding.
    destruct (existsb (Nat.eqb index) prev) eqn:E.
    + now apply NoDup_filter.
    + apply NoDup_app; [exact Hnd | repeat constructor; intros [] |].
      intros x Hx [<- | []]. rewrite <- not_true_iff_false in E. apply E.
      apply existsb_exists. exists index. split; [exact Hx | apply Nat.eqb_refl].
  - intros i. destruct (Nat.eq_dec i index) as [-> | Hne].
    + rewrite Hflip, Hflip. destruct (in_dec Nat.eq_dec index prev); tauto.
    + now rewrite !Hother.
Qed.
